(** * Build-cache resolution, Dockerfile rewriting and retry wrapper

    A shallow embedding of [experiment/oss_fuzz_checkout.py] and [utils.py].

    Conventions of the embedding.
    - A Python [str] is a [string]; every [ascii] stands for one character.
    - The file system is a finite map from path strings to file contents.
      A content is the text that reading the file in text mode returns:
      files that cannot be decoded are not represented.
    - External commands ([subprocess.run]) are answered by an oracle that
      threads an abstract world; the commands issued are logged in order.
      The oracle says whether the process exits, and with which status, or
      whether [subprocess.run] raises something else.
    - Python exceptions are explicit results: those the modelled code raises
      by itself ([FileNotFoundError] of [shutil.copy] and [open],
      [AttributeError] of a method call on an object that has no such
      method, ...) and those its collaborators raise and it does not catch.
    - Calls of [logging] have no effect on the modelled state and do not
      raise; they are left out.
    - The [while True] loop of the retry wrapper runs on fuel; the fuel it is
      given is shown to be enough. *)

From Stdlib Require Import ZArith Lia Ascii.
From stdpp Require Import base strings list gmap.

Local Open Scope Z_scope.

(* ===================================================================== *)
(** ** Python string primitives *)
(* ===================================================================== *)

(** The line separator of [str.split("\n")]; a regular-expression [.] matches
    every character but this one. *)
Definition LF : ascii := "010"%char.

Definition ch_eqb (a b : ascii) : bool := Ascii.eqb a b.

(** [s.startswith(p)] *)
Fixpoint startswith (s p : string) {struct p} : bool :=
  match p with
  | EmptyString => true
  | String a p' =>
      match s with
      | EmptyString => false
      | String b s' => ch_eqb a b && startswith s' p'
      end
  end.

(** [s.endswith(p)] for a one-character [p]. *)
Fixpoint endswith_char (s : string) (c : ascii) : bool :=
  match s with
  | EmptyString => false
  | String a EmptyString => ch_eqb a c
  | String _ s' => endswith_char s' c
  end.

(** [s.split("\n")]: never empty; the empty string gives one empty line. *)
Fixpoint split_lines (s : string) : list string :=
  match s with
  | EmptyString => [EmptyString]
  | String c r =>
      if ch_eqb c LF then EmptyString :: split_lines r
      else match split_lines r with
           | l :: ls => String c l :: ls
           | [] => [String c EmptyString]
           end
  end.

(** [posixpath.join(a, b)]: an absolute [b] replaces [a]; a separator is
    added unless [a] is empty or already ends with one. *)
Definition os_path_join (a b : string) : string :=
  if startswith b "/" then b
  else if bool_decide (a = "") || endswith_char a "/" then a +:+ b
  else a +:+ "/" +:+ b.

(** [os.path.join(a, b, c)] folds [os_path_join] from the left. *)
Definition os_path_join3 (a b c : string) : string :=
  os_path_join (os_path_join a b) c.

(* ===================================================================== *)
(** ** Cache names *)
(* ===================================================================== *)

(** [_get_project_cache_name] *)
Definition _get_project_cache_name (project : string) : string :=
  "gcr.io.oss-fuzz." +:+ project +:+ "_cache".

(** [_get_project_cache_image_name] *)
Definition _get_project_cache_image_name (project sanitizer : string) : string :=
  "us-central1-docker.pkg.dev/oss-fuzz/oss-fuzz-gen/"
    +:+ project +:+ "-ofg-cached-" +:+ sanitizer.

(** The sanitizers [_prepare_image_cache] iterates over. *)
Definition SANITIZERS : list string := ["address"; "coverage"].

(* ===================================================================== *)
(** ** [rectify_docker_tag] *)
(* ===================================================================== *)

Section Rectify.

(** [str.isalnum] on one character: the class [\w] of [re] on a [str]
    pattern is "alphanumeric or underscore".  The table belongs to the
    Python runtime, so it is a parameter here. *)
Variable isalnum : ascii -> bool.

Definition is_word (c : ascii) : bool := isalnum c || ch_eqb c "_".

(** [re.sub(r"::", "-", s)]: leftmost non-overlapping occurrences. *)
Fixpoint sub_double_colon (s : string) : string :=
  match s with
  | EmptyString => EmptyString
  | String c r =>
      match r with
      | String d r' =>
          if ch_eqb c ":" && ch_eqb d ":" then String "-" (sub_double_colon r')
          else String c (sub_double_colon r)
      | EmptyString => String c EmptyString
      end
  end.

(** Membership in the character class [[\w_.]]. *)
Definition in_word_us_dot (c : ascii) : bool :=
  is_word c || ch_eqb c "_" || ch_eqb c ".".

(** [re.sub(r"[^\w_.]", "-", s)] *)
Fixpoint sub_non_word (s : string) : string :=
  match s with
  | EmptyString => EmptyString
  | String c r =>
      String (if in_word_us_dot c then c else "-"%char) (sub_non_word r)
  end.

(** Membership in the character class [[-_]]. *)
Definition in_dash_us (c : ascii) : bool := ch_eqb c "-" || ch_eqb c "_".

(** [re.sub(r"[-_]{2,}", "-", s)].  The match is greedy, so it covers a
    maximal run; [in_run] tells that the scan is inside a run of length two
    or more whose replacement has been emitted already. *)
Fixpoint sub_dash_runs (in_run : bool) (s : string) : string :=
  match s with
  | EmptyString => EmptyString
  | String c r =>
      if in_dash_us c then
        if in_run then sub_dash_runs true r
        else match r with
             | String d _ =>
                 if in_dash_us d then String "-" (sub_dash_runs true r)
                 else String c (sub_dash_runs false r)
             | EmptyString => String c EmptyString
             end
      else String c (sub_dash_runs false r)
  end.

Definition rectify_docker_tag (docker_tag : string) : string :=
  let valid_docker_tag := sub_double_colon docker_tag in
  let valid_docker_tag := sub_non_word valid_docker_tag in
  let valid_docker_tag := sub_dash_runs false valid_docker_tag in
  valid_docker_tag.

(** The legal reference alphabet: word characters, [.] and the separator. *)
Definition legal_char (c : ascii) : bool :=
  is_word c || ch_eqb c "." || ch_eqb c "-".

Fixpoint all_chars (P : ascii -> bool) (s : string) : bool :=
  match s with
  | EmptyString => true
  | String c r => P c && all_chars P r
  end.

(** Two neighbouring characters that both satisfy [P]. *)
Fixpoint adjacent (P : ascii -> bool) (s : string) : bool :=
  match s with
  | EmptyString => false
  | String c r =>
      match r with
      | String d _ => (P c && P d) || adjacent P r
      | EmptyString => false
      end
  end.

End Rectify.

(* ===================================================================== *)
(** ** The text transformation of [rewrite_project_to_cached_project] *)
(* ===================================================================== *)

Definition NL : string := String LF EmptyString.

(** The fixed part of the regular expression
    [FROM gcr.io/oss-fuzz-base/base-builder.*]; its [.] is a wildcard. *)
Definition BASE_BUILDER_RE : string := "FROM gcr.io/oss-fuzz-base/base-builder".

(** Does the fixed part [p] of the expression match at the start of [s]?
    A [.] in [p] matches any character except the line separator. *)
Fixpoint match_here (p s : string) {struct p} : bool :=
  match p with
  | EmptyString => true
  | String a p' =>
      match s with
      | EmptyString => false
      | String b s' =>
          (if ch_eqb a "." then negb (ch_eqb b LF) else ch_eqb a b)
          && match_here p' s'
      end
  end.

(** [re.sub(r"FROM gcr.io/oss-fuzz-base/base-builder.*", "FROM $CACHE_IMAGE", s)].
    A match runs to the end of its line (the trailing [.*] is greedy and stops
    at the line separator); [in_match] tells that the scan is inside a match
    whose replacement has been emitted already. *)
Fixpoint sub_base_builder (in_match : bool) (s : string) : string :=
  match s with
  | EmptyString => EmptyString
  | String c r =>
      if in_match then
        if ch_eqb c LF then String c (sub_base_builder false r)
        else sub_base_builder true r
      else if match_here BASE_BUILDER_RE s then
        "FROM $CACHE_IMAGE" +:+ sub_base_builder true r
      else String c (sub_base_builder false r)
  end.

(** [enumerate(l)], counting from [i]. *)
Fixpoint enumerate_from {A} (i : Z) (l : list A) : list (Z * A) :=
  match l with
  | [] => []
  | x :: l' => (i, x) :: enumerate_from (i + 1) l'
  end.

Definition enumerate {A} (l : list A) : list (Z * A) := enumerate_from 0 l.

(** The four line indices of the classification scan; [-1] is "unset". *)
Record scan : Type := Scan {
  arg_line : Z;
  from_line : Z;
  copy_fuzzer_line : Z;
  copy_build_line : Z
}.

Definition scan_init : scan := Scan (-1) (-1) (-1) (-1).

(** The body of the first [for line_idx, line in enumerate(...)] loop. *)
Definition scan_line (st : scan) (il : Z * string) : scan :=
  let '(line_idx, line) := il in
  let st :=
    if startswith line "ARG" && (arg_line st =? -1)
    then Scan line_idx (from_line st) (copy_fuzzer_line st) (copy_build_line st)
    else st in
  let st :=
    if startswith line "FROM" && (from_line st =? -1)
    then Scan (arg_line st) line_idx (copy_fuzzer_line st) (copy_build_line st)
    else st in
  if startswith line "COPY"
  then Scan (arg_line st) (from_line st) (copy_build_line st) line_idx
  else st.

Definition scan_lines (lines : list string) : scan :=
  fold_left scan_line (enumerate lines) scan_init.

Definition lines_to_keep (st : scan) : gset Z :=
  {[ arg_line st; from_line st; copy_fuzzer_line st; copy_build_line st ]}.

(** The body of the second loop: a kept line is copied, any other line is
    emitted behind the comment marker. *)
Definition emit_line (keep : gset Z) (new_content : string) (il : Z * string)
    : string :=
  let '(line_idx, line) := il in
  if bool_decide (line_idx ∉ keep)
  then new_content +:+ ("# " +:+ line +:+ NL)
  else new_content +:+ (line +:+ NL).

(** The text after the [ARG] line has been put in front and the base image
    has been substituted: what both loops iterate over. *)
Definition with_cache_arg (cached_image_name docker_content : string) : string :=
  let arg_line := "ARG CACHE_IMAGE=" +:+ cached_image_name in
  let docker_content := arg_line +:+ NL +:+ docker_content in
  sub_base_builder false docker_content.

(** The indices the first loop leaves in [arg_line], [from_line],
    [copy_fuzzer_line] and [copy_build_line]. *)
Definition recorded_scan (cached_image_name docker_content : string) : scan :=
  scan_lines (split_lines (with_cache_arg cached_image_name docker_content)).

(** From the text read from [Dockerfile_original] to the text written to the
    cached Dockerfile. *)
Definition cached_dockerfile_content (cached_image_name docker_content : string)
    : string :=
  let st := recorded_scan cached_image_name docker_content in
  let docker_content := with_cache_arg cached_image_name docker_content in
  fold_left (emit_line (lines_to_keep st))
            (enumerate (split_lines docker_content)) EmptyString.

(** [ "\n".join(lines) ] *)
Fixpoint join_lines (lines : list string) : string :=
  match lines with
  | [] => EmptyString
  | [l] => l
  | l :: ls => l +:+ NL +:+ join_lines ls
  end.

(** The build definition of the minimal fixture, its lines joined by the
    line separator. *)
Definition FIXTURE : string :=
  join_lines ["FROM base-builder"; "RUN a"; "COPY build.sh ."; "COPY fuzzer.cc ."].

(** The same fixture on the base image the substitution looks for. *)
Definition FIXTURE_BASE_BUILDER : string :=
  join_lines ["FROM gcr.io/oss-fuzz-base/base-builder"; "RUN a";
              "COPY build.sh ."; "COPY fuzzer.cc ."].

(** An index of the text with the inserted line, from an index of the
    original text; "unset" stays "unset". *)
Definition shift (i : Z) : Z := if i =? -1 then -1 else i + 1.

(** The first [n] characters of [s]. *)
Fixpoint take_chars (n : nat) (s : string) : string :=
  match n, s with
  | S n', String c r => String c (take_chars n' r)
  | _, _ => EmptyString
  end.

(** [s] without its first [n] characters. *)
Fixpoint drop_chars (n : nat) (s : string) : string :=
  match n, s with
  | S n', String _ r => drop_chars n' r
  | _, _ => s
  end.

(* ===================================================================== *)
(** ** Files, external commands and the state they act on *)
(* ===================================================================== *)

(** One [subprocess.run] call: the argument vector, the working directory and
    the variables added to [os.environ]. *)
Record Cmd : Type := MkCmd {
  argv : list string;
  cwd : option string;
  env_override : list (string * string)
}.

(** The exceptions that leave the functions of this module: the classes
    the code paths raise themselves, and [OtherException] for whatever else
    an external command or a library call raises. *)
Inductive Exn : Type :=
| FileNotFoundError (path : string)
| NotADirectoryError (path : string)
| FileExistsError (path : string)
| AttributeError
| TypeError
| UnicodeDecodeError
| OtherException (class_name : string).

(** What [sp.run(cmd, check=True)] comes to: the process exits, with status
    zero or, where Python raises [CalledProcessError], with another status;
    or [sp.run] raises something else, as [FileNotFoundError] when the
    executable or the working directory is missing.  The [except] clauses
    of this module name [CalledProcessError] only. *)
Inductive Completion : Type :=
| Exited (zero : bool)
| Uncaught (e : Exn).

Inductive Res (A : Type) : Type :=
| Ok (a : A)
| Raise (e : Exn).
Arguments Ok {A} a.
Arguments Raise {A} e.

(** What a [for] body tells its loop: go on with the next element, or leave
    the enclosing function with a value. *)
Inductive Flow (A : Type) : Type :=
| Continue
| Return (a : A).
Arguments Continue {A}.
Arguments Return {A} a.

Section Checkout.

(** Everything outside the process: registry, docker daemon, network.
    [sp_run cmd w] runs [cmd] with [check=True].  In this model an external
    command changes the world, not the files of [fs]. *)
Variable World : Type.
Variable sp_run : Cmd -> World -> Completion * World.

(** Module-level configuration. *)
Variable OSS_FUZZ_DIR : string.
Variable ENABLE_CACHING : bool.

Record State : Type := MkState {
  fs : gmap string string;
  world : World;
  log : list Cmd
}.

Definition M (A : Type) : Type := State -> Res A * State.

Definition ret {A} (a : A) : M A := fun st => (Ok a, st).

Definition bind {A B} (m : M A) (k : A -> M B) : M B :=
  fun st =>
    match m st with
    | (Ok a, st') => k a st'
    | (Raise e, st') => (Raise e, st')
    end.

Notation "x <- m ;; k" := (bind m (fun x => k))
  (at level 100, m at next level, k at level 200, right associativity,
   only parsing).
Notation "m ;;; k" := (bind m (fun _ => k))
  (at level 100, k at level 200, right associativity, only parsing).

(** [os.path.isfile] *)
Definition isfile (path : string) : M bool :=
  fun st => (Ok (bool_decide (is_Some (fs st !! path))), st).

(** [open(path, "r").read()]: the content of the file map is the text as
    read. *)
Definition read_file (path : string) : M string :=
  fun st =>
    match fs st !! path with
    | Some content => (Ok content, st)
    | None => (Raise (FileNotFoundError path), st)
    end.

(** [open(path, "w").write(content)]; the directory is taken to exist. *)
Definition write_file (path content : string) : M unit :=
  fun st => (Ok tt, MkState (<[path := content]> (fs st)) (world st) (log st)).

(** [shutil.copy(src, dst)] between regular files. *)
Definition shutil_copy (src dst : string) : M unit :=
  fun st =>
    match fs st !! src with
    | Some content =>
        (Ok tt, MkState (<[dst := content]> (fs st)) (world st) (log st))
    | None => (Raise (FileNotFoundError src), st)
    end.

(** [try: sp.run(cmd, check=True) ... except sp.CalledProcessError: ...]:
    the command is logged; [True] for exit status zero, [False] where the
    [except] clause is entered; any other exception propagates. *)
Definition run (cmd : Cmd) : M bool :=
  fun st =>
    match sp_run cmd (world st) with
    | (Exited ok, w) => (Ok ok, MkState (fs st) w (log st ++ [cmd]))
    | (Uncaught e, w) => (Raise e, MkState (fs st) w (log st ++ [cmd]))
    end.

Definition manifest_inspect_cmd (image : string) : Cmd :=
  MkCmd ["docker"; "manifest"; "inspect"; image] None [].

Definition pull_cmd (image : string) : Cmd :=
  MkCmd ["docker"; "pull"; image] None [].

Definition build_fuzzers_cmd (project sanitizer container : string) : Cmd :=
  MkCmd ["python3"; "infra/helper.py"; "build_fuzzers"; project;
         "--sanitizer"; sanitizer]
        (Some OSS_FUZZ_DIR) [("OSS_FUZZ_SAVE_CONTAINERS_NAME", container)].

Definition commit_cmd (container image : string) : Cmd :=
  MkCmd ["docker"; "commit"; container; image] None [].

Definition container_rm_cmd (container : string) : Cmd :=
  MkCmd ["docker"; "container"; "rm"; container] None [].

(** [is_image_cached] *)
Definition is_image_cached (project_name sanitizer : string) : M bool :=
  let cached_image_name := _get_project_cache_image_name project_name sanitizer in
  run (manifest_inspect_cmd cached_image_name).

(** [_has_cache_build_script] *)
Definition _has_cache_build_script (project : string) : M bool :=
  let cached_build_script := os_path_join "fuzzer_build_script" project in
  isfile cached_build_script.

(** The body of the [for sanitizer in ...] loop of [_prepare_image_cache]. *)
Definition _prepare_image_cache_body
    (project cached_container_name sanitizer : string) : M (Flow bool) :=
  cached <- is_image_cached project sanitizer;;
  if cached then ret Continue else
  _pulled <- run (pull_cmd (_get_project_cache_image_name project sanitizer));;
  cached <- is_image_cached project sanitizer;;
  if cached then ret Continue else
  built <- run (build_fuzzers_cmd project sanitizer cached_container_name);;
  if negb built then ret (Return false) else
  let cached_image_name := _get_project_cache_image_name project sanitizer in
  committed <- run (commit_cmd cached_container_name cached_image_name);;
  if negb committed then ret (Return false) else
  _removed <- run (container_rm_cmd cached_container_name);;
  ret Continue.

(** A [for] loop whose body may [continue] or [return]; [fallthrough] is the
    value of the [return] statement after the loop. *)
Fixpoint for_each {A B} (body : A -> M (Flow B)) (l : list A) (fallthrough : B)
    : M B :=
  match l with
  | [] => ret fallthrough
  | x :: l' =>
      r <- body x;;
      match r with
      | Continue => for_each body l' fallthrough
      | Return b => ret b
      end
  end.

(** [_prepare_image_cache] *)
Definition _prepare_image_cache (project : string) : M bool :=
  has_script <- _has_cache_build_script project;;
  if negb has_script then ret false else
  let cached_container_name := _get_project_cache_name project in
  for_each (_prepare_image_cache_body project cached_container_name)
           SANITIZERS true.

(** The loop of [prepare_cached_images] over the set of projects, taken in
    the order [all_projects] in which the set happens to be iterated; the
    value of [_prepare_image_cache] is dropped. *)
Fixpoint prepare_cached_images_loop (all_projects : list string) : M unit :=
  match all_projects with
  | [] => ret tt
  | project :: rest =>
      _r <- _prepare_image_cache project;;
      prepare_cached_images_loop rest
  end.

(** [prepare_cached_images], from the [project] fields of the targets.
    The set is kept as a duplicate-free list. *)
Definition prepare_cached_images (experiment_targets : list string) : M unit :=
  let all_projects := remove_dups experiment_targets in
  prepare_cached_images_loop all_projects.

(** The three Dockerfile paths of a staged project. *)
Definition project_folder (generated_project : string) : string :=
  os_path_join3 OSS_FUZZ_DIR "projects" generated_project.

Definition active_path (generated_project : string) : string :=
  os_path_join (project_folder generated_project) "Dockerfile".

Definition original_path (generated_project : string) : string :=
  os_path_join (project_folder generated_project) "Dockerfile_original".

Definition cached_path (generated_project sanitizer : string) : string :=
  os_path_join (project_folder generated_project)
               ("Dockerfile_" +:+ sanitizer +:+ "_cached").

(** [rewrite_project_to_cached_project] *)
Definition rewrite_project_to_cached_project
    (project_name generated_project sanitizer : string) : M unit :=
  let cached_image_name := _get_project_cache_image_name project_name sanitizer in
  let cached_dockerfile := cached_path generated_project sanitizer in
  converted <- isfile cached_dockerfile;;
  if converted then ret tt else
  let original_dockerfile := original_path generated_project in
  has_original <- isfile original_dockerfile;;
  (if negb has_original
   then shutil_copy (active_path generated_project) original_dockerfile
   else ret tt);;;
  docker_content <- read_file original_dockerfile;;
  let new_content := cached_dockerfile_content cached_image_name docker_content in
  write_file cached_dockerfile new_content.

(** [prepare_build] *)
Definition prepare_build (project_name sanitizer generated_project : string)
    : M unit :=
  if negb ENABLE_CACHING then ret tt else
  let dockerfile_to_use := active_path generated_project in
  let original_dockerfile := original_path generated_project in
  cached <- is_image_cached project_name sanitizer;;
  if cached then
    let cached_dockerfile := cached_path generated_project sanitizer in
    shutil_copy cached_dockerfile dockerfile_to_use
  else
    shutil_copy original_dockerfile dockerfile_to_use.

End Checkout.

Arguments MkState {World} fs world log.
Arguments fs {World} s.
Arguments world {World} s.
Arguments log {World} s.
Arguments active_path : simpl never.
Arguments original_path : simpl never.
Arguments cached_path : simpl never.
Arguments cached_dockerfile_content : simpl never.
Arguments _get_project_cache_image_name : simpl never.
Arguments _get_project_cache_name : simpl never.

(* ===================================================================== *)
(** ** [retryable] *)
(* ===================================================================== *)

Section Retry.

(** Exception classes [K] and exception values [E]; [type_of e] is the
    exact class [type(e)] of a raised exception. *)
Context {K : Type} `{Countable K}.
Context {E : Type} (type_of : E -> K).

(** [isinstance(e, Exception)]: what [except Exception] catches.  A
    [KeyboardInterrupt] or a [SystemExit] is not an [Exception]. *)
Variable is_Exception : E -> bool.

(** The wrapped function with its arguments applied: a call either returns
    a value or raises, and acts on a state [St] of its own. *)
Context {St A : Type} (func : St -> (E + A) * St).

(** [delay_fn(e, attempt)] and [time.sleep(delay_time)].  Both are called
    inside the [except] block, where nothing catches what they raise. *)
Context {Delay : Type}.
Variable delay_fn : E -> Z -> St -> (E + Delay) * St.
Variable sleep : Delay -> St -> (E + unit) * St.

(** The arguments of the decorator; [None] and the empty collection are
    both "falsy" and both give no entry. *)
Variable exceptions : list K.
Variable default_attempts : Z.
Variable other_exceptions : gmap K Z.

(** [{exc: default_attempts for exc in exceptions or {}} | (other_exceptions or {})]:
    on a common key the right operand of [|] wins. *)
Definition exception_config : gmap K Z :=
  other_exceptions ∪ list_to_map ((fun exc => (exc, default_attempts)) <$> exceptions).

(** [next((attempts for exc_type, attempts in exception_config.items()
          if type(e) is exc_type), 1)] *)
Definition num_attempts_of (e : E) : Z :=
  default 1 (exception_config !! type_of e).

(** What a run of the wrapper leaves behind: the value returned or the
    exception propagated, the number of calls of [func], and the state. *)
Record Outcome : Type := MkOutcome {
  result : E + A;
  invocations : nat;
  final_state : St
}.

(** The [while True] loop, entered with the counter at [attempt] after
    [calls] calls of [func]. [None]: the fuel ran out.  The calls of
    [logging] leave no trace in the state and are left out. *)
Fixpoint wrapper_loop (fuel : nat) (attempt : Z) (calls : nat) (s : St)
    : option Outcome :=
  match fuel with
  | O => None
  | S fuel' =>
      match func s with
      | (inr a, s') => Some (MkOutcome (inr a) (S calls) s')
      | (inl e, s') =>
          if negb (is_Exception e)
          then Some (MkOutcome (inl e) (S calls) s')
          else
            let num_attempts := num_attempts_of e in
            if attempt >=? num_attempts
            then Some (MkOutcome (inl e) (S calls) s')
            else
              let attempt := attempt + 1 in
              match delay_fn e attempt s' with
              | (inl e', s') => Some (MkOutcome (inl e') (S calls) s')
              | (inr delay_time, s') =>
                  match sleep delay_time s' with
                  | (inl e', s') => Some (MkOutcome (inl e') (S calls) s')
                  | (inr _, s') => wrapper_loop fuel' attempt (S calls) s'
                  end
              end
      end
  end.

(** The largest budget of the configuration, at least one: the loop cannot
    call [func] more often. *)
Definition max_attempts : Z :=
  map_fold (fun _ n acc => Z.max n acc) 1 exception_config.

(** [wrapper]: the counter starts at one. *)
Definition wrapper (s : St) : option Outcome :=
  wrapper_loop (Z.to_nat max_attempts) 1 0 s.

(** The two statements between a caught failure [e] and the next call,
    with the counter already at [attempt]:
    [delay_time = delay_fn(e, attempt); time.sleep(delay_time)]. *)
Definition delay_then_sleep (e : E) (attempt : Z) (s : St) : (E + unit) * St :=
  match delay_fn e attempt s with
  | (inl e', s') => (inl e', s')
  | (inr delay_time, s') => sleep delay_time s'
  end.

(** [reaches attempt calls s]: started in [s0], the loop comes to call
    [func] in state [s] with the counter at [attempt], after [calls] calls
    that all raised an [Exception] within its budget and were followed by a
    delay and a sleep that returned. *)
Inductive reaches (s0 : St) : Z -> nat -> St -> Prop :=
| reaches_first : reaches s0 1 0 s0
| reaches_retry attempt calls s e s' u s'' :
    reaches s0 attempt calls s ->
    func s = (inl e, s') ->
    is_Exception e = true ->
    attempt < num_attempts_of e ->
    delay_then_sleep e (attempt + 1) s' = (inr u, s'') ->
    reaches s0 (attempt + 1) (S calls) s''.

End Retry.

(* ===================================================================== *)
(** ** Vocabulary of the statements *)
(* ===================================================================== *)

(** [e] is what [sp.run] raised for the last of the commands [cmds], which
    left the world [w']. *)
Definition raised_by_last {World : Type}
    (sp_run : Cmd -> World -> Completion * World)
    (cmds : list Cmd) (w' : World) (e : Exn) : Prop :=
  exists (before : list Cmd) (cmd : Cmd) (w : World),
    cmds = before ++ [cmd] /\ sp_run cmd w = (Uncaught e, w').

Definition is_colon (c : ascii) : bool := ch_eqb c ":".

Definition head_is (P : ascii -> bool) (s : string) : bool :=
  match s with
  | EmptyString => false
  | String c _ => P c
  end.

Definition not_LF (c : ascii) : bool := negb (ch_eqb c LF).

(** A string that is a single line. *)
Definition one_line (s : string) : bool := all_chars not_LF s.

(** [st'] is [st] seen from the text with one line inserted in front, the
    inserted line being the first [ARG] line. *)
Definition shifted (st st' : scan) : Prop :=
  arg_line st' = 0
  /\ (-1 <= from_line st /\ from_line st' = shift (from_line st))
  /\ (-1 <= copy_fuzzer_line st /\ copy_fuzzer_line st' = shift (copy_fuzzer_line st))
  /\ (-1 <= copy_build_line st /\ copy_build_line st' = shift (copy_build_line st)).

(** What the second loop appends for the lines [ls], numbered from [i]. *)
Fixpoint emitted (keep : gset Z) (i : Z) (ls : list string) : string :=
  match ls with
  | [] => EmptyString
  | l :: ls' =>
      (if bool_decide (i ∉ keep) then "# " +:+ l else l)
        +:+ NL +:+ emitted keep (i + 1) ls'
  end.

Definition not_blank (c : ascii) : bool := negb (ch_eqb c " ").

(** A character of a name that is neither a blank nor a line separator. *)
Definition name_char (c : ascii) : bool := not_LF c && not_blank c.

(** What [os.path.join] puts in front of a relative second component. *)
Definition join_prefix (a : string) : string :=
  if bool_decide (a = "") || endswith_char a "/" then a else a +:+ "/".

(* ===================================================================== *)
(** ** Concrete worlds, states and wrapped functions *)
(* ===================================================================== *)

(** A world in which every external command fails. *)
Definition offline : Cmd -> unit -> Completion * unit :=
  fun _ w => (Exited false, w).

(** A world in which every external command succeeds. *)
Definition online : Cmd -> unit -> Completion * unit :=
  fun _ w => (Exited true, w).

Definition DIR : string := "/oss-fuzz".

(** A project with a cached build script and nothing else. *)
Definition st_script : State unit :=
  MkState {[ "fuzzer_build_script/libxml2" := "" ]} tt [].

(** A freshly staged project: only the active build definition exists. *)
Definition st_staged : State unit :=
  MkState {[ active_path DIR "libxml2-1f" := FIXTURE ]} tt [].

(** The staged project after one rewrite for [address]. *)
Definition st_rewritten : State unit :=
  (rewrite_project_to_cached_project unit DIR "libxml2" "libxml2-1f" "address"
     st_staged).2.

(** Concrete wrapped functions.
    Exceptions are represented by the name of their class; the state of a
    function counts its calls; nothing is slept. *)

Definition no_delay : string -> Z -> nat -> (string + unit) * nat :=
  fun _ _ s => (inr tt, s).
Definition no_sleep : unit -> nat -> (string + unit) * nat :=
  fun _ s => (inr tt, s).

(** Every class but the three that derive from [BaseException] directly. *)
Definition is_Exception_name (class_name : string) : bool :=
  negb (bool_decide
          (class_name ∈ ["KeyboardInterrupt"; "SystemExit"; "GeneratorExit"])).

(** A delay function that raises. *)
Definition failing_delay : string -> Z -> nat -> (string + unit) * nat :=
  fun _ _ s => (inl "ZeroDivisionError", s).

(** A sleep that is interrupted. *)
Definition interrupted_sleep : unit -> nat -> (string + unit) * nat :=
  fun _ s => (inl "KeyboardInterrupt", s).

(** Always raises [KindA]. *)
Definition always_kind_a (calls : nat) : (string + unit) * nat :=
  (inl "KindA", S calls).

(** Always raises [KindB]. *)
Definition always_kind_b (calls : nat) : (string + unit) * nat :=
  (inl "KindB", S calls).

(** Raises [TimeoutError] on the first call and [ValueError] from then on. *)
Definition timeout_then_value_error (calls : nat) : (string + unit) * nat :=
  (inl (if Nat.eqb calls 0 then "TimeoutError" else "ValueError"), S calls).

(** Always raises [FileNotFoundError], a subclass of [OSError]. *)
Definition always_file_not_found (calls : nat) : (string + unit) * nat :=
  (inl "FileNotFoundError", S calls).

Definition issubclass_example (c parent : string) : bool :=
  bool_decide (c = parent)
  || bool_decide (c = "FileNotFoundError" /\ parent = "OSError").

(** The failure budget [{KindA: 3}]. *)
Definition BUDGET_A : gmap string Z := {[ "KindA" := 3 ]}.

(** The failure budget [{ValueError: 2}], next to [TimeoutError] with the
    default budget. *)
Definition BUDGET_VALUE_ERROR : gmap string Z := {[ "ValueError" := 2 ]}.

(* ===================================================================== *)
(** ** Staging a project and building its image *)
(* ===================================================================== *)

(** [s] without its prefix [p], when [p] is a prefix of [s]. *)
Fixpoint strip_prefix (p s : string) {struct p} : option string :=
  match p with
  | EmptyString => Some s
  | String a p' =>
      match s with
      | EmptyString => None
      | String b s' => if ch_eqb a b then strip_prefix p' s' else None
      end
  end.

(** The file map has no entry for a directory: a directory is there when a
    file lies beneath it.  [os.path.isdir] *)
Definition isdir (files : gmap string string) (dir : string) : bool :=
  negb (bool_decide (dir = ""))
  && existsb (fun kv => startswith kv.1 (join_prefix dir)) (map_to_list files).

(** [os.path.exists] *)
Definition path_exists (files : gmap string string) (path : string) : bool :=
  bool_decide (is_Some (files !! path)) || isdir files path.

(** The files after [shutil.copytree(src, dst)] has copied every file
    beneath [src] to the same relative path beneath [dst]. *)
Definition copy_files (src dst : string) (files : gmap string string)
    : gmap string string :=
  foldr (fun kv acc =>
           match strip_prefix (join_prefix src) kv.1 with
           | Some rel => <[join_prefix dst +:+ rel := kv.2]> acc
           | None => acc
           end)
        files (map_to_list files).

(** The [OSError]s of the staging code. *)
Inductive OSError : Type :=
| ENOENT (path : string)     (* FileNotFoundError *)
| ENOTDIR (path : string)    (* NotADirectoryError *)
| EEXIST (path : string).    (* FileExistsError *)

Definition Exn_of_OSError (e : OSError) : Exn :=
  match e with
  | ENOENT path => FileNotFoundError path
  | ENOTDIR path => NotADirectoryError path
  | EEXIST path => FileExistsError path
  end.

(** The two attributes of [benchmarklib.Benchmark] that this module reads. *)
Record Benchmark : Type := MkBenchmark {
  benchmark_id : string;        (* [benchmark.id] *)
  benchmark_project : string    (* [benchmark.project] *)
}.

(** A value of a descriptor: a [str] (or [bytes]) with its characters, or
    an object of another type ([None], a number, a list, a mapping). *)
Inductive YamlValue : Type :=
| YamlStr (s : string)
| YamlOther.

(** What [yaml.safe_load] makes of a text: a [dict], here with its string
    keys; an object that is no [dict] ([None] for an empty document, a
    scalar, a list); or an exception ([yaml.YAMLError]). *)
Inductive YamlDoc : Type :=
| YamlMapping (data : gmap string YamlValue)
| YamlNotMapping
| YamlRaises (e : Exn).

Section Staging.

Variable World : Type.
Variable OSS_FUZZ_DIR : string.

Definition MS (A : Type) : Type := State World -> (OSError + A) * State World.

Definition retS {A} (a : A) : MS A := fun st => (inr a, st).

Definition bindS {A B} (m : MS A) (k : A -> MS B) : MS B :=
  fun st =>
    match m st with
    | (inr a, st') => k a st'
    | (inl e, st') => (inl e, st')
    end.

Notation "x <- m ;; k" := (bindS m (fun x => k))
  (at level 100, m at next level, k at level 200, right associativity,
   only parsing).
Notation "m ;;; k" := (bindS m (fun _ => k))
  (at level 100, k at level 200, right associativity, only parsing).

(** [shutil.copytree(src, dst)]: the source is listed first, then the
    destination is created, which must not exist. *)
Definition copytree (src dst : string) : MS unit :=
  fun st =>
    if negb (isdir (fs st) src) then
      if bool_decide (is_Some (fs st !! src))
      then (inl (ENOTDIR src), st)
      else (inl (ENOENT src), st)
    else if path_exists (fs st) dst then (inl (EEXIST dst), st)
    else (inr tt, MkState (copy_files src dst (fs st)) (world st) (log st)).

(** [create_ossfuzz_project_by_name] *)
Definition create_ossfuzz_project_by_name
    (original_name generated_oss_fuzz_project : string) : MS string :=
  let generated_project_path :=
    os_path_join3 OSS_FUZZ_DIR "projects" generated_oss_fuzz_project in
  fun st =>
    if path_exists (fs st) generated_project_path
    then retS generated_project_path st
    else
      let oss_fuzz_project_path :=
        os_path_join3 OSS_FUZZ_DIR "projects" original_name in
      (copytree oss_fuzz_project_path generated_project_path;;;
       retS generated_project_path) st.

(** [create_ossfuzz_project] *)
Definition create_ossfuzz_project
    (benchmark : Benchmark) (generated_oss_fuzz_project : string) : MS string :=
  let generated_project_path :=
    os_path_join3 OSS_FUZZ_DIR "projects" generated_oss_fuzz_project in
  fun st =>
    if path_exists (fs st) generated_project_path
    then retS generated_project_path st
    else
      let oss_fuzz_project_path :=
        os_path_join3 OSS_FUZZ_DIR "projects" (benchmark_project benchmark) in
      (copytree oss_fuzz_project_path generated_project_path;;;
       retS generated_project_path) st.

(** An [OSError] of the staging code, propagated as the exception it is. *)
Definition propagate {A} (m : MS A) : M World A :=
  fun st =>
    match m st with
    | (inr a, st') => (Ok a, st')
    | (inl e, st') => (Raise (Exn_of_OSError e), st')
    end.

End Staging.

Section Building.

Variable World : Type.
Variable sp_run : Cmd -> World -> Completion * World.
Variable OSS_FUZZ_DIR : string.
Variable ENABLE_CACHING : bool.

(** [str.isalnum], as for [rectify_docker_tag]. *)
Variable isalnum : ascii -> bool.

(** [yaml.safe_load] on the text of a project descriptor. *)
Variable yaml_safe_load : string -> YamlDoc.

(** Whether the bytes that a command writes to its standard error, run in
    a given world, are valid UTF-8: whether [e.stderr.decode("utf-8")]
    returns. *)
Variable stderr_is_utf8 : Cmd -> World -> bool.

Notation "x <- m ;; k" := (bind World m (fun x => k))
  (at level 100, m at next level, k at level 200, right associativity,
   only parsing).
Notation "m ;;; k" := (bind World m (fun _ => k))
  (at level 100, k at level 200, right associativity, only parsing).

Definition raise {A} (e : Exn) : M World A := fun st => (Raise e, st).

(** [data.get(key, default)] on what [yaml.safe_load] returned: an object
    that is no [dict] has no [get]. *)
Definition yaml_get (doc : YamlDoc) (key : string) (default_value : string)
    : M World YamlValue :=
  match doc with
  | YamlMapping data => ret World (default (YamlStr default_value) (data !! key))
  | YamlNotMapping => raise AttributeError
  | YamlRaises e => raise e
  end.

(** [get_project_language] *)
Definition get_project_language (project : string) : M World YamlValue :=
  let project_yaml_path :=
    os_path_join (os_path_join3 OSS_FUZZ_DIR "projects" project) "project.yaml" in
  found <- isfile World project_yaml_path;;
  if negb found then ret World (YamlStr "C++") else
  benchmark_file <- read_file World project_yaml_path;;
  let data := yaml_safe_load benchmark_file in
  yaml_get data "language" "C++".

(** [get_project_repository] *)
Definition get_project_repository (project : string) : M World YamlValue :=
  let project_yaml_path :=
    os_path_join (os_path_join3 OSS_FUZZ_DIR "projects" project) "project.yaml" in
  found <- isfile World project_yaml_path;;
  if negb found then ret World (YamlStr "") else
  benchmark_file <- read_file World project_yaml_path;;
  let data := yaml_safe_load benchmark_file in
  yaml_get data "main_repo" "".

Definition build_image_cmd (project_name language : string) : Cmd :=
  MkCmd ["python3"; "infra/helper.py"; "build_image"; "--pull"; project_name]
        (Some OSS_FUZZ_DIR) [("FUZZING_LANGUAGE", language)].

(** [_build_image].  A language that is no string makes [sp.run] raise
    [TypeError] when it encodes the environment, before a process is
    started.  After a failed build the [except] clause decodes the standard
    error of the command for the log message. *)
Definition _build_image (project_name : string) : M World string :=
  language <- get_project_language project_name;;
  match language with
  | YamlOther => raise TypeError
  | YamlStr language =>
      let command := build_image_cmd project_name language in
      fun st =>
        match run World sp_run command st with
        | (Ok true, st') => (Ok ("gcr.io/oss-fuzz/" +:+ project_name), st')
        | (Ok false, st') =>
            if stderr_is_utf8 command (world st)
            then (Ok "", st')
            else (Raise UnicodeDecodeError, st')
        | (Raise e, st') => (Raise e, st')
        end
  end.

(** [prepare_project_image]; [hex] is [uuid.uuid4().hex]. *)
Definition prepare_project_image (benchmark : Benchmark) (hex : string)
    : M World string :=
  let project := benchmark_project benchmark in
  let generated_oss_fuzz_project := benchmark_id benchmark +:+ "-" +:+ hex in
  let generated_oss_fuzz_project :=
    rectify_docker_tag isalnum generated_oss_fuzz_project in
  propagate World
    (create_ossfuzz_project World OSS_FUZZ_DIR benchmark
       generated_oss_fuzz_project);;;
  (if negb ENABLE_CACHING then ret World tt else
   cached <- is_image_cached World sp_run project "address";;
   if cached then
     rewrite_project_to_cached_project World OSS_FUZZ_DIR project
       generated_oss_fuzz_project "address";;;
     prepare_build World sp_run OSS_FUZZ_DIR ENABLE_CACHING project
       "address" generated_oss_fuzz_project
   else ret World tt);;;
  _build_image generated_oss_fuzz_project.

(** [prepare_project_image_by_name]; [hex] is [uuid.uuid4().hex]. *)
Definition prepare_project_image_by_name (project_name hex : string)
    : M World string :=
  let project := project_name in
  let generated_oss_fuzz_project := project_name +:+ "-" +:+ hex in
  let generated_oss_fuzz_project :=
    rectify_docker_tag isalnum generated_oss_fuzz_project in
  propagate World
    (create_ossfuzz_project_by_name World OSS_FUZZ_DIR project
       generated_oss_fuzz_project);;;
  (if negb ENABLE_CACHING then ret World tt else
   cached <- is_image_cached World sp_run project "address";;
   if cached then
     rewrite_project_to_cached_project World OSS_FUZZ_DIR project
       generated_oss_fuzz_project "address";;;
     prepare_build World sp_run OSS_FUZZ_DIR ENABLE_CACHING project
       "address" generated_oss_fuzz_project
   else ret World tt);;;
  _build_image generated_oss_fuzz_project.

(** What [get_project_language] finds: the text of the descriptor, if there
    is one, decides. *)
Definition language_of (descriptor : option string) : Res YamlValue :=
  match descriptor with
  | None => Ok (YamlStr "C++")
  | Some text =>
      match yaml_safe_load text with
      | YamlMapping data => Ok (default (YamlStr "C++") (data !! "language"))
      | YamlNotMapping => Raise AttributeError
      | YamlRaises e => Raise e
      end
  end.

End Building.

Arguments copy_files : simpl never.

(** The indices, counted from [i], of the lines that start with [keyword]. *)
Fixpoint keyword_lines_from (keyword : string) (i : Z) (lines : list string)
    : list Z :=
  match lines with
  | [] => []
  | l :: ls =>
      (if startswith l keyword then [i] else [])
        ++ keyword_lines_from keyword (i + 1) ls
  end.

Definition keyword_lines (keyword : string) (lines : list string) : list Z :=
  keyword_lines_from keyword 0 lines.

(** [st] holds what the scan records after the lines whose [ARG], [FROM] and
    [COPY] indices are [a], [f] and [c]. *)
Definition records (st : scan) (a f c : list Z) : Prop :=
  Forall (fun i => 0 <= i) a /\ Forall (fun i => 0 <= i) f
  /\ Forall (fun i => 0 <= i) c
  /\ arg_line st = default (-1) (head a)
  /\ from_line st = default (-1) (head f)
  /\ copy_build_line st = default (-1) (reverse c !! 0%nat)
  /\ copy_fuzzer_line st = default (-1) (reverse c !! 1%nat).

(** Raises [TimeoutError] on the first call and returns on the second. *)
Definition fails_once (calls : nat) : (string + unit) * nat :=
  (if Nat.eqb calls 0 then inl "TimeoutError" else inr tt, S calls).

(** The failure budget [{KindA: 0}]. *)
Definition BUDGET_ZERO : gmap string Z := {[ "KindA" := 0 ]}.

(** [str.isalnum] restricted to the ASCII range. *)
Definition ascii_isalnum (c : ascii) : bool :=
  let n := N_of_ascii c in
  ((48 <=? n) && (n <=? 57) || (65 <=? n) && (n <=? 90)
   || (97 <=? n) && (n <=? 122))%N.

(** A world that answers the commands one after the other with the exit
    statuses still on its list, and with failure once the list is used up. *)
Definition scripted : Cmd -> list bool -> Completion * list bool :=
  fun _ answers =>
    match answers with
    | ok :: rest => (Exited ok, rest)
    | [] => (Exited false, [])
    end.

(** A project with a cached build script, in a scripted world. *)
Definition st_scripted (answers : list bool) : State (list bool) :=
  MkState {[ "fuzzer_build_script/libxml2" := "" ]} answers [].

(** A build definition whose base image has a tag and an alias. *)
Definition FIXTURE_TAGGED : string :=
  join_lines ["FROM gcr.io/oss-fuzz-base/base-builder:v1 AS build"; "RUN a"].

(** A descriptor parser that knows two descriptors; the empty text is the
    empty document. *)
Definition yaml_language_c (text : string) : YamlDoc :=
  if bool_decide (text = "language: c")
  then YamlMapping {[ "language" := YamlStr "c" ]}
  else if bool_decide (text = "main_repo: x") then YamlMapping ∅
  else if bool_decide (text = "") then YamlNotMapping
  else YamlRaises (OtherException "YAMLError").

(** Every standard error is text. *)
Definition stderr_text : Cmd -> unit -> bool := fun _ _ => true.

(** A world without the [docker] executable: [sp.run] raises for every
    command that starts with it. *)
Definition no_docker : Cmd -> unit -> Completion * unit :=
  fun cmd w =>
    if bool_decide (head (argv cmd) = Some "docker")
    then (Uncaught (FileNotFoundError "docker"), w)
    else (Exited true, w).

(** A checkout with one project, whose descriptor is an empty document. *)
Definition st_empty_descriptor : State unit :=
  MkState
    (list_to_map
       [("/oss-fuzz/projects/zlib/Dockerfile", FIXTURE_BASE_BUILDER);
        ("/oss-fuzz/projects/zlib/project.yaml", "")])
    tt [].

(** A checkout with one project. *)
Definition st_projects : State unit :=
  MkState
    (list_to_map
       [("/oss-fuzz/projects/zlib/Dockerfile", FIXTURE_BASE_BUILDER);
        ("/oss-fuzz/projects/zlib/project.yaml", "language: c");
        ("/oss-fuzz/projects/zlib/build.sh", "make")])
    tt [].

Example rectify_example :
  rectify_docker_tag ascii_isalnum "ns::Cls::f(int)_-x" = "ns-Cls-f-int-x".
Proof. vm_compute. reflexivity. Qed.

Example rewrite_example :
  cached_dockerfile_content "IMG"
    (join_lines ["FROM gcr.io/oss-fuzz-base/base-builder:v1"; "RUN a";
                 "COPY x ."; "COPY build.sh ."; "COPY fuzzer.cc ."; ""])
  = join_lines ["ARG CACHE_IMAGE=IMG"; "FROM $CACHE_IMAGE"; "# RUN a";
                "# COPY x ."; "COPY build.sh ."; "COPY fuzzer.cc ."; "# "; ""].
Proof. vm_compute. reflexivity. Qed.

(* ===================================================================== *)
(** ** Strings as character lists *)
(* ===================================================================== *)

Abbreviation chars := String.list_ascii_of_string.

Lemma chars_inj (s t : string) : chars s = chars t -> s = t.
Proof.
  revert t; induction s as [|a s IH]; intros [|b t] Heq; simpl in Heq;
    try discriminate; [reflexivity|].
  injection Heq as -> Heq. f_equal. auto.
Qed.

Lemma chars_app (s t : string) : chars (s +:+ t) = chars s ++ chars t.
Proof. induction s as [|a s IH]; cbn; [reflexivity|]. now rewrite <- IH. Qed.

Lemma string_app_inv_tail (s t u : string) : s +:+ u = t +:+ u -> s = t.
Proof.
  intros Heq. apply chars_inj. apply (f_equal chars) in Heq.
  rewrite !chars_app in Heq. now apply app_inv_tail in Heq.
Qed.

Lemma string_app_assoc (s t u : string) : (s +:+ t) +:+ u = s +:+ t +:+ u.
Proof. apply chars_inj. rewrite !chars_app. now rewrite <- app_assoc. Qed.

Lemma ch_eqb_eq (a b : ascii) : ch_eqb a b = true <-> a = b.
Proof. apply Ascii.eqb_eq. Qed.

Lemma ch_eqb_refl (a : ascii) : ch_eqb a a = true.
Proof. apply Ascii.eqb_refl. Qed.

(* ===================================================================== *)
(** ** Image references *)
(* ===================================================================== *)

Lemma image_name_same_sanitizer (p1 p2 s : string) :
  _get_project_cache_image_name p1 s = _get_project_cache_image_name p2 s ->
  p1 = p2.
Proof.
  unfold _get_project_cache_image_name. intros Heq.
  apply String.app_inj in Heq.
  now apply string_app_inv_tail in Heq.
Qed.

Lemma image_name_same_project (p s1 s2 : string) :
  _get_project_cache_image_name p s1 = _get_project_cache_image_name p s2 ->
  s1 = s2.
Proof.
  unfold _get_project_cache_image_name. intros Heq.
  now do 3 apply String.app_inj in Heq.
Qed.

Lemma last_char_differs (x y : list ascii) (a b : ascii) :
  a <> b -> x ++ [a] <> y ++ [b].
Proof. intros Hab Heq. apply app_inj_tail in Heq as [_ ?]. contradiction. Qed.

Lemma image_name_address_coverage (p1 p2 : string) :
  _get_project_cache_image_name p1 "address"
  <> _get_project_cache_image_name p2 "coverage".
Proof.
  unfold _get_project_cache_image_name. intros Heq.
  apply String.app_inj in Heq. apply (f_equal chars) in Heq.
  rewrite !chars_app in Heq.
  change (chars "-ofg-cached-" ++ chars "address")
    with (chars "-ofg-cached-addres" ++ ["s"%char]) in Heq.
  change (chars "-ofg-cached-" ++ chars "coverage")
    with (chars "-ofg-cached-coverag" ++ ["e"%char]) in Heq.
  rewrite !app_assoc in Heq.
  now apply last_char_differs in Heq.
Qed.

(** C7, as stated, fails: two pairs that differ in both components can be
    given the same image reference. *)
Lemma image_ref_collision :
  ~ (forall p1 s1 p2 s2 : string,
        p1 <> p2 \/ s1 <> s2 ->
        _get_project_cache_image_name p1 s1
        <> _get_project_cache_image_name p2 s2).
Proof.
  intros Hinj.
  apply (Hinj "a-ofg-cached-b" "c" "a" "b-ofg-cached-c").
  - left. discriminate.
  - reflexivity.
Qed.

(** C7 (amended): the image reference is a function of the pair, and two
    pairs with the same reference are equal whenever they share a component
    or both sanitizers belong to the fixed set [SANITIZERS]. *)
Theorem image_ref_injective_on_keys (p1 s1 p2 s2 : string) :
  p1 = p2 \/ s1 = s2 \/ (s1 ∈ SANITIZERS /\ s2 ∈ SANITIZERS) ->
  _get_project_cache_image_name p1 s1 = _get_project_cache_image_name p2 s2
  <-> p1 = p2 /\ s1 = s2.
Proof.
  intros Hshare. split; [|now intros [-> ->]]. intros Heq.
  assert (Hsame : s1 = s2 -> p1 = p2 /\ s1 = s2).
  { intros ->. split; [|reflexivity]. eapply image_name_same_sanitizer, Heq. }
  destruct Hshare as [-> | [Hs | [H1 H2]]].
  - split; [reflexivity|]. eapply image_name_same_project, Heq.
  - auto.
  - unfold SANITIZERS in H1, H2.
    apply elem_of_cons in H1 as [-> | H1], H2 as [-> | H2]; auto.
    + apply list_elem_of_singleton in H2 as ->.
      now apply image_name_address_coverage in Heq.
    + apply list_elem_of_singleton in H1 as ->.
      symmetry in Heq. now apply image_name_address_coverage in Heq.
    + apply list_elem_of_singleton in H1 as ->.
      apply list_elem_of_singleton in H2 as ->. auto.
Qed.

Lemma image_ref_injective_on_keys_witness :
  _get_project_cache_image_name "libxml2" "address"
  = _get_project_cache_image_name "zlib" "coverage"
  <-> "libxml2" = "zlib" /\ "address" = "coverage".
Proof.
  apply (image_ref_injective_on_keys "libxml2" "address" "zlib" "coverage").
  right; right. split; repeat constructor.
Defined.

(* ===================================================================== *)
(** ** Name sanitization *)
(* ===================================================================== *)

Lemma string_pair_ind (P : string -> Prop) :
  P EmptyString ->
  (forall c, P (String c EmptyString)) ->
  (forall c d r, P r -> P (String d r) -> P (String c (String d r))) ->
  forall s, P s.
Proof.
  intros H0 H1 H2 s.
  enough (P s /\ forall c, P (String c s)) by tauto.
  induction s as [|d r [IHr IHdr]]; split; auto.
Qed.

Lemma adjacent_cons (P : ascii -> bool) (c : ascii) (s : string) :
  adjacent P (String c s) = (P c && head_is P s) || adjacent P s.
Proof. destruct s; simpl; [now rewrite andb_false_r|reflexivity]. Qed.

Section RectifyFacts.

Variable isalnum : ascii -> bool.

#[local] Abbreviation word := (is_word isalnum).
#[local] Abbreviation class2 := (in_word_us_dot isalnum).
#[local] Abbreviation step2 := (sub_non_word isalnum).
#[local] Abbreviation legal := (legal_char isalnum).

(** *** First substitution *)

Lemma sub_double_colon_head (c : ascii) (s : string) :
  head_is is_colon (sub_double_colon (String c s)) = true -> is_colon c = true.
Proof.
  destruct s as [|d r]; simpl; [auto|].
  destruct (ch_eqb c ":" && ch_eqb d ":") eqn:Hcd; simpl; [discriminate|auto].
Qed.

Lemma sub_double_colon_no_pair (s : string) :
  adjacent is_colon (sub_double_colon s) = false.
Proof.
  induction s as [|c|c d r IHr IHdr] using string_pair_ind; try reflexivity.
  change (sub_double_colon (String c (String d r)))
    with (if ch_eqb c ":" && ch_eqb d ":"
          then String "-" (sub_double_colon r)
          else String c (sub_double_colon (String d r))).
  destruct (ch_eqb c ":" && ch_eqb d ":") eqn:Hcd.
  - rewrite adjacent_cons, IHr. reflexivity.
  - rewrite adjacent_cons, IHdr, orb_false_r.
    destruct (is_colon c) eqn:Hc; [|reflexivity].
    destruct (head_is is_colon (sub_double_colon (String d r))) eqn:Hd;
      [|reflexivity].
    apply sub_double_colon_head in Hd. unfold is_colon in Hc, Hd.
    rewrite Hc, Hd in Hcd. discriminate.
Qed.

Lemma sub_double_colon_id (s : string) :
  adjacent is_colon s = false -> sub_double_colon s = s.
Proof.
  induction s as [|c|c d r IHr IHdr] using string_pair_ind; try reflexivity.
  intros Hadj. rewrite adjacent_cons in Hadj.
  apply orb_false_elim in Hadj as [Hcd Hadj].
  change (sub_double_colon (String c (String d r)))
    with (if ch_eqb c ":" && ch_eqb d ":"
          then String "-" (sub_double_colon r)
          else String c (sub_double_colon (String d r))).
  change (ch_eqb c ":" && ch_eqb d ":" = false) in Hcd.
  rewrite Hcd. f_equal. auto.
Qed.

(** *** Second substitution *)

Lemma legal_of_class (c : ascii) : class2 c = true -> legal c = true.
Proof.
  unfold in_word_us_dot, legal_char, is_word.
  destruct (isalnum c), (ch_eqb c "_"), (ch_eqb c "."); simpl; auto.
  discriminate.
Qed.

Lemma legal_dash : legal "-" = true.
Proof.
  unfold legal_char. now rewrite (ch_eqb_refl "-"), orb_true_r.
Qed.

Lemma sub_non_word_legal (s : string) :
  all_chars legal (step2 s) = true.
Proof.
  induction s as [|c r IH]; simpl; [reflexivity|].
  rewrite IH, andb_true_r.
  destruct (class2 c) eqn:Hc; [now apply legal_of_class|apply legal_dash].
Qed.

Lemma sub_non_word_id (s : string) :
  all_chars legal s = true -> step2 s = s.
Proof.
  induction s as [|c r IH]; simpl; [reflexivity|].
  intros [Hc Hr]%andb_true_iff. rewrite (IH Hr). f_equal.
  destruct (class2 c) eqn:Hclass; [reflexivity|].
  unfold legal_char in Hc.
  unfold in_word_us_dot in Hclass.
  destruct (word c); [discriminate|].
  destruct (ch_eqb c "."); [now rewrite orb_true_r in Hclass|].
  simpl in Hc. apply ch_eqb_eq in Hc. now subst.
Qed.

Lemma sub_non_word_colon (c : ascii) :
  is_colon (if class2 c then c else "-"%char) = true -> is_colon c = true.
Proof. destruct (class2 c); [auto|discriminate]. Qed.

Lemma sub_non_word_head (s : string) :
  head_is is_colon (step2 s) = true -> head_is is_colon s = true.
Proof. destruct s; simpl; [auto|apply sub_non_word_colon]. Qed.

Lemma sub_non_word_no_pair (s : string) :
  adjacent is_colon s = false -> adjacent is_colon (step2 s) = false.
Proof.
  induction s as [|c r IH]; [reflexivity|].
  rewrite adjacent_cons. intros [Hcd Hr]%orb_false_elim.
  change (step2 (String c r))
    with (String (if class2 c then c else "-"%char) (step2 r)).
  rewrite adjacent_cons, (IH Hr), orb_false_r.
  destruct (is_colon (if class2 c then c else "-"%char)) eqn:H1;
    [|reflexivity].
  destruct (head_is is_colon (step2 r)) eqn:H2; [|reflexivity].
  apply sub_non_word_colon in H1. apply sub_non_word_head in H2.
  rewrite H1, H2 in Hcd. discriminate.
Qed.

(** *** Third substitution *)

Lemma sub_dash_runs_other (b : bool) (c : ascii) (r : string) :
  in_dash_us c = false ->
  sub_dash_runs b (String c r) = String c (sub_dash_runs false r).
Proof. intros Hc. simpl. now rewrite Hc. Qed.

Lemma sub_dash_runs_inside (c : ascii) (r : string) :
  in_dash_us c = true -> sub_dash_runs true (String c r) = sub_dash_runs true r.
Proof. intros Hc. simpl. now rewrite Hc. Qed.

Lemma sub_dash_runs_start (c : ascii) (r : string) :
  in_dash_us c = true -> head_is in_dash_us r = true ->
  sub_dash_runs false (String c r) = String "-" (sub_dash_runs true r).
Proof.
  intros Hc Hr. destruct r as [|d r]; [discriminate|].
  simpl in Hr. simpl. now rewrite Hc, Hr.
Qed.

Lemma sub_dash_runs_single (c : ascii) (r : string) :
  in_dash_us c = true -> head_is in_dash_us r = false ->
  sub_dash_runs false (String c r) = String c (sub_dash_runs false r).
Proof.
  intros Hc Hr. destruct r as [|d r]; simpl; rewrite Hc; [reflexivity|].
  simpl in Hr. now rewrite Hr.
Qed.

(** The four ways a step of the third substitution can go. *)
Ltac dash_step c r :=
  let Hc := fresh "Hc" in
  let Hr := fresh "Hr" in
  destruct (in_dash_us c) eqn:Hc;
  [ destruct (head_is in_dash_us r) eqn:Hr;
    [ rewrite ?(sub_dash_runs_inside c r Hc),
              ?(sub_dash_runs_start c r Hc Hr)
    | rewrite ?(sub_dash_runs_inside c r Hc),
              ?(sub_dash_runs_single c r Hc Hr) ]
  | rewrite !(sub_dash_runs_other _ c r Hc) ].

Lemma sub_dash_runs_head (s : string) :
  head_is in_dash_us s = false ->
  head_is in_dash_us (sub_dash_runs false s) = false.
Proof.
  destruct s as [|c r]; [reflexivity|]. simpl. intros Hc. now rewrite Hc.
Qed.

Lemma sub_dash_runs_shape (s : string) :
  head_is in_dash_us (sub_dash_runs true s) = false
  /\ adjacent in_dash_us (sub_dash_runs true s) = false
  /\ adjacent in_dash_us (sub_dash_runs false s) = false.
Proof.
  induction s as [|c r (IHhead & IHtrue & IHfalse)]; [auto|].
  dash_step c r; rewrite ?adjacent_cons; simpl head_is;
    rewrite ?Hc, ?IHhead, ?IHtrue, ?IHfalse, ?andb_false_r; auto.
  rewrite (sub_dash_runs_head r Hr), andb_false_r. auto.
Qed.

Lemma sub_dash_runs_id (s : string) :
  adjacent in_dash_us s = false -> sub_dash_runs false s = s.
Proof.
  induction s as [|c r IH]; [reflexivity|].
  rewrite adjacent_cons. intros [Hcd Hadj]%orb_false_elim.
  dash_step c r.
  - discriminate Hcd.
  - f_equal; auto.
  - f_equal; auto.
Qed.

Lemma sub_dash_runs_legal (b : bool) (s : string) :
  all_chars legal s = true -> all_chars legal (sub_dash_runs b s) = true.
Proof.
  revert b; induction s as [|c r IH]; intros b; [auto|].
  simpl all_chars at 1. intros [Hc Hr]%andb_true_iff.
  destruct b; dash_step c r; simpl all_chars;
    rewrite ?Hc, ?legal_dash, ?IH; auto.
Qed.

Lemma colon_not_dash (c : ascii) : is_colon c = true -> in_dash_us c = false.
Proof. intros ->%ch_eqb_eq. reflexivity. Qed.

Lemma sub_dash_runs_colon_head (s : string) :
  head_is is_colon (sub_dash_runs false s) = true -> head_is is_colon s = true.
Proof.
  destruct s as [|c r]; [auto|]. dash_step c r; simpl; auto. discriminate.
Qed.

Lemma sub_dash_runs_no_pair (b : bool) (s : string) :
  adjacent is_colon s = false ->
  adjacent is_colon (sub_dash_runs b s) = false.
Proof.
  revert b; induction s as [|c r IH]; intros b; [destruct b; auto|].
  rewrite adjacent_cons. intros [Hcd Hadj]%orb_false_elim.
  assert (Hnext : is_colon c && head_is is_colon (sub_dash_runs false r) = false).
  { destruct (is_colon c) eqn:Hcol; [|reflexivity].
    destruct (head_is is_colon (sub_dash_runs false r)) eqn:Hh; [|reflexivity].
    apply sub_dash_runs_colon_head in Hh. rewrite Hh in Hcd. discriminate. }
  destruct b; dash_step c r; rewrite ?adjacent_cons, ?Hnext, ?IH; auto.
Qed.

(** *** The three steps together *)

Lemma rectify_legal (s : string) :
  all_chars legal (rectify_docker_tag isalnum s) = true.
Proof. apply sub_dash_runs_legal, sub_non_word_legal. Qed.

Lemma rectify_no_dash_pair (s : string) :
  adjacent in_dash_us (rectify_docker_tag isalnum s) = false.
Proof. apply sub_dash_runs_shape. Qed.

Lemma rectify_no_colon_pair (s : string) :
  adjacent is_colon (rectify_docker_tag isalnum s) = false.
Proof.
  apply sub_dash_runs_no_pair, sub_non_word_no_pair, sub_double_colon_no_pair.
Qed.

(** C8: sanitizing a sanitized name changes nothing; a sanitized name has
    no two neighbouring characters from [-_] (so no repeated separator) and
    only characters of the legal alphabet: word characters, [.] and [-]. *)
Theorem rectify_docker_tag_idempotent_legal (docker_tag : string) :
  rectify_docker_tag isalnum (rectify_docker_tag isalnum docker_tag)
  = rectify_docker_tag isalnum docker_tag
  /\ adjacent in_dash_us (rectify_docker_tag isalnum docker_tag) = false
  /\ all_chars (legal_char isalnum) (rectify_docker_tag isalnum docker_tag) = true.
Proof.
  split; [|split; [apply rectify_no_dash_pair | apply rectify_legal]].
  set (t := rectify_docker_tag isalnum docker_tag).
  unfold rectify_docker_tag at 1.
  rewrite (sub_double_colon_id t) by apply rectify_no_colon_pair.
  rewrite (sub_non_word_id t) by apply rectify_legal.
  apply sub_dash_runs_id, rectify_no_dash_pair.
Qed.

End RectifyFacts.

(* ===================================================================== *)
(** ** Lines of a text and the base-image substitution *)
(* ===================================================================== *)

Lemma split_lines_cons (s : string) : exists l ls, split_lines s = l :: ls.
Proof.
  induction s as [|c r (l & ls & IH)]; simpl; [eauto|].
  destruct (ch_eqb c LF); [eauto|]. rewrite IH. eauto.
Qed.

Lemma split_lines_char (c : ascii) (r l : string) (ls : list string) :
  ch_eqb c LF = false -> split_lines r = l :: ls ->
  split_lines (String c r) = String c l :: ls.
Proof. intros Hc Hr. simpl. now rewrite Hc, Hr. Qed.

Lemma split_lines_one_line (s : string) :
  Forall (fun l => one_line l = true) (split_lines s).
Proof.
  induction s as [|c r IH]; simpl; [repeat constructor|].
  destruct (ch_eqb c LF) eqn:Hc; [constructor; [reflexivity|exact IH]|].
  destruct (split_lines_cons r) as (l & ls & Hr). rewrite Hr in *.
  apply Forall_cons in IH as [Hl Hls]. constructor; [|assumption].
  unfold one_line. simpl. unfold not_LF at 1. now rewrite Hc.
Qed.

Lemma split_lines_app_NL (l t : string) :
  one_line l = true -> split_lines (l +:+ NL +:+ t) = l :: split_lines t.
Proof.
  induction l as [|c r IH]; [reflexivity|].
  simpl. intros [Hc Hr]%andb_true_iff.
  apply negb_true_iff in Hc.
  change (String c r +:+ NL +:+ t) with (String c (r +:+ NL +:+ t)).
  now apply split_lines_char; [|apply IH].
Qed.

Lemma split_lines_app_line (l x l' : string) (ls : list string) :
  one_line l = true -> split_lines x = l' :: ls ->
  split_lines (l +:+ x) = (l +:+ l') :: ls.
Proof.
  intros Hl Hx. induction l as [|c r IH]; [exact Hx|].
  simpl in Hl. apply andb_true_iff in Hl as [Hc Hr].
  apply negb_true_iff in Hc.
  change (String c r +:+ x) with (String c (r +:+ x)).
  change (String c r +:+ l') with (String c (r +:+ l')).
  apply split_lines_char; auto.
Qed.

Lemma match_here_first_line (p : string) (c : ascii) (r l : string)
    (ls : list string) :
  one_line p = true -> split_lines r = l :: ls ->
  match_here p (String c r) = match_here p (String c l).
Proof.
  revert c r l ls. induction p as [|a p IH]; intros c r l ls Hp Hr; [reflexivity|].
  simpl in Hp. apply andb_true_iff in Hp as [Ha Hp].
  simpl. f_equal. destruct p as [|a' p']; [reflexivity|].
  destruct r as [|d r'].
  - simpl in Hr. injection Hr as <- <-. reflexivity.
  - simpl in Hr. destruct (ch_eqb d LF) eqn:Hd.
    + injection Hr as <- <-. simpl.
      apply ch_eqb_eq in Hd as ->.
      simpl in Hp. apply andb_true_iff in Hp as [Ha' _].
      unfold not_LF in Ha'. apply negb_true_iff in Ha'.
      rewrite Ha'. destruct (ch_eqb a' "."); reflexivity.
    + destruct (split_lines r') as [|l' ls'] eqn:Hr'.
      * destruct (split_lines_cons r') as (? & ? & ?). congruence.
      * injection Hr as <- <-. eapply IH; eauto.
Qed.

Lemma sub_base_builder_rest_of_line (l : string) :
  one_line l = true -> sub_base_builder true l = EmptyString.
Proof.
  induction l as [|c r IH]; [reflexivity|].
  simpl. intros [Hc Hr]%andb_true_iff. apply negb_true_iff in Hc.
  rewrite Hc. auto.
Qed.

Lemma match_here_not_LF (r : string) :
  match_here BASE_BUILDER_RE (String LF r) = false.
Proof. reflexivity. Qed.

(** The substitution works line by line. *)
Lemma sub_base_builder_lines (t : string) :
  split_lines (sub_base_builder false t)
  = sub_base_builder false <$> split_lines t
  /\ split_lines (sub_base_builder true t)
     = EmptyString :: (sub_base_builder false <$> tail (split_lines t)).
Proof.
  induction t as [|c r [IHf IHt]]; [split; reflexivity|].
  destruct (split_lines_cons r) as (l & ls & Hr).
  pose proof (split_lines_one_line r) as Hone. rewrite Hr in Hone.
  apply Forall_cons in Hone as [Hl _].
  destruct (ch_eqb c LF) eqn:Hc.
  - apply ch_eqb_eq in Hc as ->. split.
    + change (sub_base_builder false (String LF r))
        with (String LF (sub_base_builder false r)).
      simpl. rewrite IHf, Hr. reflexivity.
    + simpl. rewrite IHf, Hr. reflexivity.
  - rewrite (split_lines_char c r l ls Hc Hr). split.
    + simpl tail. rewrite fmap_cons.
      pose proof (match_here_first_line BASE_BUILDER_RE c r l ls eq_refl Hr) as Hm.
      change (sub_base_builder false (String c r))
        with (if match_here BASE_BUILDER_RE (String c r)
              then "FROM $CACHE_IMAGE" +:+ sub_base_builder true r
              else String c (sub_base_builder false r)).
      change (sub_base_builder false (String c l))
        with (if match_here BASE_BUILDER_RE (String c l)
              then "FROM $CACHE_IMAGE" +:+ sub_base_builder true l
              else String c (sub_base_builder false l)).
      rewrite <- Hm.
      destruct (match_here BASE_BUILDER_RE (String c r)).
      * rewrite (sub_base_builder_rest_of_line l Hl).
        rewrite (split_lines_app_line "FROM $CACHE_IMAGE" _ _ _ eq_refl IHt).
        rewrite Hr. reflexivity.
      * rewrite (split_lines_char c _ (sub_base_builder false l)
                   (sub_base_builder false <$> ls) Hc); [reflexivity|].
        rewrite IHf, Hr. reflexivity.
    + simpl. rewrite Hc. rewrite IHt, Hr. reflexivity.
Qed.

Lemma match_here_literal (a b : ascii) (p s : string) :
  ch_eqb a "." = false ->
  match_here (String a p) (String b s) = ch_eqb a b && match_here p s.
Proof. intros Ha. cbn [match_here]. now rewrite Ha. Qed.

Lemma match_here_FROM (s : string) :
  match_here BASE_BUILDER_RE s = true ->
  exists r, s = String "F" (String "R" (String "O" (String "M" (String " " r)))).
Proof.
  unfold BASE_BUILDER_RE. intros H.
  do 5 (destruct s as [|? s]; [discriminate H|];
        rewrite match_here_literal in H by reflexivity;
        apply andb_true_iff in H as [<-%ch_eqb_eq H]).
  eauto.
Qed.

Lemma take_chars_sub_base_builder (n : nat) (l : string) :
  (n <= 4)%nat ->
  take_chars n (sub_base_builder false l) = take_chars n l.
Proof.
  revert n; induction l as [|c r IH]; intros n Hn; [reflexivity|].
  change (sub_base_builder false (String c r))
    with (if match_here BASE_BUILDER_RE (String c r)
          then "FROM $CACHE_IMAGE" +:+ sub_base_builder true r
          else String c (sub_base_builder false r)).
  destruct (match_here BASE_BUILDER_RE (String c r)) eqn:Hm.
  - apply match_here_FROM in Hm as [r' Hm]. rewrite Hm.
    do 5 (destruct n as [|n]; [reflexivity|]). lia.
  - destruct n as [|n]; [reflexivity|]. simpl. f_equal. apply IH. lia.
Qed.

Lemma startswith_take_chars (p s : string) (n : nat) :
  (String.length p <= n)%nat ->
  startswith s p = startswith (take_chars n s) p.
Proof.
  revert s n; induction p as [|a p IH]; intros s n Hn; [reflexivity|].
  simpl in Hn. destruct n as [|n]; [lia|].
  destruct s as [|b s]; [reflexivity|]. simpl. f_equal. apply IH. lia.
Qed.

Lemma startswith_sub_base_builder (l p : string) :
  (String.length p <= 4)%nat ->
  startswith (sub_base_builder false l) p = startswith l p.
Proof.
  intros Hp.
  rewrite (startswith_take_chars p (sub_base_builder false l) 4 Hp).
  rewrite (startswith_take_chars p l 4 Hp).
  now rewrite take_chars_sub_base_builder.
Qed.

(** *** The classification scan *)

Lemma scan_line_sub_base_builder (st : scan) (i : Z) (l : string) :
  scan_line st (i, sub_base_builder false l) = scan_line st (i, l).
Proof.
  unfold scan_line.
  rewrite !startswith_sub_base_builder by (simpl; lia). reflexivity.
Qed.

Lemma scan_from_sub_base_builder (ls : list string) (i : Z) (st : scan) :
  fold_left scan_line (enumerate_from i (sub_base_builder false <$> ls)) st
  = fold_left scan_line (enumerate_from i ls) st.
Proof.
  revert i st; induction ls as [|l ls IH]; intros i st; [reflexivity|].
  rewrite fmap_cons. cbn [enumerate_from fold_left].
  rewrite scan_line_sub_base_builder. apply IH.
Qed.

Lemma shift_unset (i : Z) : -1 <= i -> (shift i =? -1) = (i =? -1).
Proof. unfold shift. intros Hi. destruct (Z.eqb_spec i (-1)); [reflexivity|lia]. Qed.

Lemma shift_index (i : Z) : 0 <= i -> shift i = i + 1.
Proof. unfold shift. intros Hi. destruct (Z.eqb_spec i (-1)); lia. Qed.

Lemma scan_line_shifted (st st' : scan) (i : Z) (l : string) :
  0 <= i -> shifted st st' ->
  shifted (scan_line st (i, l)) (scan_line st' (i + 1, l)).
Proof.
  intros Hi (Ha & (Hf0 & Hf) & (Hcf0 & Hcf) & (Hcb0 & Hcb)).
  destruct st as [a f cf cb], st' as [a' f' cf' cb'].
  cbn [arg_line from_line copy_fuzzer_line copy_build_line] in *. subst.
  pose proof (shift_index i Hi) as Hsi.
  unfold scan_line, shifted.
  generalize (startswith l "ARG") (startswith l "FROM") (startswith l "COPY").
  intros isarg isfrom iscopy.
  cbn [arg_line from_line copy_fuzzer_line copy_build_line].
  change (0 =? -1) with false. rewrite andb_false_r.
  destruct (isarg && (a =? -1));
    cbn [arg_line from_line copy_fuzzer_line copy_build_line];
    rewrite (shift_unset f Hf0);
    destruct (isfrom && (f =? -1)), iscopy;
    cbn [arg_line from_line copy_fuzzer_line copy_build_line];
    rewrite ?Hsi; repeat split; auto; lia.
Qed.

Lemma scan_from_shifted (ls : list string) (i : Z) (st st' : scan) :
  0 <= i -> shifted st st' ->
  shifted (fold_left scan_line (enumerate_from i ls) st)
          (fold_left scan_line (enumerate_from (i + 1) ls) st').
Proof.
  revert i st st'; induction ls as [|l ls IH]; intros i st st' Hi Hs;
    [exact Hs|].
  cbn [enumerate_from fold_left]. apply IH; [lia|]. now apply scan_line_shifted.
Qed.

Lemma recorded_scan_shifted (cached_image_name docker_content : string) :
  one_line cached_image_name = true ->
  shifted (scan_lines (split_lines docker_content))
          (recorded_scan cached_image_name docker_content).
Proof.
  intros Hname.
  unfold recorded_scan, with_cache_arg.
  destruct (sub_base_builder_lines
              (("ARG CACHE_IMAGE=" +:+ cached_image_name) +:+ NL +:+ docker_content))
    as [-> _].
  rewrite split_lines_app_NL by exact Hname.
  unfold scan_lines, enumerate. rewrite scan_from_sub_base_builder.
  cbn [enumerate_from fold_left].
  change (scan_line scan_init (0, "ARG CACHE_IMAGE=" +:+ cached_image_name))
    with (Scan 0 (-1) (-1) (-1)).
  apply (scan_from_shifted _ 0); [lia|].
  unfold shifted, scan_init; simpl. repeat split; lia.
Qed.

(** C3, as stated, fails on the fixture: the indices recorded by the scan are
    not those of the lines of the original text. *)
Lemma recorded_scan_not_of_original_text :
  recorded_scan (_get_project_cache_image_name "libxml2" "address") FIXTURE
  = Scan 0 1 3 4
  /\ scan_lines (split_lines FIXTURE) = Scan (-1) 0 2 3
  /\ recorded_scan (_get_project_cache_image_name "libxml2" "address") FIXTURE
     <> scan_lines (split_lines FIXTURE).
Proof.
  assert (H1 : recorded_scan (_get_project_cache_image_name "libxml2" "address")
                             FIXTURE = Scan 0 1 3 4) by (vm_compute; reflexivity).
  assert (H2 : scan_lines (split_lines FIXTURE) = Scan (-1) 0 2 3)
    by (vm_compute; reflexivity).
  split; [exact H1|]. split; [exact H2|].
  rewrite H1, H2. discriminate.
Qed.

(** C3 (amended): the scan runs over the text that already has the new [ARG]
    line in front (and the base image substituted).  The recorded indices are
    line positions of that text: [arg_line] is the inserted line, and every
    other index is one more than the index a scan of the original text would
    record. *)
Theorem recorded_scan_refers_to_inserted_text
    (cached_image_name docker_content : string) :
  one_line cached_image_name = true ->
  let st := recorded_scan cached_image_name docker_content in
  let st0 := scan_lines (split_lines docker_content) in
  arg_line st = 0
  /\ from_line st = shift (from_line st0)
  /\ copy_fuzzer_line st = shift (copy_fuzzer_line st0)
  /\ copy_build_line st = shift (copy_build_line st0).
Proof.
  intros Hname st st0.
  destruct (recorded_scan_shifted cached_image_name docker_content Hname)
    as (Ha & (_ & Hf) & (_ & Hcf) & (_ & Hcb)).
  auto.
Qed.

Lemma recorded_scan_refers_to_inserted_text_witness :
  let st := recorded_scan "IMG" FIXTURE in
  let st0 := scan_lines (split_lines FIXTURE) in
  arg_line st = 0
  /\ from_line st = shift (from_line st0)
  /\ copy_fuzzer_line st = shift (copy_fuzzer_line st0)
  /\ copy_build_line st = shift (copy_build_line st0).
Proof.
  apply (recorded_scan_refers_to_inserted_text "IMG" FIXTURE). reflexivity.
Defined.

(** *** The emitted text *)

Lemma emit_fold (keep : gset Z) (ls : list string) (i : Z) (acc : string) :
  fold_left (emit_line keep) (enumerate_from i ls) acc
  = acc +:+ emitted keep i ls.
Proof.
  revert i acc; induction ls as [|l ls IH]; intros i acc.
  - simpl. apply chars_inj. rewrite chars_app. simpl. now rewrite app_nil_r.
  - cbn [enumerate_from fold_left emitted]. rewrite IH. unfold emit_line.
    destruct (bool_decide (i ∉ keep)); now rewrite !string_app_assoc.
Qed.

Lemma all_chars_app (P : ascii -> bool) (s t : string) :
  all_chars P (s +:+ t) = all_chars P s && all_chars P t.
Proof.
  induction s as [|c r IH]; [reflexivity|].
  change (String c r +:+ t) with (String c (r +:+ t)).
  simpl. now rewrite IH, andb_assoc.
Qed.

Lemma all_chars_weaken (P Q : ascii -> bool) (s : string) :
  (forall c, P c = true -> Q c = true) ->
  all_chars P s = true -> all_chars Q s = true.
Proof.
  intros HPQ. induction s as [|c r IH]; [auto|].
  simpl. intros [Hc Hr]%andb_true_iff. rewrite (HPQ c Hc). auto.
Qed.

Lemma match_here_needs_blank (n : nat) (s : string) :
  (n <= 4)%nat -> all_chars not_blank (drop_chars n s) = true ->
  match_here BASE_BUILDER_RE s = false.
Proof.
  intros Hn Hs.
  destruct (match_here BASE_BUILDER_RE s) eqn:Hm; [|reflexivity].
  apply match_here_FROM in Hm as [r ->].
  do 5 (destruct n as [|n]; [discriminate Hs|]). lia.
Qed.

Lemma all_chars_drop_tail (P : ascii -> bool) (n : nat) (c : ascii) (r : string) :
  all_chars P (drop_chars n (String c r)) = true ->
  all_chars P (drop_chars (pred n) r) = true.
Proof.
  destruct n as [|n]; [|auto].
  simpl. intros [_ Hr]%andb_true_iff. destruct r; exact Hr.
Qed.

(** A text with no blank after its fourth character has no occurrence of
    the base image to substitute. *)
Lemma sub_base_builder_no_blank (n : nat) (s : string) :
  (n <= 4)%nat -> all_chars not_blank (drop_chars n s) = true ->
  sub_base_builder false s = s.
Proof.
  revert n; induction s as [|c r IH]; intros n Hn Hs; [reflexivity|].
  change (sub_base_builder false (String c r))
    with (if match_here BASE_BUILDER_RE (String c r)
          then "FROM $CACHE_IMAGE" +:+ sub_base_builder true r
          else String c (sub_base_builder false r)).
  rewrite (match_here_needs_blank n _ Hn Hs). f_equal.
  apply (IH (pred n)); [lia|]. eapply all_chars_drop_tail, Hs.
Qed.

Lemma arg_line_unchanged (project sanitizer : string) :
  all_chars name_char project = true ->
  all_chars name_char sanitizer = true ->
  let arg := "ARG CACHE_IMAGE=" +:+ _get_project_cache_image_name project sanitizer in
  sub_base_builder false arg = arg /\ one_line arg = true.
Proof.
  intros Hp Hs arg. subst arg. unfold _get_project_cache_image_name. split.
  - apply (sub_base_builder_no_blank 4); [lia|].
    change (drop_chars 4 ("ARG CACHE_IMAGE=" +:+ ?x)) with ("CACHE_IMAGE=" +:+ x).
    rewrite !all_chars_app.
    rewrite (all_chars_weaken name_char not_blank project),
            (all_chars_weaken name_char not_blank sanitizer); auto;
      unfold name_char; intros c [_ ?]%andb_true_iff; auto.
  - unfold one_line. rewrite !all_chars_app.
    rewrite (all_chars_weaken name_char not_LF project),
            (all_chars_weaken name_char not_LF sanitizer); auto;
      unfold name_char; intros c [? _]%andb_true_iff; auto.
Qed.

Lemma with_cache_arg_lines (cached_image_name docker_content : string) :
  one_line cached_image_name = true ->
  split_lines (with_cache_arg cached_image_name docker_content)
  = sub_base_builder false
      <$> ("ARG CACHE_IMAGE=" +:+ cached_image_name) :: split_lines docker_content.
Proof.
  intros Hname. unfold with_cache_arg.
  destruct (sub_base_builder_lines
              (("ARG CACHE_IMAGE=" +:+ cached_image_name) +:+ NL +:+ docker_content))
    as [-> _].
  now rewrite split_lines_app_NL by exact Hname.
Qed.

Lemma cached_dockerfile_content_emitted (cached_image_name docker_content : string) :
  cached_dockerfile_content cached_image_name docker_content
  = emitted (lines_to_keep (recorded_scan cached_image_name docker_content)) 0
            (split_lines (with_cache_arg cached_image_name docker_content)).
Proof. unfold cached_dockerfile_content, enumerate. now rewrite emit_fold. Qed.

Lemma scan_eta (st : scan) :
  st = Scan (arg_line st) (from_line st) (copy_fuzzer_line st) (copy_build_line st).
Proof. now destruct st. Qed.

(** C1, as stated, fails: on the fixture the [FROM] line is emitted as it
    was, naming the literal base image; no line refers to the cache-image
    variable in a [FROM]. *)
Lemma fixture_from_line_not_rewritten :
  let out := cached_dockerfile_content
               (_get_project_cache_image_name "libxml2" "address") FIXTURE in
  split_lines out !! 1%nat = Some "FROM base-builder"
  /\ "FROM $CACHE_IMAGE" ∉ split_lines out.
Proof.
  split; [vm_compute; reflexivity|].
  refine (bool_decide_unpack _ _). vm_compute. exact I.
Qed.

Lemma recorded_scan_of (cached_image_name docker_content : string) (st0 : scan) :
  one_line cached_image_name = true ->
  scan_lines (split_lines docker_content) = st0 ->
  recorded_scan cached_image_name docker_content
  = Scan 0 (shift (from_line st0)) (shift (copy_fuzzer_line st0))
         (shift (copy_build_line st0)).
Proof.
  intros Hname <-.
  destruct (recorded_scan_shifted cached_image_name docker_content Hname)
    as (Ha & (_ & Hf) & (_ & Hcf) & (_ & Hcb)).
  rewrite (scan_eta (recorded_scan _ _)). now rewrite Ha, Hf, Hcf, Hcb.
Qed.

(** C1 (amended): for the fixture and sanitizer [address] the output keeps
    the injected [ARG] line, the [FROM] line and both [COPY] lines verbatim
    and emits [RUN a] behind the comment marker.  The [FROM] line still names
    the literal base image; it is rewritten to the cache-image variable when
    it names [gcr.io/oss-fuzz-base/base-builder]. *)
Theorem fixture_rewrite (project : string) :
  all_chars name_char project = true ->
  let image := _get_project_cache_image_name project "address" in
  cached_dockerfile_content image FIXTURE
  = join_lines ["ARG CACHE_IMAGE=" +:+ image; "FROM base-builder"; "# RUN a";
                "COPY build.sh ."; "COPY fuzzer.cc ."; ""]
  /\ cached_dockerfile_content image FIXTURE_BASE_BUILDER
     = join_lines ["ARG CACHE_IMAGE=" +:+ image; "FROM $CACHE_IMAGE"; "# RUN a";
                   "COPY build.sh ."; "COPY fuzzer.cc ."; ""].
Proof.
  intros Hp image.
  destruct (arg_line_unchanged project "address" Hp eq_refl) as [Hsub Hone].
  fold image in Hsub, Hone.
  assert (Himage : one_line image = true) by exact Hone.
  split.
  - rewrite cached_dockerfile_content_emitted, with_cache_arg_lines by exact Himage.
    rewrite (recorded_scan_of image FIXTURE (Scan (-1) 0 2 3) Himage eq_refl).
    rewrite fmap_cons, Hsub. vm_compute. reflexivity.
  - rewrite cached_dockerfile_content_emitted, with_cache_arg_lines by exact Himage.
    rewrite (recorded_scan_of image FIXTURE_BASE_BUILDER (Scan (-1) 0 2 3)
               Himage eq_refl).
    rewrite fmap_cons, Hsub. vm_compute. reflexivity.
Qed.

Lemma fixture_rewrite_witness :
  let image := _get_project_cache_image_name "libxml2" "address" in
  cached_dockerfile_content image FIXTURE
  = join_lines ["ARG CACHE_IMAGE=" +:+ image; "FROM base-builder"; "# RUN a";
                "COPY build.sh ."; "COPY fuzzer.cc ."; ""]
  /\ cached_dockerfile_content image FIXTURE_BASE_BUILDER
     = join_lines ["ARG CACHE_IMAGE=" +:+ image; "FROM $CACHE_IMAGE"; "# RUN a";
                   "COPY build.sh ."; "COPY fuzzer.cc ."; ""].
Proof. apply (fixture_rewrite "libxml2"). reflexivity. Defined.

(* ===================================================================== *)
(** ** Paths of a staged project *)
(* ===================================================================== *)

Lemma os_path_join_relative (a b : string) :
  startswith b "/" = false -> os_path_join a b = join_prefix a +:+ b.
Proof.
  intros Hb. unfold os_path_join, join_prefix. rewrite Hb.
  destruct (bool_decide (a = "") || endswith_char a "/"); [reflexivity|].
  now rewrite string_app_assoc.
Qed.

Lemma string_app_last_char (x y : string) (a b : ascii) :
  a <> b -> x +:+ String a EmptyString <> y +:+ String b EmptyString.
Proof.
  intros Hab Heq. apply (f_equal chars) in Heq. rewrite !chars_app in Heq.
  simpl in Heq. now apply last_char_differs in Heq.
Qed.

Section Paths.

Variable OSS_FUZZ_DIR : string.

#[local] Abbreviation folder g := (join_prefix (project_folder OSS_FUZZ_DIR g)).

Lemma active_path_eq (g : string) :
  active_path OSS_FUZZ_DIR g = folder g +:+ "Dockerfile".
Proof. unfold active_path. now apply os_path_join_relative. Qed.

Lemma original_path_eq (g : string) :
  original_path OSS_FUZZ_DIR g = folder g +:+ "Dockerfile_original".
Proof. unfold original_path. now apply os_path_join_relative. Qed.

Lemma cached_path_eq (g s : string) :
  cached_path OSS_FUZZ_DIR g s = folder g +:+ "Dockerfile_" +:+ s +:+ "_cached".
Proof. unfold cached_path. now apply os_path_join_relative. Qed.

Lemma cached_path_not_original (g s : string) :
  cached_path OSS_FUZZ_DIR g s <> original_path OSS_FUZZ_DIR g.
Proof.
  rewrite cached_path_eq, original_path_eq. intros Heq.
  apply String.app_inj in Heq.
  change "Dockerfile_original" with ("Dockerfile_" +:+ "origina" +:+ "l") in Heq.
  apply String.app_inj in Heq.
  change "_cached" with ("_cache" +:+ "d") in Heq.
  rewrite <- string_app_assoc in Heq.
  now apply string_app_last_char in Heq.
Qed.

Lemma cached_path_not_active (g s : string) :
  cached_path OSS_FUZZ_DIR g s <> active_path OSS_FUZZ_DIR g.
Proof.
  rewrite cached_path_eq, active_path_eq. intros Heq.
  apply String.app_inj in Heq.
  apply (f_equal chars) in Heq. rewrite chars_app in Heq.
  simpl in Heq. discriminate Heq.
Qed.

Lemma original_path_not_active (g : string) :
  original_path OSS_FUZZ_DIR g <> active_path OSS_FUZZ_DIR g.
Proof.
  rewrite original_path_eq, active_path_eq. intros Heq.
  apply String.app_inj in Heq. discriminate Heq.
Qed.

End Paths.

(* ===================================================================== *)
(** ** Rewriting a staged project and selecting its build definition *)
(* ===================================================================== *)

Section CheckoutFacts.

Context {World : Type}.
Variable sp_run : Cmd -> World -> Completion * World.
Variable OSS_FUZZ_DIR : string.

#[local] Abbreviation rewrite_project :=
  (rewrite_project_to_cached_project World OSS_FUZZ_DIR).
#[local] Abbreviation active := (active_path OSS_FUZZ_DIR).
#[local] Abbreviation original := (original_path OSS_FUZZ_DIR).
#[local] Abbreviation cached := (cached_path OSS_FUZZ_DIR).

Lemma is_Some_lookup (m : gmap string string) (path content : string) :
  m !! path = Some content -> bool_decide (is_Some (m !! path)) = true.
Proof. intros ->. reflexivity. Qed.

Lemma is_Some_lookup_None (m : gmap string string) (path : string) :
  m !! path = None -> bool_decide (is_Some (m !! path)) = false.
Proof. intros ->. reflexivity. Qed.

(** With the rewritten artifact in place the function returns at once. *)
Lemma rewrite_already_converted (p g s : string) (st : State World) :
  is_Some (fs st !! cached g s) -> rewrite_project p g s st = (Ok tt, st).
Proof.
  intros [content Hc].
  unfold rewrite_project_to_cached_project, bind, isfile.
  now rewrite (is_Some_lookup _ _ _ Hc).
Qed.

(** Without it, the text is derived from the backup, which is first made
    from the active Dockerfile when it does not exist. *)
Lemma rewrite_not_converted (p g s : string) (st : State World) :
  fs st !! cached g s = None ->
  rewrite_project p g s st =
    let new_content := cached_dockerfile_content (_get_project_cache_image_name p s) in
    match fs st !! original g with
    | Some content =>
        (Ok tt, MkState (<[cached g s := new_content content]> (fs st))
                        (world st) (log st))
    | None =>
        match fs st !! active g with
        | Some content =>
            (Ok tt, MkState (<[cached g s := new_content content]>
                               (<[original g := content]> (fs st)))
                            (world st) (log st))
        | None => (Raise (FileNotFoundError (active g)), st)
        end
    end.
Proof.
  intros Hc.
  unfold rewrite_project_to_cached_project, bind, isfile.
  rewrite (is_Some_lookup_None _ _ Hc).
  destruct (fs st !! original g) as [content|] eqn:Ho.
  - cbn. unfold read_file. now rewrite Ho.
  - cbn. unfold shutil_copy.
    destruct (fs st !! active g) as [content|] eqn:Ha; [|reflexivity].
    unfold read_file, write_file. cbn. now rewrite lookup_insert_eq.
Qed.

Lemma rewrite_keeps_backup (p g s content : string) (st : State World) :
  fs st !! original g = Some content ->
  fs (rewrite_project p g s st).2 !! original g = Some content.
Proof.
  intros Ho.
  destruct (fs st !! cached g s) as [c|] eqn:Hc.
  - now rewrite rewrite_already_converted by eauto.
  - rewrite rewrite_not_converted by exact Hc. rewrite Ho. cbn.
    rewrite lookup_insert_ne by apply cached_path_not_original. exact Ho.
Qed.

Lemma rewrite_makes_artifact (p g s : string) (st st' : State World) :
  rewrite_project p g s st = (Ok tt, st') -> is_Some (fs st' !! cached g s).
Proof.
  destruct (fs st !! cached g s) as [c|] eqn:Hc.
  - rewrite rewrite_already_converted by eauto.
    intros [= <-]. eauto.
  - rewrite rewrite_not_converted by exact Hc. cbn.
    destruct (fs st !! original g); [|destruct (fs st !! active g)];
      intros [= <-]; cbn; rewrite ?lookup_insert_eq; eauto.
Qed.

Lemma rewrite_makes_backup (p g s : string) (st st' : State World) :
  rewrite_project p g s st = (Ok tt, st') ->
  fs st !! cached g s = None ->
  fs st !! original g = None ->
  fs st' !! original g = fs st !! active g /\ is_Some (fs st' !! original g).
Proof.
  intros Hrun Hc Ho.
  rewrite rewrite_not_converted in Hrun by exact Hc.
  rewrite Ho in Hrun. cbn in Hrun.
  destruct (fs st !! active g) as [content|]; [|discriminate Hrun].
  injection Hrun as <-. cbn.
  rewrite lookup_insert_ne by apply cached_path_not_original.
  rewrite lookup_insert_eq. eauto.
Qed.

(** C9: after a successful rewrite, a second call for the same staged
    project and sanitizer returns at once and leaves the whole state, so
    also the artifact, as it is.  More generally, a call that finds the
    artifact of its staged project and sanitizer, whatever text it holds
    and whatever project the call names, returns with the whole state
    unchanged: nothing is transformed again.  The backup is made by the one
    call that finds none (a copy of the active build definition), and no
    call for this staged project, whatever the project and sanitizer,
    changes a backup that exists. *)
Theorem rewrite_idempotent (p g s : string) (st st1 : State World) :
  rewrite_project_to_cached_project World OSS_FUZZ_DIR p g s st = (Ok tt, st1) ->
  rewrite_project_to_cached_project World OSS_FUZZ_DIR p g s st1 = (Ok tt, st1)
  /\ is_Some (fs st1 !! cached_path OSS_FUZZ_DIR g s)
  /\ (forall (p' : string) (st2 : State World),
         is_Some (fs st2 !! cached_path OSS_FUZZ_DIR g s) ->
         rewrite_project_to_cached_project World OSS_FUZZ_DIR p' g s st2
         = (Ok tt, st2))
  /\ (fs st !! cached_path OSS_FUZZ_DIR g s = None ->
      fs st !! original_path OSS_FUZZ_DIR g = None ->
      fs st1 !! original_path OSS_FUZZ_DIR g
      = fs st !! active_path OSS_FUZZ_DIR g
      /\ is_Some (fs st1 !! original_path OSS_FUZZ_DIR g))
  /\ (forall (p' s' : string) (st2 : State World) (content : string),
         fs st2 !! original_path OSS_FUZZ_DIR g = Some content ->
         fs (rewrite_project_to_cached_project World OSS_FUZZ_DIR p' g s' st2).2
           !! original_path OSS_FUZZ_DIR g = Some content).
Proof.
  intros Hrun.
  pose proof (rewrite_makes_artifact p g s st st1 Hrun) as Hart.
  split; [now apply rewrite_already_converted|].
  split; [exact Hart|].
  split; [intros p' st2; apply rewrite_already_converted|].
  split; [exact (rewrite_makes_backup p g s st st1 Hrun)|].
  intros p' s' st2 content. apply rewrite_keeps_backup.
Qed.

(** *** [prepare_build] *)

#[local] Abbreviation inspect p s :=
  (manifest_inspect_cmd (_get_project_cache_image_name p s)).

(** C4 (amended): with caching enabled, [prepare_build] copies over the
    active build definition the rewritten artifact when the existence check
    succeeds, the backup otherwise.  It never calls the rewriter: when the
    file to copy is missing it raises and leaves every file as it was. *)
Theorem prepare_build_selects (p s g : string) (st : State World)
    (is_cached : bool) (w : World) :
  sp_run (manifest_inspect_cmd (_get_project_cache_image_name p s)) (world st)
  = (Exited is_cached, w) ->
  let source :=
    if is_cached then cached_path OSS_FUZZ_DIR g s
    else original_path OSS_FUZZ_DIR g in
  let '(r, st') := prepare_build World sp_run OSS_FUZZ_DIR true p s g st in
  world st' = w
  /\ log st'
     = log st ++ [manifest_inspect_cmd (_get_project_cache_image_name p s)]
  /\ match fs st !! source with
     | Some content =>
         r = Ok tt
         /\ fs st' !! active_path OSS_FUZZ_DIR g = Some content
         /\ fs st' !! source = Some content
         /\ fs st' = <[active_path OSS_FUZZ_DIR g := content]> (fs st)
     | None =>
         r = Raise (FileNotFoundError source) /\ fs st' = fs st
     end.
Proof.
  intros Hrun source.
  unfold prepare_build, bind, is_image_cached, run. cbn.
  rewrite Hrun. unfold shutil_copy.
  assert (Hne : source <> active g).
  { subst source. destruct is_cached;
      [apply cached_path_not_active | apply original_path_not_active]. }
  destruct is_cached; subst source; cbn;
    match goal with
    | |- context [fs st !! ?path] => destruct (fs st !! path) eqn:Hsrc
    end; cbn; rewrite ?lookup_insert_eq, ?lookup_insert_ne by auto;
    repeat split; auto.
Qed.

End CheckoutFacts.

(* ===================================================================== *)
(** ** Creating cached images *)
(* ===================================================================== *)

Section CacheFacts.

Context {World : Type}.
Variable sp_run : Cmd -> World -> Completion * World.
Variable OSS_FUZZ_DIR : string.

#[local] Abbreviation image := _get_project_cache_image_name.
#[local] Abbreviation container := _get_project_cache_name.
#[local] Abbreviation build p s :=
  (build_fuzzers_cmd OSS_FUZZ_DIR p s (_get_project_cache_name p)).
#[local] Abbreviation prepare_image_cache :=
  (_prepare_image_cache World sp_run OSS_FUZZ_DIR).
#[local] Abbreviation prepare_loop :=
  (prepare_cached_images_loop World sp_run OSS_FUZZ_DIR).

Lemma run_eq (cmd : Cmd) (st : State World) (ok : bool) (w : World) :
  sp_run cmd (world st) = (Exited ok, w) ->
  run World sp_run cmd st = (Ok ok, MkState (fs st) w (log st ++ [cmd])).
Proof. intros Hrun. unfold run. now rewrite Hrun. Qed.

#[local] Abbreviation body :=
  (_prepare_image_cache_body World sp_run OSS_FUZZ_DIR).

(** The loop body leaves the function only with [False]. *)
Lemma body_returns_false (project name sanitizer : string) (st st' : State World)
    (b : bool) :
  body project name sanitizer st = (Ok (Return b), st') -> b = false.
Proof.
  unfold _prepare_image_cache_body, bind, is_image_cached, run, ret.
  cbn [fs world log].
  repeat match goal with
         | |- context [sp_run ?c ?w] =>
             let ok := fresh "ok" in
             let e := fresh "e" in
             let w' := fresh "w" in
             destruct (sp_run c w) as [[ok|e] w'];
             [destruct ok|]; cbn [negb fs world log]
         end;
    intros [=]; auto.
Qed.

(** When the loop has passed the sanitizers [earlier] and fallen through,
    it goes on with those that follow, in the state it has reached. *)
Lemma for_each_passed (project name : string) (earlier later : list string)
    (st0 st : State World) :
  for_each World (body project name) earlier true st0 = (Ok true, st) ->
  for_each World (body project name) (earlier ++ later) true st0
  = for_each World (body project name) later true st.
Proof.
  revert st0. induction earlier as [|s earlier IH]; intros st0.
  - cbn. unfold ret. now intros [= ->].
  - cbn [app for_each]. unfold bind.
    destruct (body project name s st0) as [[[|b]|e] st1] eqn:Hbody.
    + apply IH.
    + unfold ret. intros [= -> _].
      now apply body_returns_false in Hbody.
    + discriminate.
Qed.

(** A failed build, or a failed commit, in one pass of the loop body: the
    function is left with [False]; after a failed build nothing is
    committed, and nothing is removed in either case. *)
Lemma body_failure (project sanitizer : string) (st : State World)
    (pulled built committed : bool) (w1 w2 w3 w4 w5 : World) :
  sp_run (manifest_inspect_cmd (image project sanitizer)) (world st)
  = (Exited false, w1) ->
  sp_run (pull_cmd (image project sanitizer)) w1 = (Exited pulled, w2) ->
  sp_run (manifest_inspect_cmd (image project sanitizer)) w2
  = (Exited false, w3) ->
  sp_run (build project sanitizer) w3 = (Exited built, w4) ->
  sp_run (commit_cmd (container project) (image project sanitizer)) w4
    = (Exited committed, w5) ->
  built && committed = false ->
  body project (container project) sanitizer st
  = (Ok (Return false),
     MkState (fs st) (if built then w5 else w4)
       (log st
        ++ [manifest_inspect_cmd (image project sanitizer);
            pull_cmd (image project sanitizer);
            manifest_inspect_cmd (image project sanitizer);
            build project sanitizer]
        ++ (if built
            then [commit_cmd (container project) (image project sanitizer)]
            else []))).
Proof.
  intros H1 H2 H3 H4 H5 Hfail.
  unfold _prepare_image_cache_body.
  unfold bind at 1. unfold is_image_cached at 1.
  rewrite (run_eq _ st false w1 H1).
  unfold bind at 1. erewrite run_eq by exact H2.
  unfold bind at 1. unfold is_image_cached at 1.
  erewrite run_eq by exact H3.
  unfold bind at 1. erewrite run_eq by exact H4.
  destruct built; cbn [negb].
  - unfold bind at 1. erewrite run_eq by exact H5.
    simpl in Hfail. subst committed. cbn [negb]. unfold ret. cbn.
    now rewrite <- !app_assoc.
  - unfold ret. cbn. now rewrite <- !app_assoc.
Qed.

(** C2 (amended): when the build of a sanitizer (or the commit after it)
    fails, whichever sanitizer of the fixed list it is, caching of that
    project stops there: the function returns [False] right after the
    failed command, the sanitizers that remain are not attempted, and the
    loop over the projects goes on with the next project.  [earlier] are
    the sanitizers the loop has passed before, leaving the state [st]. *)
Theorem build_failure_aborts_project_only (project : string)
    (rest : list string) (earlier : list string) (sanitizer : string)
    (later : list string) (st0 st : State World)
    (pulled built committed : bool) (w1 w2 w3 w4 w5 : World) :
  let image := _get_project_cache_image_name project sanitizer in
  let container := _get_project_cache_name project in
  let build := build_fuzzers_cmd OSS_FUZZ_DIR project sanitizer container in
  let st_failed :=
    MkState (fs st) (if built then w5 else w4)
      (log st
       ++ [manifest_inspect_cmd image; pull_cmd image;
           manifest_inspect_cmd image; build]
       ++ (if built then [commit_cmd container image] else [])) in
  SANITIZERS = earlier ++ sanitizer :: later ->
  is_Some (fs st0 !! os_path_join "fuzzer_build_script" project) ->
  for_each World
    (_prepare_image_cache_body World sp_run OSS_FUZZ_DIR project container)
    earlier true st0
  = (Ok true, st) ->
  sp_run (manifest_inspect_cmd image) (world st) = (Exited false, w1) ->
  sp_run (pull_cmd image) w1 = (Exited pulled, w2) ->
  sp_run (manifest_inspect_cmd image) w2 = (Exited false, w3) ->
  sp_run build w3 = (Exited built, w4) ->
  sp_run (commit_cmd container image) w4 = (Exited committed, w5) ->
  built && committed = false ->
  _prepare_image_cache World sp_run OSS_FUZZ_DIR project st0
  = (Ok false, st_failed)
  /\ prepare_cached_images_loop World sp_run OSS_FUZZ_DIR (project :: rest) st0
     = prepare_cached_images_loop World sp_run OSS_FUZZ_DIR rest st_failed.
Proof.
  intros image container build st_failed Hlist [script Hscript] Hpassed
    H1 H2 H3 H4 H5 Hfail.
  subst image container build st_failed.
  match goal with
  | |- _ = (Ok false, ?failed) /\ _ => set (st_failed := failed)
  end.
  assert (Hcache : prepare_image_cache project st0 = (Ok false, st_failed)).
  { unfold _prepare_image_cache, bind at 1, _has_cache_build_script, isfile.
    rewrite Hscript.
    change (bool_decide (is_Some (Some script))) with true. cbn [negb].
    rewrite Hlist.
    rewrite (for_each_passed project _ earlier (sanitizer :: later) st0 st
               Hpassed).
    cbn [for_each]. unfold bind at 1.
    now rewrite (body_failure project sanitizer st pulled built committed
                   w1 w2 w3 w4 w5). }
  split; [exact Hcache|].
  cbn [prepare_cached_images_loop]. unfold bind at 1.
  now rewrite Hcache.
Qed.

End CacheFacts.

(* ===================================================================== *)
(** ** Concrete runs *)
(* ===================================================================== *)

(** C2, as stated, fails: the build for [address] fails, the function
    returns, and no command is ever issued for [coverage]. *)
Lemma coverage_not_attempted_after_failure :
  let '(r, st') := _prepare_image_cache unit offline DIR "libxml2" st_script in
  r = Ok false
  /\ last (log st')
     = Some (build_fuzzers_cmd DIR "libxml2" "address"
               (_get_project_cache_name "libxml2"))
  /\ Forall (fun cmd => ("coverage" ∉ argv cmd)
                        /\ (_get_project_cache_image_name "libxml2" "coverage"
                            ∉ argv cmd)) (log st').
Proof.
  split; [vm_compute; reflexivity|].
  split; [vm_compute; reflexivity|].
  refine (bool_decide_unpack _ _). vm_compute. exact I.
Qed.

(** The image for [address] is cached; the build for [coverage] fails. *)
Lemma build_failure_aborts_project_only_witness :
  let st_failed :=
    MkState (fs (st_scripted [true; false; false; false; false])) []
      ([manifest_inspect_cmd (_get_project_cache_image_name "libxml2" "address")]
       ++ [manifest_inspect_cmd (_get_project_cache_image_name "libxml2" "coverage");
           pull_cmd (_get_project_cache_image_name "libxml2" "coverage");
           manifest_inspect_cmd (_get_project_cache_image_name "libxml2" "coverage");
           build_fuzzers_cmd DIR "libxml2" "coverage"
             (_get_project_cache_name "libxml2")]
       ++ []) in
  _prepare_image_cache (list bool) scripted DIR "libxml2"
    (st_scripted [true; false; false; false; false])
  = (Ok false, st_failed)
  /\ prepare_cached_images_loop (list bool) scripted DIR ["libxml2"; "zlib"]
       (st_scripted [true; false; false; false; false])
     = prepare_cached_images_loop (list bool) scripted DIR ["zlib"] st_failed.
Proof.
  apply (build_failure_aborts_project_only scripted DIR "libxml2" ["zlib"]
           ["address"] "coverage" []
           (st_scripted [true; false; false; false; false])
           (MkState (fs (st_scripted [true; false; false; false; false]))
              [false; false; false; false]
              [manifest_inspect_cmd
                 (_get_project_cache_image_name "libxml2" "address")])
           false false false
           [false; false; false] [false; false] [false] [] []);
    try reflexivity.
  vm_compute. eauto.
Defined.

(** C4, as stated, fails: the existence check succeeds, but the rewritten
    artifact is absent; [prepare_build] does not create it, it raises and
    the active build definition is still the original text. *)
Lemma prepare_build_does_not_rewrite :
  let '(r, st') := prepare_build unit online DIR true "libxml2" "address"
                     "libxml2-1f" st_staged in
  r = Raise (FileNotFoundError (cached_path DIR "libxml2-1f" "address"))
  /\ fs st' !! cached_path DIR "libxml2-1f" "address" = None
  /\ fs st' !! active_path DIR "libxml2-1f" = Some FIXTURE.
Proof. repeat split; vm_compute; reflexivity. Qed.

Lemma prepare_build_selects_witness :
  let source := cached_path DIR "libxml2-1f" "address" in
  let '(r, st') := prepare_build unit online DIR true "libxml2" "address"
                     "libxml2-1f" st_rewritten in
  world st' = tt
  /\ log st' = log st_rewritten
               ++ [manifest_inspect_cmd
                     (_get_project_cache_image_name "libxml2" "address")]
  /\ match fs st_rewritten !! source with
     | Some content =>
         r = Ok tt
         /\ fs st' !! active_path DIR "libxml2-1f" = Some content
         /\ fs st' !! source = Some content
         /\ fs st' = <[active_path DIR "libxml2-1f" := content]> (fs st_rewritten)
     | None =>
         r = Raise (FileNotFoundError source) /\ fs st' = fs st_rewritten
     end.
Proof.
  apply (prepare_build_selects online DIR "libxml2" "address" "libxml2-1f"
           st_rewritten true tt).
  reflexivity.
Defined.

Lemma rewrite_idempotent_witness :
  rewrite_project_to_cached_project unit DIR "libxml2" "libxml2-1f" "address"
    st_rewritten = (Ok tt, st_rewritten)
  /\ is_Some (fs st_rewritten !! cached_path DIR "libxml2-1f" "address")
  /\ (forall (p' : string) (st2 : State unit),
         is_Some (fs st2 !! cached_path DIR "libxml2-1f" "address") ->
         rewrite_project_to_cached_project unit DIR p' "libxml2-1f" "address"
           st2
         = (Ok tt, st2))
  /\ (fs st_staged !! cached_path DIR "libxml2-1f" "address" = None ->
      fs st_staged !! original_path DIR "libxml2-1f" = None ->
      fs st_rewritten !! original_path DIR "libxml2-1f"
      = fs st_staged !! active_path DIR "libxml2-1f"
      /\ is_Some (fs st_rewritten !! original_path DIR "libxml2-1f"))
  /\ (forall (p' s' : string) (st2 : State unit) (content : string),
         fs st2 !! original_path DIR "libxml2-1f" = Some content ->
         fs (rewrite_project_to_cached_project unit DIR p' "libxml2-1f" s' st2).2
           !! original_path DIR "libxml2-1f" = Some content).
Proof.
  apply (rewrite_idempotent DIR "libxml2" "libxml2-1f" "address" st_staged).
  vm_compute. reflexivity.
Defined.

(* ===================================================================== *)
(** ** The retry wrapper *)
(* ===================================================================== *)

Section RetryFacts.

Context {K : Type} `{Countable K}.
Context {E : Type} (type_of : E -> K).
Variable is_Exception : E -> bool.
Context {St A : Type} (func : St -> (E + A) * St).
Context {Delay : Type}.
Variable delay_fn : E -> Z -> St -> (E + Delay) * St.
Variable sleep : Delay -> St -> (E + unit) * St.
Variable exceptions : list K.
Variable default_attempts : Z.
Variable other_exceptions : gmap K Z.

#[local] Abbreviation config :=
  (exception_config exceptions default_attempts other_exceptions).
#[local] Abbreviation budget :=
  (num_attempts_of type_of exceptions default_attempts other_exceptions).
#[local] Abbreviation most :=
  (max_attempts exceptions default_attempts other_exceptions).
#[local] Abbreviation loop :=
  (wrapper_loop type_of is_Exception func delay_fn sleep exceptions
                default_attempts other_exceptions).
#[local] Abbreviation retry :=
  (wrapper type_of is_Exception func delay_fn sleep exceptions
           default_attempts other_exceptions).
#[local] Abbreviation pause := (delay_then_sleep delay_fn sleep).
#[local] Abbreviation reach :=
  (reaches type_of is_Exception func delay_fn sleep exceptions
           default_attempts other_exceptions).
#[local] Abbreviation reach_first :=
  (reaches_first type_of is_Exception func delay_fn sleep exceptions
                 default_attempts other_exceptions).
#[local] Abbreviation reach_retry :=
  (reaches_retry type_of is_Exception func delay_fn sleep exceptions
                 default_attempts other_exceptions).

(** A failure that is not caught, or whose budget the counter has reached,
    is propagated. *)
Lemma loop_raise (fuel : nat) (attempt : Z) (calls : nat) (s s' : St) (e : E) :
  func s = (inl e, s') -> budget e <= attempt ->
  loop (S fuel) attempt calls s = Some (MkOutcome (inl e) (S calls) s').
Proof.
  intros Hcall Hbudget. cbn [wrapper_loop]. rewrite Hcall.
  destruct (is_Exception e); [|reflexivity]. cbn [negb].
  destruct (Z.geb_spec attempt (budget e)); [reflexivity|lia].
Qed.

Lemma loop_uncaught (fuel : nat) (attempt : Z) (calls : nat) (s s' : St) (e : E) :
  func s = (inl e, s') -> is_Exception e = false ->
  loop (S fuel) attempt calls s = Some (MkOutcome (inl e) (S calls) s').
Proof.
  intros Hcall Hexc. cbn [wrapper_loop]. now rewrite Hcall, Hexc.
Qed.

(** A caught failure within its budget: the delay and the sleep decide. *)
Lemma loop_pause (fuel : nat) (attempt : Z) (calls : nat) (s s' : St) (e : E) :
  func s = (inl e, s') -> is_Exception e = true -> attempt < budget e ->
  loop (S fuel) attempt calls s
  = match pause e (attempt + 1) s' with
    | (inl e', s'') => Some (MkOutcome (inl e') (S calls) s'')
    | (inr _, s'') => loop fuel (attempt + 1) (S calls) s''
    end.
Proof.
  intros Hcall Hexc Hbudget. cbn [wrapper_loop]. rewrite Hcall, Hexc.
  cbn [negb]. destruct (Z.geb_spec attempt (budget e)); [lia|].
  unfold delay_then_sleep.
  destruct (delay_fn e (attempt + 1) s') as [[e'|delay_time] s1]; [reflexivity|].
  now destruct (sleep delay_time s1) as [[e'|u] s2].
Qed.

Lemma loop_retry (fuel : nat) (attempt : Z) (calls : nat) (s s' s'' : St)
    (e : E) (u : unit) :
  func s = (inl e, s') -> is_Exception e = true -> attempt < budget e ->
  pause e (attempt + 1) s' = (inr u, s'') ->
  loop (S fuel) attempt calls s = loop fuel (attempt + 1) (S calls) s''.
Proof.
  intros Hcall Hexc Hbudget Hpause.
  rewrite (loop_pause fuel attempt calls s s' e Hcall Hexc Hbudget).
  now rewrite Hpause.
Qed.

Lemma loop_escape (fuel : nat) (attempt : Z) (calls : nat) (s s' s'' : St)
    (e e' : E) :
  func s = (inl e, s') -> is_Exception e = true -> attempt < budget e ->
  pause e (attempt + 1) s' = (inl e', s'') ->
  loop (S fuel) attempt calls s = Some (MkOutcome (inl e') (S calls) s'').
Proof.
  intros Hcall Hexc Hbudget Hpause.
  rewrite (loop_pause fuel attempt calls s s' e Hcall Hexc Hbudget).
  now rewrite Hpause.
Qed.

Lemma loop_return (fuel : nat) (attempt : Z) (calls : nat) (s s' : St) (a : A) :
  func s = (inr a, s') ->
  loop (S fuel) attempt calls s = Some (MkOutcome (inr a) (S calls) s').
Proof. intros Hcall. cbn [wrapper_loop]. now rewrite Hcall. Qed.

(** *** The bound on the number of calls *)

Lemma max_attempts_bound :
  1 <= most /\ forall k n, config !! k = Some n -> n <= most.
Proof.
  unfold max_attempts.
  apply (map_fold_weak_ind
           (fun r (m : gmap K Z) => 1 <= r /\ forall k n, m !! k = Some n -> n <= r)).
  - split; [lia|]. intros k n Hk. now rewrite lookup_empty in Hk.
  - intros k n m r Hfresh [Hone Hall]. split; [lia|].
    intros k' n' Hk'. destruct (decide (k = k')) as [->|Hne].
    + rewrite lookup_insert_eq in Hk'. injection Hk' as ->. lia.
    + rewrite lookup_insert_ne in Hk' by exact Hne.
      specialize (Hall k' n' Hk'). lia.
Qed.

Lemma budget_le_most (e : E) : budget e <= most.
Proof.
  destruct max_attempts_bound as [Hone Hall].
  unfold num_attempts_of.
  destruct (config !! type_of e) as [n|] eqn:Hk; simpl; eauto.
Qed.

Lemma reaches_counter (s0 s : St) (attempt : Z) (calls : nat) :
  reach s0 attempt calls s ->
  attempt = Z.of_nat calls + 1 /\ attempt <= most.
Proof.
  induction 1 as [|attempt calls s e s' u s'' _ [IH1 IH2] _ _ Hbudget _].
  - split; [reflexivity|apply max_attempts_bound].
  - pose proof (budget_le_most e). lia.
Qed.

Lemma reaches_loop (s0 s : St) (attempt : Z) (calls : nat) (fuel : nat) :
  reach s0 attempt calls s ->
  loop (calls + fuel) 1 0 s0 = loop fuel attempt calls s.
Proof.
  intros Hreach. revert fuel.
  induction Hreach as [|attempt calls s e s' u s'' _ IH Hcall Hexc Hbudget Hpause];
    intros fuel; [reflexivity|].
  replace (S calls + fuel)%nat with (calls + S fuel)%nat by lia.
  rewrite IH. now apply (loop_retry fuel attempt calls s s' s'' e u).
Qed.

(** The fuel [wrapper] starts with is enough: the loop always ends. *)
Lemma loop_total (fuel : nat) (attempt : Z) (calls : nat) (s : St) :
  attempt <= most -> most + 1 <= attempt + Z.of_nat fuel ->
  exists o, loop fuel attempt calls s = Some o.
Proof.
  revert attempt calls s. induction fuel as [|fuel IH]; intros attempt calls s Hle Hfuel;
    [lia|].
  destruct (func s) as [[e|a] s'] eqn:Hcall.
  - destruct (is_Exception e) eqn:Hexc;
      [|rewrite (loop_uncaught fuel attempt calls s s' e Hcall Hexc); eauto].
    destruct (Z_lt_le_dec attempt (budget e)) as [Hlt|Hge].
    + rewrite (loop_pause fuel attempt calls s s' e Hcall Hexc Hlt).
      destruct (pause e (attempt + 1) s') as [[e'|u] s'']; [eauto|].
      pose proof (budget_le_most e). apply IH; lia.
    + rewrite (loop_raise fuel attempt calls s s' e Hcall Hge). eauto.
  - rewrite (loop_return fuel attempt calls s s' a Hcall). eauto.
Qed.

Lemma wrapper_total (s : St) : exists o, retry s = Some o.
Proof.
  unfold wrapper. destruct max_attempts_bound as [Hone _].
  apply loop_total; lia.
Qed.

(** The wrapper, seen from a call it reaches. *)
Lemma wrapper_from (s0 s : St) (attempt : Z) (calls : nat) :
  reach s0 attempt calls s ->
  exists fuel, retry s0 = loop (S fuel) attempt calls s.
Proof.
  intros Hreach. destruct (reaches_counter _ _ _ _ Hreach) as [Hcount Hle].
  exists (Z.to_nat most - S calls)%nat.
  unfold wrapper. rewrite <- (reaches_loop s0 s attempt calls) by exact Hreach.
  f_equal. lia.
Qed.

Lemma unlisted_budget (e : E) : config !! type_of e = None -> budget e = 1.
Proof. unfold num_attempts_of. now intros ->. Qed.

Lemma listed_budget (e : E) (n : Z) :
  config !! type_of e = Some n -> budget e = n.
Proof. unfold num_attempts_of. now intros ->. Qed.

Lemma wrapper_propagates (s0 s s' : St) (attempt : Z) (calls : nat) (e : E) :
  reach s0 attempt calls s ->
  func s = (inl e, s') ->
  budget e <= attempt ->
  retry s0 = Some (MkOutcome (inl e) (S calls) s').
Proof.
  intros Hreach Hcall Hbudget.
  destruct (wrapper_from s0 s attempt calls Hreach) as [fuel ->].
  now apply loop_raise.
Qed.




End RetryFacts.





(* ===================================================================== *)
(** ** More on the retry wrapper *)
(* ===================================================================== *)

Section RetryOutcomes.

Context {K : Type} `{Countable K}.
Context {E : Type} (type_of : E -> K).
Variable is_Exception : E -> bool.
Context {St A : Type} (func : St -> (E + A) * St).
Context {Delay : Type}.
Variable delay_fn : E -> Z -> St -> (E + Delay) * St.
Variable sleep : Delay -> St -> (E + unit) * St.
Variable exceptions : list K.
Variable default_attempts : Z.
Variable other_exceptions : gmap K Z.

#[local] Abbreviation cfg :=
  (exception_config exceptions default_attempts other_exceptions).
#[local] Abbreviation budget_of :=
  (num_attempts_of type_of exceptions default_attempts other_exceptions).
#[local] Abbreviation loop_from :=
  (wrapper_loop type_of is_Exception func delay_fn sleep exceptions
                default_attempts other_exceptions).
#[local] Abbreviation run_wrapper :=
  (wrapper type_of is_Exception func delay_fn sleep exceptions
           default_attempts other_exceptions).
#[local] Abbreviation reached :=
  (reaches type_of is_Exception func delay_fn sleep exceptions
           default_attempts other_exceptions).
#[local] Abbreviation paused := (delay_then_sleep delay_fn sleep).

(** Every outcome of the loop comes from a call it reaches: it is what
    that call returned or raised, or what the delay function or the sleep
    after that call raised. *)
Lemma loop_outcome (s0 : St) (fuel : nat) (attempt : Z) (calls : nat) (s : St)
    (o : Outcome) :
  reached s0 attempt calls s ->
  loop_from fuel attempt calls s = Some o ->
  exists attempt' calls' s' r s1,
    reached s0 attempt' calls' s'
    /\ func s' = (r, s1)
    /\ invocations o = S calls'
    /\ ((result o = r /\ final_state o = s1
         /\ forall e, r = inl e ->
                      is_Exception e = false \/ budget_of e <= attempt')
        \/ (exists e1 e,
               r = inl e1 /\ is_Exception e1 = true /\ attempt' < budget_of e1
               /\ paused e1 (attempt' + 1) s1 = (inl e, final_state o)
               /\ result o = inl e)).
Proof.
  revert attempt calls s.
  induction fuel as [|fuel IH]; intros attempt calls s Hreach Hloop;
    [discriminate Hloop|].
  destruct (func s) as [[e|a] s'] eqn:Hcall.
  - destruct (is_Exception e) eqn:Hexc.
    + destruct (Z_lt_le_dec attempt (budget_of e)) as [Hlt|Hge].
      * rewrite (loop_pause type_of is_Exception func delay_fn sleep exceptions
                   default_attempts other_exceptions fuel attempt calls s s' e
                   Hcall Hexc Hlt) in Hloop.
        destruct (paused e (attempt + 1) s') as [[e'|u] s''] eqn:Hpause.
        -- injection Hloop as <-. exists attempt, calls, s, (inl e), s'.
           repeat split; auto. right. exists e, e'. repeat split; auto.
        -- eapply IH; [|exact Hloop].
           now apply (reaches_retry type_of is_Exception func delay_fn sleep
                        exceptions default_attempts other_exceptions s0
                        attempt calls s e s' u s'').
      * rewrite (loop_raise type_of is_Exception func delay_fn sleep exceptions
                   default_attempts other_exceptions fuel attempt calls s s' e
                   Hcall Hge) in Hloop.
        injection Hloop as <-. exists attempt, calls, s, (inl e), s'.
        repeat split; auto. left. repeat split; auto.
        intros e' [= <-]. now right.
    + rewrite (loop_uncaught type_of is_Exception func delay_fn sleep exceptions
                 default_attempts other_exceptions fuel attempt calls s s' e
                 Hcall Hexc) in Hloop.
      injection Hloop as <-. exists attempt, calls, s, (inl e), s'.
      repeat split; auto. left. repeat split; auto.
      intros e' [= <-]. now left.
  - rewrite (loop_return type_of is_Exception func delay_fn sleep exceptions
               default_attempts other_exceptions fuel attempt calls s s' a
               Hcall) in Hloop.
    injection Hloop as <-. exists attempt, calls, s, (inr a), s'.
    repeat split; auto. left. repeat split; auto. intros e' [=].
Qed.

Lemma wrapper_outcome (s0 : St) (o : Outcome) :
  run_wrapper s0 = Some o ->
  exists attempt' calls' s' r s1,
    reached s0 attempt' calls' s'
    /\ func s' = (r, s1)
    /\ invocations o = S calls'
    /\ ((result o = r /\ final_state o = s1
         /\ forall e, r = inl e ->
                      is_Exception e = false \/ budget_of e <= attempt')
        \/ (exists e1 e,
               r = inl e1 /\ is_Exception e1 = true /\ attempt' < budget_of e1
               /\ paused e1 (attempt' + 1) s1 = (inl e, final_state o)
               /\ result o = inl e)).
Proof.
  intros Hrun. eapply loop_outcome; [|exact Hrun]. constructor.
Qed.

Lemma reached_bound (bound : Z) (s0 s : St) (attempt : Z) (calls : nat) :
  1 <= bound ->
  (forall k n, cfg !! k = Some n -> n <= bound) ->
  reached s0 attempt calls s ->
  attempt = Z.of_nat calls + 1 /\ attempt <= bound.
Proof.
  intros Hone Hall.
  induction 1 as [|attempt calls s e s' u s'' _ [IH1 IH2] _ _ Hbudget _];
    [split; [reflexivity|exact Hone]|].
  split; [lia|].
  assert (budget_of e <= bound); [|lia].
  unfold num_attempts_of. destruct (cfg !! type_of e) as [n|] eqn:Hk; simpl; eauto.
Qed.

(** X1: the [while True] loop ends, and the function is called at least
    once and at most as often as the largest budget allows: no more than any
    [bound] that is at least one and at least every configured budget. *)
Theorem wrapper_calls_bounded (bound : Z) (s0 : St) :
  1 <= bound ->
  (forall k n,
      exception_config exceptions default_attempts other_exceptions !! k
      = Some n -> n <= bound) ->
  exists o,
    wrapper type_of is_Exception func delay_fn sleep exceptions
            default_attempts other_exceptions s0 = Some o
    /\ (1 <= invocations o)%nat
    /\ Z.of_nat (invocations o) <= bound.
Proof.
  intros Hone Hall.
  destruct (wrapper_total type_of is_Exception func delay_fn sleep exceptions
              default_attempts other_exceptions s0) as [o Hrun].
  exists o. split; [exact Hrun|].
  destruct (wrapper_outcome s0 o Hrun)
    as (attempt & calls & s & r & s1 & Hreach & _ & Hinv & _).
  destruct (reached_bound bound s0 s attempt calls Hone Hall Hreach) as [Hcount Hle].
  rewrite Hinv. lia.
Qed.



(** X4: in the merged configuration an entry of [other_exceptions] wins over
    the default budget of a class listed in [exceptions]; a class listed
    only there has the default budget; any other class has no entry. *)
Theorem exception_config_lookup (k : K) :
  exception_config exceptions default_attempts other_exceptions !! k
  = match other_exceptions !! k with
    | Some n => Some n
    | None => if bool_decide (k ∈ exceptions) then Some default_attempts else None
    end.
Proof.
  unfold exception_config. rewrite lookup_union.
  destruct (other_exceptions !! k) as [n|] eqn:Hother.
  - now destruct (list_to_map _ !! k).
  - rewrite (left_id None _). case_bool_decide as Hin.
    + apply elem_of_list_to_map_1'.
      * intros y Hy. apply list_elem_of_fmap in Hy as (k' & [= _ ->] & _).
        reflexivity.
      * apply list_elem_of_fmap. eauto.
    + apply not_elem_of_list_to_map_1. intros Hk. apply Hin.
      apply list_elem_of_fmap in Hk as ([k' n'] & -> & Hk).
      apply list_elem_of_fmap in Hk as (k'' & [= -> _] & Hk). exact Hk.
Qed.


End RetryOutcomes.

Lemma wrapper_calls_bounded_witness :
  exists o,
    wrapper id is_Exception_name timeout_then_value_error no_delay no_sleep
            ["TimeoutError"] 5 BUDGET_VALUE_ERROR 0%nat = Some o
    /\ (1 <= invocations o)%nat
    /\ Z.of_nat (invocations o) <= 5.
Proof.
  apply (wrapper_calls_bounded id is_Exception_name timeout_then_value_error
           no_delay no_sleep ["TimeoutError"] 5 BUDGET_VALUE_ERROR 5 0%nat);
    [lia|].
  change (map_Forall (fun (_ : string) (n : Z) => n <= 5)
            (exception_config ["TimeoutError"] 5 BUDGET_VALUE_ERROR)).
  refine (bool_decide_unpack _ _). vm_compute. exact I.
Defined.




(* ===================================================================== *)
(** ** What the classification scan records *)
(* ===================================================================== *)

Lemma head_unset (l : list Z) :
  Forall (fun i => 0 <= i) l -> (default (-1) (head l) =? -1) = bool_decide (l = []).
Proof.
  destruct l as [|i l]; [reflexivity|].
  intros [Hi _]%Forall_cons. simpl. destruct (Z.eqb_spec i (-1)); [lia|reflexivity].
Qed.

Lemma head_snoc (l : list Z) (i : Z) :
  default (-1) (head (l ++ [i])) = if bool_decide (l = []) then i else default (-1) (head l).
Proof. now destruct l. Qed.

Lemma scan_line_records (st : scan) (a f c : list Z) (i : Z) (l : string) :
  0 <= i -> records st a f c ->
  records (scan_line st (i, l))
          (a ++ if startswith l "ARG" then [i] else [])
          (f ++ if startswith l "FROM" then [i] else [])
          (c ++ if startswith l "COPY" then [i] else []).
Proof.
  intros Hi (Ha & Hf & Hc & Harg & Hfrom & Hbuild & Hfuzzer).
  destruct st as [x_arg x_from x_fuzzer x_build].
  cbn [arg_line from_line copy_fuzzer_line copy_build_line] in *. subst.
  unfold scan_line, records.
  destruct (startswith l "ARG"), (startswith l "FROM"), (startswith l "COPY");
    repeat first
      [ progress cbn [andb arg_line from_line copy_fuzzer_line copy_build_line]
      | rewrite (head_unset a Ha)
      | rewrite (head_unset f Hf)
      | case_bool_decide ];
    rewrite ?app_nil_r, ?head_snoc, ?reverse_snoc;
    repeat case_bool_decide; try contradiction;
    cbn [lookup list_lookup];
    rewrite ?Forall_app, ?Forall_singleton; repeat split; auto.
Qed.

Lemma scan_from_records (ls : list string) (st : scan) (a f c : list Z) (i : Z) :
  0 <= i -> records st a f c ->
  records (fold_left scan_line (enumerate_from i ls) st)
          (a ++ keyword_lines_from "ARG" i ls)
          (f ++ keyword_lines_from "FROM" i ls)
          (c ++ keyword_lines_from "COPY" i ls).
Proof.
  revert st a f c i. induction ls as [|l ls IH]; intros st a f c i Hi Hst.
  - cbn [keyword_lines_from enumerate_from fold_left]. now rewrite !app_nil_r.
  - cbn [keyword_lines_from enumerate_from fold_left].
    rewrite !app_assoc. apply IH; [lia|]. now apply scan_line_records.
Qed.

(** X6: the scan records the first line that starts with [ARG], the first
    that starts with [FROM], the last that starts with [COPY] as
    [copy_build_line] and the one before the last as [copy_fuzzer_line];
    what does not exist stays [-1], so with fewer than two [COPY] lines
    [copy_fuzzer_line] is unset. *)
Theorem scan_lines_meaning (lines : list string) :
  let st := scan_lines lines in
  arg_line st = default (-1) (head (keyword_lines "ARG" lines))
  /\ from_line st = default (-1) (head (keyword_lines "FROM" lines))
  /\ copy_build_line st = default (-1) (last (keyword_lines "COPY" lines))
  /\ copy_fuzzer_line st
     = default (-1) (reverse (keyword_lines "COPY" lines) !! 1%nat).
Proof.
  intros st.
  assert (Hinit : records scan_init [] [] []).
  { unfold records. repeat split; auto. }
  destruct (scan_from_records lines scan_init [] [] [] 0 ltac:(lia) Hinit)
    as (_ & _ & _ & Harg & Hfrom & Hbuild & Hfuzzer).
  rewrite !app_nil_l in *. repeat split; auto.
  fold (keyword_lines "COPY" lines) in Hbuild.
  rewrite <- head_lookup, head_reverse in Hbuild. exact Hbuild.
Qed.

(* ===================================================================== *)
(** ** The lines of the rewritten build definition *)
(* ===================================================================== *)

Lemma one_line_comment (l : string) : one_line l = true -> one_line ("# " +:+ l) = true.
Proof. unfold one_line. intros Hl. rewrite all_chars_app, Hl. reflexivity. Qed.

Lemma split_lines_emitted (keep : gset Z) (ls : list string) (i : Z) :
  Forall (fun l => one_line l = true) ls ->
  length (split_lines (emitted keep i ls)) = S (length ls)
  /\ split_lines (emitted keep i ls) !! length ls = Some EmptyString
  /\ forall (n : nat) (l : string),
       ls !! n = Some l ->
       split_lines (emitted keep i ls) !! n
       = Some (if bool_decide (i + Z.of_nat n ∉ keep) then "# " +:+ l else l).
Proof.
  revert i. induction ls as [|l ls IH]; intros i Hls.
  - repeat split; auto. intros n l Hn. discriminate Hn.
  - apply Forall_cons in Hls as [Hl Hls].
    destruct (IH (i + 1) Hls) as (IHlen & IHlast & IHnth).
    cbn [emitted].
    rewrite split_lines_app_NL
      by (destruct (bool_decide (i ∉ keep)); auto using one_line_comment).
    repeat split.
    + simpl. now rewrite IHlen.
    + exact IHlast.
    + intros [|n] l' Hn.
      * injection Hn as <-. simpl. now rewrite Z.add_0_r.
      * simpl in Hn. simpl lookup. rewrite (IHnth n l' Hn).
        now replace (i + 1 + Z.of_nat n) with (i + Z.of_nat (S n)) by lia.
Qed.

(** X7: the rewrite deletes nothing.  The output has the lines of the text
    with the [ARG] line in front, in the same order, each one either as it
    is or behind the comment marker, and it ends with a line separator. *)
Theorem output_keeps_every_line (cached_image_name docker_content : string) :
  let lines := split_lines (with_cache_arg cached_image_name docker_content) in
  let keep := lines_to_keep (recorded_scan cached_image_name docker_content) in
  let out := split_lines (cached_dockerfile_content cached_image_name docker_content) in
  length out = S (length lines)
  /\ out !! length lines = Some EmptyString
  /\ forall (n : nat) (l : string),
       lines !! n = Some l ->
       out !! n = Some (if bool_decide (Z.of_nat n ∉ keep) then "# " +:+ l else l).
Proof.
  intros lines keep out. subst out.
  rewrite cached_dockerfile_content_emitted.
  destruct (split_lines_emitted keep lines 0 (split_lines_one_line _))
    as (Hlen & Hlast & Hnth).
  repeat split; auto.
Qed.

Lemma arg_line_kept (cached_image_name docker_content : string) :
  one_line cached_image_name = true ->
  bool_decide
    (0 ∉ lines_to_keep (recorded_scan cached_image_name docker_content)) = false.
Proof.
  intros Hname.
  destruct (recorded_scan_shifted cached_image_name docker_content Hname)
    as (Harg & _).
  apply bool_decide_eq_false. intros Hnot. apply Hnot.
  unfold lines_to_keep. rewrite Harg. set_solver.
Qed.

Lemma output_first_line (cached_image_name docker_content : string) :
  one_line cached_image_name = true ->
  split_lines (cached_dockerfile_content cached_image_name docker_content)
    !! 0%nat
  = Some (sub_base_builder false ("ARG CACHE_IMAGE=" +:+ cached_image_name)).
Proof.
  intros Hname. rewrite cached_dockerfile_content_emitted.
  destruct (split_lines_emitted
              (lines_to_keep (recorded_scan cached_image_name docker_content))
              (split_lines (with_cache_arg cached_image_name docker_content)) 0
              (split_lines_one_line _)) as (_ & _ & Hnth).
  rewrite (Hnth 0%nat (sub_base_builder false
                         ("ARG CACHE_IMAGE=" +:+ cached_image_name))).
  - change (0 + Z.of_nat 0) with 0. now rewrite arg_line_kept.
  - now rewrite with_cache_arg_lines.
Qed.

(** X8: whatever the build definition, the first line of the output is the
    [ARG] line that binds [CACHE_IMAGE] to the cache image of the project
    and sanitizer, and it is not commented out. *)
Theorem output_starts_with_arg (project sanitizer docker_content : string) :
  all_chars name_char project = true ->
  all_chars name_char sanitizer = true ->
  let image := _get_project_cache_image_name project sanitizer in
  split_lines (cached_dockerfile_content image docker_content) !! 0%nat
  = Some ("ARG CACHE_IMAGE=" +:+ image).
Proof.
  intros Hp Hs image.
  destruct (arg_line_unchanged project sanitizer Hp Hs) as [Hsub Hone].
  fold image in Hsub, Hone.
  assert (Himage : one_line image = true) by exact Hone.
  rewrite (output_first_line image docker_content Himage), Hsub. reflexivity.
Qed.

Lemma match_here_self (p rest : string) :
  one_line p = true -> match_here p (p +:+ rest) = true.
Proof.
  unfold one_line. induction p as [|a p IH]; [reflexivity|].
  simpl all_chars. intros [Ha Hp]%andb_true_iff.
  change (String a p +:+ rest) with (String a (p +:+ rest)).
  cbn [match_here]. rewrite (IH Hp), andb_true_r.
  destruct (ch_eqb a "."); [exact Ha|apply ch_eqb_refl].
Qed.

(** A line that starts with the base image is replaced as a whole. *)
Lemma sub_base_builder_from_line (rest : string) :
  one_line (BASE_BUILDER_RE +:+ rest) = true ->
  sub_base_builder false (BASE_BUILDER_RE +:+ rest) = "FROM $CACHE_IMAGE".
Proof.
  intros Hline.
  pose proof (match_here_self BASE_BUILDER_RE rest eq_refl) as Hm.
  remember (BASE_BUILDER_RE +:+ rest) as line eqn:Eline.
  destruct line as [|c r]; [discriminate Eline|].
  change (sub_base_builder false (String c r))
    with (if match_here BASE_BUILDER_RE (String c r)
          then "FROM $CACHE_IMAGE" +:+ sub_base_builder true r
          else String c (sub_base_builder false r)).
  rewrite Hm.
  unfold one_line in Hline. simpl in Hline.
  apply andb_true_iff in Hline as [_ Hr].
  now rewrite (sub_base_builder_rest_of_line r Hr).
Qed.

Lemma first_keyword_line (keyword l : string) (ls : list string) :
  startswith l keyword = true ->
  head (keyword_lines keyword (l :: ls)) = Some 0.
Proof.
  intros Hl. unfold keyword_lines. cbn [keyword_lines_from]. now rewrite Hl.
Qed.

Lemma from_line_of_first_line (l : string) (ls : list string) :
  startswith l "FROM" = true -> from_line (scan_lines (l :: ls)) = 0.
Proof.
  intros Hl.
  assert (Hinit : records scan_init [] [] []).
  { unfold records. repeat split; auto. }
  destruct (scan_from_records (l :: ls) scan_init [] [] [] 0 ltac:(lia) Hinit)
    as (_ & _ & _ & _ & Hfrom & _).
  unfold scan_lines, enumerate. rewrite Hfrom, app_nil_l.
  fold (keyword_lines "FROM" (l :: ls)).
  now rewrite (first_keyword_line "FROM" l ls Hl).
Qed.

(** X9: when the build definition starts with a [FROM] line for the base
    builder image, whatever tag or alias follows on that line, the second line of
    the output is [FROM $CACHE_IMAGE], not commented out. *)
Theorem base_builder_line_rewritten
    (cached_image_name docker_content rest : string) :
  one_line cached_image_name = true ->
  split_lines docker_content !! 0%nat = Some (BASE_BUILDER_RE +:+ rest) ->
  split_lines (cached_dockerfile_content cached_image_name docker_content)
    !! 1%nat
  = Some "FROM $CACHE_IMAGE".
Proof.
  intros Hname Hfirst.
  destruct (split_lines docker_content) as [|l ls] eqn:Hlines;
    [discriminate Hfirst|].
  injection Hfirst as ->.
  pose proof (split_lines_one_line docker_content) as Hone.
  rewrite Hlines in Hone. apply Forall_cons in Hone as [Hl _].
  rewrite cached_dockerfile_content_emitted.
  destruct (split_lines_emitted
              (lines_to_keep (recorded_scan cached_image_name docker_content))
              (split_lines (with_cache_arg cached_image_name docker_content)) 0
              (split_lines_one_line _)) as (_ & _ & Hnth).
  rewrite (Hnth 1%nat "FROM $CACHE_IMAGE").
  - assert (Hkeep : bool_decide
              (0 + Z.of_nat 1
               ∉ lines_to_keep (recorded_scan cached_image_name docker_content))
            = false).
    { apply bool_decide_eq_false. intros Hnot. apply Hnot.
      rewrite (recorded_scan_of cached_image_name docker_content
                 (scan_lines ((BASE_BUILDER_RE +:+ rest) :: ls)) Hname)
        by now rewrite Hlines.
      rewrite (from_line_of_first_line _ ls) by reflexivity.
      unfold lines_to_keep. cbn [arg_line from_line].
      change (shift 0) with 1. change (0 + Z.of_nat 1) with 1. set_solver. }
    now rewrite Hkeep.
  - rewrite with_cache_arg_lines, Hlines by exact Hname.
    rewrite !fmap_cons. cbn [lookup list_lookup].
    now rewrite (sub_base_builder_from_line rest Hl).
Qed.

(* ===================================================================== *)
(** ** More on rewriting and selecting *)
(* ===================================================================== *)

Section RewriteMore.

Context {World : Type}.
Variable sp_run : Cmd -> World -> Completion * World.
Variable OSS_FUZZ_DIR : string.

Lemma cached_path_inj (g s1 s2 : string) :
  cached_path OSS_FUZZ_DIR g s1 = cached_path OSS_FUZZ_DIR g s2 -> s1 = s2.
Proof.
  rewrite !cached_path_eq. intros Heq.
  do 2 apply String.app_inj in Heq.
  now apply string_app_inv_tail in Heq.
Qed.

(** X10: the rewrite runs no external command and changes no file but the
    artifact and the backup; the active build definition in particular is
    left as it is.  When it raises [FileNotFoundError] for the active build
    definition, that file is missing and nothing has changed; and it does
    so whenever neither the artifact nor the backup nor the active build
    definition exists. *)
Theorem rewrite_changes_only_its_files (p g s : string) (st : State World) :
  let '(r, st') :=
    rewrite_project_to_cached_project World OSS_FUZZ_DIR p g s st in
  world st' = world st
  /\ log st' = log st
  /\ fs st' !! active_path OSS_FUZZ_DIR g = fs st !! active_path OSS_FUZZ_DIR g
  /\ (forall path,
         path <> cached_path OSS_FUZZ_DIR g s ->
         path <> original_path OSS_FUZZ_DIR g ->
         fs st' !! path = fs st !! path)
  /\ (r = Raise (FileNotFoundError (active_path OSS_FUZZ_DIR g)) ->
      st' = st /\ fs st !! active_path OSS_FUZZ_DIR g = None)
  /\ (fs st !! cached_path OSS_FUZZ_DIR g s = None ->
      fs st !! original_path OSS_FUZZ_DIR g = None ->
      fs st !! active_path OSS_FUZZ_DIR g = None ->
      r = Raise (FileNotFoundError (active_path OSS_FUZZ_DIR g)) /\ st' = st).
Proof.
  pose proof (cached_path_not_active OSS_FUZZ_DIR g s) as Hca.
  pose proof (original_path_not_active OSS_FUZZ_DIR g) as Hoa.
  destruct (fs st !! cached_path OSS_FUZZ_DIR g s) as [c|] eqn:Hc.
  - rewrite rewrite_already_converted by eauto.
    repeat split; auto; discriminate.
  - rewrite rewrite_not_converted by exact Hc. cbn zeta.
    destruct (fs st !! original_path OSS_FUZZ_DIR g) as [content|] eqn:Ho;
      [|destruct (fs st !! active_path OSS_FUZZ_DIR g) as [content|] eqn:Ha];
      cbn [fs world log];
      repeat split; auto; try discriminate;
      try (intros path H1 H2); rewrite ?lookup_insert_ne by auto; auto;
      try congruence.
Qed.

(** X11: every rewrite derives from the backup.  On a freshly staged
    project, rewriting for one sanitizer, selecting that artifact as the
    active build definition and then rewriting for another sanitizer gives a
    second artifact computed from the original text, not from the active
    build definition that has been overwritten in between. *)
Theorem second_rewrite_derives_from_original (p g s1 s2 content : string)
    (st : State World) (w : World) :
  s1 <> s2 ->
  fs st !! active_path OSS_FUZZ_DIR g = Some content ->
  fs st !! original_path OSS_FUZZ_DIR g = None ->
  fs st !! cached_path OSS_FUZZ_DIR g s1 = None ->
  fs st !! cached_path OSS_FUZZ_DIR g s2 = None ->
  sp_run (manifest_inspect_cmd (_get_project_cache_image_name p s1)) (world st)
  = (Exited true, w) ->
  exists st3,
    bind World (rewrite_project_to_cached_project World OSS_FUZZ_DIR p g s1)
      (fun _ =>
         bind World (prepare_build World sp_run OSS_FUZZ_DIR true p s1 g)
           (fun _ => rewrite_project_to_cached_project World OSS_FUZZ_DIR p g s2))
      st
    = (Ok tt, st3)
    /\ fs st3 !! original_path OSS_FUZZ_DIR g = Some content
    /\ fs st3 !! active_path OSS_FUZZ_DIR g
       = Some (cached_dockerfile_content (_get_project_cache_image_name p s1)
                 content)
    /\ fs st3 !! cached_path OSS_FUZZ_DIR g s1
       = Some (cached_dockerfile_content (_get_project_cache_image_name p s1)
                 content)
    /\ fs st3 !! cached_path OSS_FUZZ_DIR g s2
       = Some (cached_dockerfile_content (_get_project_cache_image_name p s2)
                 content).
Proof.
  intros Hs Ha Ho Hc1 Hc2 Hrun.
  pose proof (cached_path_not_active OSS_FUZZ_DIR g s1) as Hca1.
  pose proof (cached_path_not_active OSS_FUZZ_DIR g s2) as Hca2.
  pose proof (original_path_not_active OSS_FUZZ_DIR g) as Hoa.
  pose proof (cached_path_not_original OSS_FUZZ_DIR g s1) as Hco1.
  pose proof (cached_path_not_original OSS_FUZZ_DIR g s2) as Hco2.
  assert (Hc12 : cached_path OSS_FUZZ_DIR g s1 <> cached_path OSS_FUZZ_DIR g s2)
    by (intros Heq; apply Hs; eapply cached_path_inj, Heq).
  unfold bind at 1.
  rewrite rewrite_not_converted by exact Hc1. cbn zeta. rewrite Ho, Ha.
  unfold bind at 1.
  unfold prepare_build, bind at 1, is_image_cached, run.
  cbn [negb fs world log]. rewrite Hrun. unfold shutil_copy. cbn [fs world log].
  rewrite lookup_insert_eq.
  rewrite rewrite_not_converted; cbn [fs world log];
    rewrite ?lookup_insert_ne, ?lookup_insert_eq by auto; auto.
  cbn zeta. eexists. split; [reflexivity|]. cbn [fs].
  repeat split; rewrite ?lookup_insert_ne, ?lookup_insert_eq by auto; auto;
    rewrite ?lookup_insert_ne, ?lookup_insert_eq by auto; auto.
Qed.

End RewriteMore.

(* ===================================================================== *)
(** ** More on creating cached images *)
(* ===================================================================== *)

Section CacheMore.

Context {World : Type}.
Variable sp_run : Cmd -> World -> Completion * World.
Variable OSS_FUZZ_DIR : string.

#[local] Abbreviation body :=
  (_prepare_image_cache_body World sp_run OSS_FUZZ_DIR).
#[local] Abbreviation cache_project :=
  (_prepare_image_cache World sp_run OSS_FUZZ_DIR).
#[local] Abbreviation cache_loop :=
  (prepare_cached_images_loop World sp_run OSS_FUZZ_DIR).
#[local] Abbreviation inspect_cmd p s :=
  (manifest_inspect_cmd (_get_project_cache_image_name p s)).

Lemma raised_by_last_app (cmds1 cmds2 : list Cmd) (w' : World) (e : Exn) :
  raised_by_last sp_run cmds2 w' e -> raised_by_last sp_run (cmds1 ++ cmds2) w' e.
Proof.
  intros (before & cmd & w & -> & Hrun).
  exists (cmds1 ++ before), cmd, w. split; [now rewrite app_assoc|exact Hrun].
Qed.

Ltac raised_last :=
  match goal with
  | H : sp_run ?cmd ?w = (Uncaught ?e, ?w') |- raised_by_last _ ?cmds ?w' ?e =>
      let before := constr:(removelast cmds) in
      exists before, cmd, w; split; [reflexivity | exact H]
  end.

(** One pass of the loop body: it leaves the files alone and runs between
    one and six commands, the existence check first; it raises only what
    [sp.run] raised for the last of them. *)
Lemma body_frame (project name sanitizer : string) (st : State World) :
  exists (r : Res (Flow bool)) (cmds : list Cmd) (st' : State World),
    body project name sanitizer st = (r, st')
    /\ fs st' = fs st
    /\ log st' = log st ++ inspect_cmd project sanitizer :: cmds
    /\ (length cmds <= 5)%nat
    /\ (forall e, r = Raise e ->
                  raised_by_last sp_run (inspect_cmd project sanitizer :: cmds)
                                 (world st') e).
Proof.
  unfold _prepare_image_cache_body, bind, is_image_cached, run, ret.
  cbn [fs world log].
  repeat match goal with
         | |- context [sp_run ?c ?w] =>
             let ok := fresh "ok" in
             let e := fresh "e" in
             let w' := fresh "w" in
             let Hrun := fresh "Hrun" in
             destruct (sp_run c w) as [[ok|e] w'] eqn:Hrun;
             [destruct ok|]; cbn [negb fs world log]
         end;
    eexists _, _, _; (split; [reflexivity|]); cbn [fs world log];
    (split; [reflexivity|]);
    rewrite <- ?app_assoc; cbn [app];
    (split; [reflexivity|]);
    (split; [cbn [length]; lia|]);
    intros e' He'; try discriminate He'; injection He' as <-;
    cbn [removelast]; raised_last.
Qed.

Lemma for_each_frame (project name : string) (sanitizers : list string)
    (st : State World) :
  exists (r : Res bool) (cmds : list Cmd) (st' : State World),
    for_each World (body project name) sanitizers true st = (r, st')
    /\ fs st' = fs st
    /\ log st' = log st ++ cmds
    /\ (length cmds <= 6 * length sanitizers)%nat
    /\ (forall s rest, sanitizers = s :: rest ->
        exists cmds', cmds = inspect_cmd project s :: cmds')
    /\ (forall e, r = Raise e -> raised_by_last sp_run cmds (world st') e).
Proof.
  revert st. induction sanitizers as [|s rest IH]; intros st.
  - exists (Ok true), [], st. cbn. rewrite app_nil_r.
    repeat split; auto; [intros s rest [=] | intros e [=]].
  - destruct (body_frame project name s st)
      as (r & cmds & st1 & Hbody & Hfs & Hlog & Hlen & Hraise).
    cbn [for_each]. unfold bind. rewrite Hbody.
    destruct r as [[|b]|e].
    + destruct (IH st1)
        as (r2 & cmds2 & st2 & Hrest & Hfs2 & Hlog2 & Hlen2 & _ & Hraise2).
      exists r2, (inspect_cmd project s :: cmds ++ cmds2), st2.
      rewrite Hrest. repeat split.
      * congruence.
      * rewrite Hlog2, Hlog, <- app_assoc. reflexivity.
      * cbn [length]. rewrite length_app. lia.
      * intros s' rest' [= <- <-]. eauto.
      * intros e He.
        change (inspect_cmd project s :: cmds ++ cmds2)
          with ((inspect_cmd project s :: cmds) ++ cmds2).
        apply raised_by_last_app. now apply Hraise2.
    + exists (Ok b), (inspect_cmd project s :: cmds), st1.
      repeat split; auto.
      * cbn [length]. lia.
      * intros s' rest' [= <- <-]. eauto.
      * intros e [=].
    + exists (Raise e), (inspect_cmd project s :: cmds), st1.
      split; [reflexivity|]. split; [exact Hfs|]. split; [exact Hlog|].
      split; [cbn [length]; lia|].
      split; [intros s' rest' [= <- <-]; eauto|].
      intros e' [= <-]. now apply Hraise.
Qed.

Lemma prepare_image_cache_frame (project : string) (st : State World) :
  exists (r : Res bool) (cmds : list Cmd) (st' : State World),
    cache_project project st = (r, st')
    /\ fs st' = fs st
    /\ log st' = log st ++ cmds
    /\ (length cmds <= 12)%nat
    /\ (fs st !! os_path_join "fuzzer_build_script" project = None ->
        r = Ok false /\ cmds = [])
    /\ (is_Some (fs st !! os_path_join "fuzzer_build_script" project) ->
        exists cmds', cmds = inspect_cmd project "address" :: cmds')
    /\ (forall e, r = Raise e -> raised_by_last sp_run cmds (world st') e).
Proof.
  unfold _prepare_image_cache, bind at 1, _has_cache_build_script, isfile.
  destruct (fs st !! os_path_join "fuzzer_build_script" project) as [script|]
    eqn:Hscript.
  - change (bool_decide (is_Some (Some script))) with true. cbn [negb].
    destruct (for_each_frame project (_get_project_cache_name project)
                SANITIZERS st)
      as (r & cmds & st' & Hrun & Hfs & Hlog & Hlen & Hfirst & Hraise).
    exists r, cmds, st'. rewrite Hrun.
    repeat split; auto; try discriminate.
    intros _. eapply Hfirst. reflexivity.
  - change (bool_decide (is_Some None)) with false. cbn [negb].
    exists (Ok false), [], st. unfold ret. rewrite app_nil_r.
    repeat split; auto; try (cbn; lia); [intros [? [=]] | intros e [=]].
Qed.

(** X12: creating the cached images of a project only runs commands, at
    most twelve: none at all (returning [False]) when the project has no
    cached build script, and the existence check for [address] first when
    it has one.  A command that exits with a failure status never makes it
    raise: it raises only what [sp.run] itself raised, other than
    [CalledProcessError], and that for the last command it ran. *)
Theorem prepare_image_cache_runs_commands_only (project : string)
    (st : State World) :
  exists (r : Res bool) (cmds : list Cmd) (st' : State World),
    _prepare_image_cache World sp_run OSS_FUZZ_DIR project st = (r, st')
    /\ fs st' = fs st
    /\ log st' = log st ++ cmds
    /\ (length cmds <= 12)%nat
    /\ (fs st !! os_path_join "fuzzer_build_script" project = None ->
        r = Ok false /\ cmds = [])
    /\ (is_Some (fs st !! os_path_join "fuzzer_build_script" project) ->
        exists cmds',
          cmds = manifest_inspect_cmd
                   (_get_project_cache_image_name project "address") :: cmds')
    /\ (forall e, r = Raise e ->
        exists (before : list Cmd) (cmd : Cmd) (w : World),
          cmds = before ++ [cmd] /\ sp_run cmd w = (Uncaught e, world st')).
Proof.
  destruct (prepare_image_cache_frame project st)
    as (r & cmds & st' & Hrun & Hfs & Hlog & Hlen & Hnone & Hfirst & Hraise).
  exists r, cmds, st'. auto 10.
Qed.

Ltac run_commands :=
  unfold _prepare_image_cache, _has_cache_build_script, isfile, SANITIZERS;
  unfold bind at 1;
  match goal with
  | H : fs _ !! _ = Some ?script |- _ =>
      rewrite H; change (bool_decide (is_Some (Some script))) with true
  end;
  cbn [negb for_each];
  unfold _prepare_image_cache_body, bind, is_image_cached, run, ret;
  cbn [fs world log negb];
  repeat match goal with
         | H : sp_run ?c ?w = _ |- context [sp_run ?c ?w] =>
             rewrite H; cbn [fs world log negb]
         end.

(** X13: an image that the pull brings is not built.  With [address]
    cached from the start and [coverage] found by the check after the pull,
    whatever the pull command itself reported, the function returns [True]
    having run neither a build nor a commit. *)
Theorem pulled_image_is_not_built (project : string) (st : State World)
    (pulled : bool) (w1 w2 w3 w4 : World) :
  let address := _get_project_cache_image_name project "address" in
  let coverage := _get_project_cache_image_name project "coverage" in
  is_Some (fs st !! os_path_join "fuzzer_build_script" project) ->
  sp_run (manifest_inspect_cmd address) (world st) = (Exited true, w1) ->
  sp_run (manifest_inspect_cmd coverage) w1 = (Exited false, w2) ->
  sp_run (pull_cmd coverage) w2 = (Exited pulled, w3) ->
  sp_run (manifest_inspect_cmd coverage) w3 = (Exited true, w4) ->
  _prepare_image_cache World sp_run OSS_FUZZ_DIR project st
  = (Ok true,
     MkState (fs st) w4
       (log st ++ [manifest_inspect_cmd address; manifest_inspect_cmd coverage;
                   pull_cmd coverage; manifest_inspect_cmd coverage])).
Proof.
  intros address coverage [script Hscript] H1 H2 H3 H4.
  subst address coverage. run_commands.
  now rewrite <- !app_assoc.
Qed.

(** X14: failing to remove the build container is not fatal.  After a
    successful build and commit for [address] the function goes on with
    [coverage] whether the removal worked or not, and returns [True] when
    [coverage] is cached. *)
Theorem container_removal_failure_tolerated (project : string)
    (st : State World) (pulled removed : bool) (w1 w2 w3 w4 w5 w6 w7 : World) :
  let address := _get_project_cache_image_name project "address" in
  let coverage := _get_project_cache_image_name project "coverage" in
  let container := _get_project_cache_name project in
  let build := build_fuzzers_cmd OSS_FUZZ_DIR project "address" container in
  is_Some (fs st !! os_path_join "fuzzer_build_script" project) ->
  sp_run (manifest_inspect_cmd address) (world st) = (Exited false, w1) ->
  sp_run (pull_cmd address) w1 = (Exited pulled, w2) ->
  sp_run (manifest_inspect_cmd address) w2 = (Exited false, w3) ->
  sp_run build w3 = (Exited true, w4) ->
  sp_run (commit_cmd container address) w4 = (Exited true, w5) ->
  sp_run (container_rm_cmd container) w5 = (Exited removed, w6) ->
  sp_run (manifest_inspect_cmd coverage) w6 = (Exited true, w7) ->
  _prepare_image_cache World sp_run OSS_FUZZ_DIR project st
  = (Ok true,
     MkState (fs st) w7
       (log st ++ [manifest_inspect_cmd address; pull_cmd address;
                   manifest_inspect_cmd address; build;
                   commit_cmd container address; container_rm_cmd container;
                   manifest_inspect_cmd coverage])).
Proof.
  intros address coverage container build [script Hscript] H1 H2 H3 H4 H5 H6 H7.
  subst address coverage container build. run_commands.
  now rewrite <- !app_assoc.
Qed.

Lemma cache_loop_frame (projects : list string) (st : State World) :
  exists (r : Res unit) (cmds : list Cmd) (st' : State World),
    cache_loop projects st = (r, st')
    /\ fs st' = fs st
    /\ log st' = log st ++ cmds
    /\ (r = Ok tt ->
        forall p,
          p ∈ projects ->
          is_Some (fs st !! os_path_join "fuzzer_build_script" p) ->
          inspect_cmd p "address" ∈ cmds)
    /\ (forall e, r = Raise e -> raised_by_last sp_run cmds (world st') e).
Proof.
  revert st. induction projects as [|project rest IH]; intros st.
  - exists (Ok tt), [], st. cbn. rewrite app_nil_r. repeat split; auto.
    + intros _ p Hp. now apply elem_of_nil in Hp.
    + intros e [=].
  - destruct (prepare_image_cache_frame project st)
      as (r1 & cmds1 & st1 & Hrun & Hfs1 & Hlog1 & _ & _ & Hfirst & Hraise1).
    cbn [prepare_cached_images_loop]. unfold bind at 1. rewrite Hrun.
    destruct r1 as [b|e].
    + destruct (IH st1) as (r2 & cmds2 & st2 & Hrest & Hfs2 & Hlog2 & Hall & Hraise2).
      exists r2, (cmds1 ++ cmds2), st2. rewrite Hrest.
      split; [reflexivity|]. split; [congruence|].
      split; [now rewrite Hlog2, Hlog1, app_assoc|]. split.
      * intros Hok p Hp Hscript. apply elem_of_app.
        apply elem_of_cons in Hp as [-> | Hp].
        -- left. destruct (Hfirst Hscript) as [cmds' ->]. apply elem_of_cons. auto.
        -- right. apply Hall; [exact Hok|exact Hp|]. now rewrite Hfs1.
      * intros e He. apply raised_by_last_app. now apply Hraise2.
    + exists (Raise e), cmds1, st1.
      split; [reflexivity|]. split; [exact Hfs1|]. split; [exact Hlog1|].
      split; [intros [=]|].
      intros e' [= <-]. now apply Hraise1.
Qed.


(** X24: an exception of [sp.run] other than [CalledProcessError] is caught
    nowhere.  When the existence check of the first project that has a
    cached build script raises, [prepare_cached_images] raises the same
    after that one command, and nothing is run for the projects after it. *)
Theorem uncaught_error_aborts_all (skipped : list string) (project : string)
    (rest : list string) (st : State World) (e : Exn) (w : World) :
  Forall (fun p => fs st !! os_path_join "fuzzer_build_script" p = None)
         skipped ->
  is_Some (fs st !! os_path_join "fuzzer_build_script" project) ->
  sp_run (manifest_inspect_cmd (_get_project_cache_image_name project "address"))
         (world st) = (Uncaught e, w) ->
  prepare_cached_images_loop World sp_run OSS_FUZZ_DIR
    (skipped ++ project :: rest) st
  = (Raise e,
     MkState (fs st) w
       (log st ++ [manifest_inspect_cmd
                     (_get_project_cache_image_name project "address")])).
Proof.
  intros Hskipped [script Hscript] Hrun.
  induction Hskipped as [|p skipped Hp _ IH].
  - cbn [app prepare_cached_images_loop]. unfold bind at 1.
    run_commands. reflexivity.
  - cbn [app prepare_cached_images_loop]. unfold bind at 1.
    unfold _prepare_image_cache at 1, bind at 1, _has_cache_build_script, isfile.
    rewrite Hp. change (bool_decide (is_Some None)) with false.
    cbn [negb]. unfold ret at 1. exact IH.
Qed.

End CacheMore.

(* ===================================================================== *)
(** ** Staging a project *)
(* ===================================================================== *)

Lemma strip_prefix_app (p rel : string) : strip_prefix p (p +:+ rel) = Some rel.
Proof.
  induction p as [|a p IH]; [reflexivity|].
  change (String a p +:+ rel) with (String a (p +:+ rel)).
  cbn [strip_prefix]. now rewrite ch_eqb_refl.
Qed.

Lemma strip_prefix_Some (p s rel : string) :
  strip_prefix p s = Some rel -> s = p +:+ rel.
Proof.
  revert s. induction p as [|a p IH]; intros s; cbn [strip_prefix].
  - now intros [= ->].
  - destruct s as [|b s]; [discriminate|].
    destruct (ch_eqb a b) eqn:Hab; [|discriminate].
    apply ch_eqb_eq in Hab as ->. intros ->%IH. reflexivity.
Qed.

Lemma startswith_app (p rel : string) : startswith (p +:+ rel) p = true.
Proof.
  induction p as [|a p IH]; [reflexivity|].
  change (String a p +:+ rel) with (String a (p +:+ rel)).
  cbn [startswith]. now rewrite ch_eqb_refl, IH.
Qed.

Lemma string_app_nonempty (s t : string) : t <> "" -> s +:+ t <> "".
Proof. intros Ht. destruct s; [exact Ht|discriminate]. Qed.

Lemma join_prefix_app_nonempty (a b : string) : b <> "" -> join_prefix a +:+ b <> "".
Proof. apply string_app_nonempty. Qed.

Lemma os_path_join_nonempty (a b : string) : b <> "" -> os_path_join a b <> "".
Proof.
  intros Hb. unfold os_path_join.
  destruct (startswith b "/"); [exact Hb|].
  destruct (bool_decide (a = "") || endswith_char a "/");
    [|rewrite <- string_app_assoc]; now apply string_app_nonempty.
Qed.

Lemma project_folder_nonempty (dir g : string) : project_folder dir g <> "".
Proof.
  unfold project_folder, os_path_join3.
  destruct (decide (g = "")) as [->|Hg]; [|now apply os_path_join_nonempty].
  unfold os_path_join at 1. cbn [startswith].
  assert (Hinner : os_path_join dir "projects" <> "")
    by now apply os_path_join_nonempty.
  destruct (bool_decide (os_path_join dir "projects" = "")
            || endswith_char (os_path_join dir "projects") "/").
  - destruct (os_path_join dir "projects"); [contradiction|discriminate].
  - destruct (os_path_join dir "projects"); [contradiction|discriminate].
Qed.

(** *** Files beneath a directory *)

Lemma isdir_false_beneath (files : gmap string string) (dir rel : string) :
  dir <> "" -> isdir files dir = false ->
  files !! (join_prefix dir +:+ rel) = None.
Proof.
  intros Hdir Hisdir. unfold isdir in Hisdir.
  rewrite bool_decide_eq_false_2 in Hisdir by exact Hdir. cbn [negb andb] in Hisdir.
  destruct (files !! (join_prefix dir +:+ rel)) as [c|] eqn:Hfile; [|reflexivity].
  apply elem_of_map_to_list in Hfile.
  assert (Hex : existsb (fun kv : string * string =>
                           startswith kv.1 (join_prefix dir))
                        (map_to_list files) = true).
  { apply existsb_exists. exists (join_prefix dir +:+ rel, c). split.
    - now apply list_elem_of_In.
    - apply startswith_app. }
  congruence.
Qed.

Lemma isdir_true_beneath (files : gmap string string) (dir rel c : string) :
  dir <> "" -> files !! (join_prefix dir +:+ rel) = Some c ->
  isdir files dir = true.
Proof.
  intros Hdir Hfile. unfold isdir.
  rewrite bool_decide_eq_false_2 by exact Hdir. cbn [negb andb].
  apply existsb_exists. exists (join_prefix dir +:+ rel, c). split.
  - apply list_elem_of_In. now apply elem_of_map_to_list.
  - apply startswith_app.
Qed.

Lemma startswith_split (s p : string) :
  startswith s p = true -> exists rel, s = p +:+ rel.
Proof.
  revert s. induction p as [|a p IH]; intros s Hs; [now exists s|].
  destruct s as [|b s]; [discriminate Hs|].
  cbn [startswith] in Hs. apply andb_true_iff in Hs as [Hab Hs].
  apply ch_eqb_eq in Hab as ->. destruct (IH s Hs) as [rel ->]. now exists rel.
Qed.

Lemma isdir_true_file (files : gmap string string) (dir : string) :
  isdir files dir = true ->
  exists rel c, files !! (join_prefix dir +:+ rel) = Some c.
Proof.
  unfold isdir. intros [_ Hex]%andb_true_iff.
  apply existsb_exists in Hex as ([k c] & Hin & Hk).
  apply list_elem_of_In, elem_of_map_to_list in Hin.
  cbn [fst] in Hk. apply startswith_split in Hk as [rel ->]. eauto.
Qed.

(** *** What [copytree] leaves behind *)

Lemma copy_fold_lookup (src' dst' : string) (l : list (string * string))
    (base : gmap string string) (q : string) :
  foldr (fun kv acc =>
           match strip_prefix src' kv.1 with
           | Some rel => <[dst' +:+ rel := kv.2]> acc
           | None => acc
           end) base l !! q
  = match strip_prefix dst' q with
    | Some rel =>
        match (list_to_map l : gmap string string) !! (src' +:+ rel) with
        | Some c => Some c
        | None => base !! q
        end
    | None => base !! q
    end.
Proof.
  induction l as [|[k c] l IH]; cbn [foldr list_to_map fst snd].
  - destruct (strip_prefix dst' q); rewrite ?lookup_empty; reflexivity.
  - destruct (strip_prefix src' k) as [rel0|] eqn:Hk.
    + apply strip_prefix_Some in Hk as ->.
      destruct (decide (q = dst' +:+ rel0)) as [->|Hq].
      * now rewrite lookup_insert_eq, strip_prefix_app, lookup_insert_eq.
      * rewrite lookup_insert_ne by auto. rewrite IH.
        destruct (strip_prefix dst' q) as [rel|] eqn:Hrel; [|reflexivity].
        apply strip_prefix_Some in Hrel as ->.
        rewrite lookup_insert_ne; [reflexivity|].
        intros Heq%String.app_inj. congruence.
    + rewrite IH.
      destruct (strip_prefix dst' q) as [rel|] eqn:Hrel; [|reflexivity].
      rewrite lookup_insert_ne; [reflexivity|].
      intros ->. now rewrite strip_prefix_app in Hk.
Qed.

Lemma copy_files_lookup (src dst : string) (files : gmap string string)
    (q : string) :
  copy_files src dst files !! q
  = match strip_prefix (join_prefix dst) q with
    | Some rel =>
        match files !! (join_prefix src +:+ rel) with
        | Some c => Some c
        | None => files !! q
        end
    | None => files !! q
    end.
Proof.
  unfold copy_files. rewrite copy_fold_lookup. now rewrite list_to_map_to_list.
Qed.

(** Into a destination that does not exist: the copies appear, and every
    file that was there stays. *)
Lemma copy_files_fresh (src dst : string) (files : gmap string string) :
  dst <> "" -> isdir files dst = false ->
  (forall rel,
      copy_files src dst files !! (join_prefix dst +:+ rel)
      = files !! (join_prefix src +:+ rel))
  /\ (forall path c,
         files !! path = Some c -> copy_files src dst files !! path = Some c).
Proof.
  intros Hdst Hfresh. split.
  - intros rel. rewrite copy_files_lookup, strip_prefix_app.
    rewrite (isdir_false_beneath files dst rel Hdst Hfresh).
    now destruct (files !! (join_prefix src +:+ rel)).
  - intros path c Hpath. rewrite copy_files_lookup.
    destruct (strip_prefix (join_prefix dst) path) as [rel|] eqn:Hrel;
      [|exact Hpath].
    apply strip_prefix_Some in Hrel as ->.
    rewrite (isdir_false_beneath files dst rel Hdst Hfresh) in Hpath.
    discriminate Hpath.
Qed.

Arguments os_path_join : simpl never.
Arguments os_path_join3 : simpl never.

Section StagingFacts.

Context {World : Type}.
Variable sp_run : Cmd -> World -> Completion * World.
Variable OSS_FUZZ_DIR : string.
Variable isalnum : ascii -> bool.
Variable yaml_safe_load : string -> YamlDoc.
Variable stderr_is_utf8 : Cmd -> World -> bool.

#[local] Abbreviation dir_of g := (os_path_join3 OSS_FUZZ_DIR "projects" g).

Lemma path_exists_false (files : gmap string string) (path : string) :
  path_exists files path = false ->
  files !! path = None /\ isdir files path = false.
Proof.
  unfold path_exists. intros [Hfile Hdir]%orb_false_elim. split; [|exact Hdir].
  destruct (files !! path); [discriminate Hfile|reflexivity].
Qed.

(** The outcome of staging into a destination that does not exist yet. *)
Lemma create_fresh (original g : string) (st : State World) :
  path_exists (fs st) (dir_of g) = false ->
  create_ossfuzz_project_by_name World OSS_FUZZ_DIR original g st
  = if isdir (fs st) (dir_of original)
    then (inr (dir_of g),
          MkState (copy_files (dir_of original) (dir_of g) (fs st))
                  (world st) (log st))
    else if bool_decide (is_Some (fs st !! dir_of original))
    then (inl (ENOTDIR (dir_of original)), st)
    else (inl (ENOENT (dir_of original)), st).
Proof.
  intros Hfresh.
  unfold create_ossfuzz_project_by_name, bindS, copytree, retS.
  rewrite Hfresh.
  destruct (isdir (fs st) (dir_of original)); cbn [negb]; [reflexivity|].
  now destruct (bool_decide (is_Some (fs st !! dir_of original))).
Qed.

(** X16: staging copies the project.  Into a destination that does not
    exist, from a source directory, it returns the destination path; every
    file of the source is found under the same relative path in the
    destination, every file that existed is unchanged, and no command is
    run. *)
Theorem create_ossfuzz_project_copies (original g : string) (st : State World) :
  path_exists (fs st) (os_path_join3 OSS_FUZZ_DIR "projects" g) = false ->
  isdir (fs st) (os_path_join3 OSS_FUZZ_DIR "projects" original) = true ->
  exists st',
    create_ossfuzz_project_by_name World OSS_FUZZ_DIR original g st
    = (inr (os_path_join3 OSS_FUZZ_DIR "projects" g), st')
    /\ world st' = world st /\ log st' = log st
    /\ (forall rel,
           fs st' !! (join_prefix (os_path_join3 OSS_FUZZ_DIR "projects" g)
                      +:+ rel)
           = fs st !! (join_prefix (os_path_join3 OSS_FUZZ_DIR "projects" original)
                       +:+ rel))
    /\ (forall path c, fs st !! path = Some c -> fs st' !! path = Some c).
Proof.
  intros Hfresh Hsrc.
  rewrite (create_fresh original g st Hfresh), Hsrc.
  destruct (path_exists_false _ _ Hfresh) as [_ Hdir].
  destruct (copy_files_fresh (dir_of original) (dir_of g) (fs st)
              (project_folder_nonempty OSS_FUZZ_DIR g) Hdir) as [Hcopy Hkeep].
  eexists. split; [reflexivity|]. cbn [fs world log]. auto.
Qed.

(** X17: staging is done once.  After a successful staging, staging into
    the same destination again, from whatever project, returns the path and
    changes nothing. *)
Theorem create_ossfuzz_project_once (original original' g path : string)
    (st st' : State World) :
  create_ossfuzz_project_by_name World OSS_FUZZ_DIR original g st
  = (inr path, st') ->
  create_ossfuzz_project_by_name World OSS_FUZZ_DIR original' g st'
  = (inr path, st').
Proof.
  intros Hfirst.
  assert (Hexists : path_exists (fs st') (dir_of g) = true
                    /\ path = dir_of g).
  { destruct (path_exists (fs st) (dir_of g)) eqn:Hdst.
    - unfold create_ossfuzz_project_by_name, retS in Hfirst.
      rewrite Hdst in Hfirst. injection Hfirst as <- <-. auto.
    - rewrite (create_fresh original g st Hdst) in Hfirst.
      destruct (isdir (fs st) (dir_of original)) eqn:Hsrc.
      + injection Hfirst as <- <-. split; [|reflexivity].
        destruct (isdir_true_file _ _ Hsrc) as (rel & c & Hfile).
        destruct (path_exists_false _ _ Hdst) as [_ Hdir].
        destruct (copy_files_fresh (dir_of original) (dir_of g) (fs st)
                    (project_folder_nonempty OSS_FUZZ_DIR g) Hdir) as [Hcopy _].
        unfold path_exists. cbn [fs].
        rewrite (isdir_true_beneath _ (dir_of g) rel c
                   (project_folder_nonempty OSS_FUZZ_DIR g));
          [apply orb_true_r|].
        now rewrite Hcopy.
      + destruct (bool_decide (is_Some (fs st !! dir_of original)));
          discriminate Hfirst. }
  destruct Hexists as [Hexists ->].
  unfold create_ossfuzz_project_by_name, retS. now rewrite Hexists.
Qed.

(** X18: staging fails only for want of a source directory.  When it
    raises, nothing has changed, the destination did not exist and the
    source is not a directory: the error is [FileNotFoundError], or
    [NotADirectoryError] when the source is a regular file, and never
    [FileExistsError]. *)
Theorem create_ossfuzz_project_failure (original g : string) (e : OSError)
    (st st' : State World) :
  create_ossfuzz_project_by_name World OSS_FUZZ_DIR original g st
  = (inl e, st') ->
  st' = st
  /\ path_exists (fs st) (os_path_join3 OSS_FUZZ_DIR "projects" g) = false
  /\ isdir (fs st) (os_path_join3 OSS_FUZZ_DIR "projects" original) = false
  /\ e = (if bool_decide
               (is_Some (fs st !! os_path_join3 OSS_FUZZ_DIR "projects" original))
          then ENOTDIR (os_path_join3 OSS_FUZZ_DIR "projects" original)
          else ENOENT (os_path_join3 OSS_FUZZ_DIR "projects" original)).
Proof.
  intros Hrun.
  destruct (path_exists (fs st) (dir_of g)) eqn:Hdst.
  - unfold create_ossfuzz_project_by_name, retS in Hrun.
    rewrite Hdst in Hrun. discriminate Hrun.
  - rewrite (create_fresh original g st Hdst) in Hrun.
    destruct (isdir (fs st) (dir_of original)); [discriminate Hrun|].
    destruct (bool_decide (is_Some (fs st !! dir_of original)));
      injection Hrun as <- <-; auto.
Qed.

(** *** Staging, selecting and building *)

#[local] Abbreviation yaml_of g := (os_path_join (dir_of g) "project.yaml").
#[local] Abbreviation build_image :=
  (_build_image World sp_run OSS_FUZZ_DIR yaml_safe_load stderr_is_utf8).
#[local] Abbreviation build_outcome g command w built :=
  (if built then Ok ("gcr.io/oss-fuzz/" +:+ g)
   else if stderr_is_utf8 command w then Ok "" else Raise UnicodeDecodeError).

Lemma yaml_path_eq (g : string) :
  yaml_of g = join_prefix (dir_of g) +:+ "project.yaml".
Proof. apply os_path_join_relative. reflexivity. Qed.

Lemma yaml_not_dockerfile (g x : string) :
  yaml_of g <> join_prefix (dir_of g) +:+ "Dockerfile" +:+ x.
Proof. rewrite yaml_path_eq. intros Heq%String.app_inj. discriminate Heq. Qed.

Lemma get_project_language_eq (g : string) (st : State World) :
  get_project_language World OSS_FUZZ_DIR yaml_safe_load g st
  = (language_of yaml_safe_load (fs st !! yaml_of g), st).
Proof.
  unfold get_project_language, bind, isfile, read_file, ret, language_of.
  destruct (fs st !! yaml_of g) as [text|] eqn:Hy; cbn; rewrite ?Hy;
    [|reflexivity].
  unfold yaml_get, ret, raise. now destruct (yaml_safe_load text).
Qed.

Lemma build_image_eq (g language : string) (st : State World) (built : bool)
    (w : World) :
  language_of yaml_safe_load (fs st !! yaml_of g) = Ok (YamlStr language) ->
  sp_run (build_image_cmd OSS_FUZZ_DIR g language) (world st) = (Exited built, w) ->
  build_image g st
  = (build_outcome g (build_image_cmd OSS_FUZZ_DIR g language) (world st) built,
     MkState (fs st) w (log st ++ [build_image_cmd OSS_FUZZ_DIR g language])).
Proof.
  intros Hlang Hrun. unfold _build_image, bind at 1.
  rewrite get_project_language_eq, Hlang.
  rewrite (run_eq sp_run _ _ built w Hrun).
  destruct built; [reflexivity|].
  now destruct (stderr_is_utf8 _ _).
Qed.

Lemma build_image_no_language (g : string) (st : State World) (e : Exn) :
  language_of yaml_safe_load (fs st !! yaml_of g) = Raise e
  \/ (language_of yaml_safe_load (fs st !! yaml_of g) = Ok YamlOther
      /\ e = TypeError) ->
  build_image g st = (Raise e, st).
Proof.
  intros Hlang. unfold _build_image, bind at 1.
  rewrite get_project_language_eq.
  now destruct Hlang as [-> | [-> ->]].
Qed.

(** X19: a project without a descriptor, or whose descriptor is a mapping
    that names no language, is built as a C++ project.  The function
    returns the image name when the build command exits with status zero;
    when it exits with another status it returns the empty string, unless
    the standard error of the command is not valid UTF-8, in which case
    decoding it for the log message raises.  No file is changed. *)
Theorem build_image_language_default (g : string) (st : State World)
    (built : bool) (w : World) :
  (forall text,
      fs st !! os_path_join (os_path_join3 OSS_FUZZ_DIR "projects" g)
                 "project.yaml" = Some text ->
      exists data,
        yaml_safe_load text = YamlMapping data /\ data !! "language" = None) ->
  sp_run (build_image_cmd OSS_FUZZ_DIR g "C++") (world st) = (Exited built, w) ->
  _build_image World sp_run OSS_FUZZ_DIR yaml_safe_load stderr_is_utf8 g st
  = (if built then Ok ("gcr.io/oss-fuzz/" +:+ g)
     else if stderr_is_utf8 (build_image_cmd OSS_FUZZ_DIR g "C++") (world st)
          then Ok ""
          else Raise UnicodeDecodeError,
     MkState (fs st) w (log st ++ [build_image_cmd OSS_FUZZ_DIR g "C++"])).
Proof.
  intros Hnone Hrun.
  apply (build_image_eq g "C++" st built w); [|exact Hrun].
  unfold language_of. destruct (fs st !! yaml_of g) as [text|] eqn:Hy;
    [|reflexivity].
  destruct (Hnone text eq_refl) as (data & -> & ->). reflexivity.
Qed.

(** X25: a descriptor that gives no language string stops the build before
    any command is run.  When [yaml.safe_load] raises, the same exception
    leaves [_build_image]; a descriptor that is no mapping (an empty
    document, a list, a scalar) raises [AttributeError]; a mapping whose
    language is no string raises [TypeError].  The state is unchanged. *)
Theorem build_image_malformed_descriptor (g text : string) (st : State World) :
  fs st !! os_path_join (os_path_join3 OSS_FUZZ_DIR "projects" g)
             "project.yaml" = Some text ->
  match yaml_safe_load text with
  | YamlMapping data => data !! "language" = Some YamlOther
  | _ => True
  end ->
  _build_image World sp_run OSS_FUZZ_DIR yaml_safe_load stderr_is_utf8 g st
  = (Raise match yaml_safe_load text with
           | YamlMapping _ => TypeError
           | YamlNotMapping => AttributeError
           | YamlRaises e => e
           end,
     st).
Proof.
  intros Hy Hdoc. apply build_image_no_language.
  unfold language_of. rewrite Hy.
  destruct (yaml_safe_load text) as [data| |e]; auto.
  rewrite Hdoc. auto.
Qed.

(** The staged copy of a fresh destination, seen at the files of interest. *)
Lemma staged_files (original g : string) (files : gmap string string) :
  path_exists files (dir_of g) = false ->
  let staged := copy_files (dir_of original) (dir_of g) files in
  staged !! active_path OSS_FUZZ_DIR g = files !! active_path OSS_FUZZ_DIR original
  /\ staged !! original_path OSS_FUZZ_DIR g
     = files !! original_path OSS_FUZZ_DIR original
  /\ (forall s, staged !! cached_path OSS_FUZZ_DIR g s
                = files !! cached_path OSS_FUZZ_DIR original s)
  /\ staged !! yaml_of g = files !! yaml_of original
  /\ (forall path c, files !! path = Some c -> staged !! path = Some c)
  /\ (forall rel, files !! (join_prefix (dir_of g) +:+ rel) = None).
Proof.
  intros Hfresh staged.
  destruct (path_exists_false _ _ Hfresh) as [_ Hdir].
  destruct (copy_files_fresh (dir_of original) (dir_of g) files
              (project_folder_nonempty OSS_FUZZ_DIR g) Hdir) as [Hcopy Hkeep].
  rewrite !active_path_eq, !original_path_eq, !yaml_path_eq.
  repeat split; auto.
  - intros s. rewrite !cached_path_eq. apply Hcopy.
  - intros rel. now apply isdir_false_beneath;
      [apply project_folder_nonempty|].
Qed.

Lemma prepare_build_eq (p s g : string) (st : State World) (is_cached : bool)
    (w : World) :
  sp_run (manifest_inspect_cmd (_get_project_cache_image_name p s)) (world st)
  = (Exited is_cached, w) ->
  let source :=
    if is_cached then cached_path OSS_FUZZ_DIR g s
    else original_path OSS_FUZZ_DIR g in
  let st1 := MkState (fs st) w
               (log st ++ [manifest_inspect_cmd
                             (_get_project_cache_image_name p s)]) in
  prepare_build World sp_run OSS_FUZZ_DIR true p s g st
  = match fs st !! source with
    | Some content =>
        (Ok tt, MkState (<[active_path OSS_FUZZ_DIR g := content]> (fs st))
                        (world st1) (log st1))
    | None => (Raise (FileNotFoundError source), st1)
    end.
Proof.
  intros Hrun source st1.
  unfold prepare_build, bind, is_image_cached, run. cbn [negb].
  rewrite Hrun. unfold shutil_copy. subst source st1.
  now destruct is_cached.
Qed.

Lemma propagate_create_fresh (original g : string) (st : State World) :
  path_exists (fs st) (dir_of g) = false ->
  isdir (fs st) (dir_of original) = true ->
  propagate World
    (create_ossfuzz_project_by_name World OSS_FUZZ_DIR original g) st
  = (Ok (dir_of g),
     MkState (copy_files (dir_of original) (dir_of g) (fs st))
             (world st) (log st)).
Proof.
  intros Hfresh Hsrc. unfold propagate.
  now rewrite (create_fresh original g st Hfresh), Hsrc.
Qed.

(** X20: staging with a cached image.  For a fresh staged name, a source
    project with a build definition and neither backup nor artifact, for
    which [get_project_language] finds a language string, with caching
    enabled and the cache image found, [prepare_project_image] stages the
    project, keeps the original text as backup, writes the rewritten text as
    artifact, makes it the active build definition (the original text if
    the second existence check fails), and builds the image of the staged
    project for the language of the source project.  Three commands are run
    and no file that existed is changed; the result is that of
    [_build_image]. *)
Theorem prepare_project_image_cached (benchmark : Benchmark)
    (hex content language : string) (st : State World) (again built : bool)
    (w1 w2 w3 : World) :
  let p := benchmark_project benchmark in
  let g := rectify_docker_tag isalnum (benchmark_id benchmark +:+ "-" +:+ hex) in
  let image := _get_project_cache_image_name p "address" in
  let rewritten := cached_dockerfile_content image content in
  let build := build_image_cmd OSS_FUZZ_DIR g language in
  path_exists (fs st) (os_path_join3 OSS_FUZZ_DIR "projects" g) = false ->
  fs st !! active_path OSS_FUZZ_DIR p = Some content ->
  fs st !! original_path OSS_FUZZ_DIR p = None ->
  fs st !! cached_path OSS_FUZZ_DIR p "address" = None ->
  get_project_language World OSS_FUZZ_DIR yaml_safe_load p st
  = (Ok (YamlStr language), st) ->
  sp_run (manifest_inspect_cmd image) (world st) = (Exited true, w1) ->
  sp_run (manifest_inspect_cmd image) w1 = (Exited again, w2) ->
  sp_run build w2 = (Exited built, w3) ->
  exists st',
    prepare_project_image World sp_run OSS_FUZZ_DIR true isalnum yaml_safe_load
      stderr_is_utf8 benchmark hex st
    = (if built then Ok ("gcr.io/oss-fuzz/" +:+ g)
       else if stderr_is_utf8 build w2 then Ok ""
            else Raise UnicodeDecodeError,
       st')
    /\ world st' = w3
    /\ log st' = log st ++ [manifest_inspect_cmd image;
                            manifest_inspect_cmd image; build]
    /\ fs st' !! original_path OSS_FUZZ_DIR g = Some content
    /\ fs st' !! cached_path OSS_FUZZ_DIR g "address" = Some rewritten
    /\ fs st' !! active_path OSS_FUZZ_DIR g
       = Some (if again then rewritten else content)
    /\ (forall path c, fs st !! path = Some c -> fs st' !! path = Some c).
Proof.
  intros p g image rewritten build Hfresh Hactive Horiginal Hcached Hlanguage
    H1 H2 H3.
  rewrite get_project_language_eq in Hlanguage. injection Hlanguage as Hlanguage.
  destruct (staged_files p g (fs st) Hfresh)
    as (Sactive & Soriginal & Scached & Syaml & Skeep & Sfresh).
  rewrite Hactive in Sactive. rewrite Horiginal in Soriginal.
  specialize (Scached "address"). rewrite Hcached in Scached.
  pose proof (cached_path_not_active OSS_FUZZ_DIR g "address") as Hca.
  pose proof (original_path_not_active OSS_FUZZ_DIR g) as Hoa.
  pose proof (cached_path_not_original OSS_FUZZ_DIR g "address") as Hco.
  assert (Hsrc : isdir (fs st) (dir_of p) = true).
  { apply (isdir_true_beneath _ _ "Dockerfile" content);
      [apply project_folder_nonempty|].
    pose proof (active_path_eq OSS_FUZZ_DIR p) as Epath.
    unfold project_folder in Epath. now rewrite <- Epath. }
  unfold prepare_project_image. cbn zeta. fold p g.
  unfold bind at 1.
  change (create_ossfuzz_project World OSS_FUZZ_DIR benchmark g)
    with (create_ossfuzz_project_by_name World OSS_FUZZ_DIR p g).
  rewrite (propagate_create_fresh p g st Hfresh Hsrc).
  cbn [negb]. unfold bind at 1. unfold bind at 1.
  unfold is_image_cached at 1.
  rewrite (run_eq sp_run _ _ true w1) by exact H1.
  unfold bind at 1.
  rewrite rewrite_not_converted by exact Scached.
  cbn [fs world log]. cbn zeta. rewrite Soriginal, Sactive.
  rewrite (prepare_build_eq p "address" g _ again w2) by exact H2.
  cbn [fs world log].
  assert (Hsource :
            <[cached_path OSS_FUZZ_DIR g "address" := rewritten]>
              (<[original_path OSS_FUZZ_DIR g := content]>
                 (copy_files (dir_of p) (dir_of g) (fs st)))
            !! (if again then cached_path OSS_FUZZ_DIR g "address"
                else original_path OSS_FUZZ_DIR g)
            = Some (if again then rewritten else content)).
  { destruct again; rewrite ?lookup_insert_eq, ?lookup_insert_ne by auto;
      rewrite ?lookup_insert_eq; reflexivity. }
  fold image rewritten. rewrite Hsource.
  assert (Hlang :
            (<[active_path OSS_FUZZ_DIR g := if again then rewritten else content]>
               (<[cached_path OSS_FUZZ_DIR g "address" := rewritten]>
                  (<[original_path OSS_FUZZ_DIR g := content]>
                     (copy_files (dir_of p) (dir_of g) (fs st)))))
            !! yaml_of g
            = fs st !! yaml_of p).
  { rewrite active_path_eq, cached_path_eq, original_path_eq.
    rewrite !lookup_insert_ne; [exact Syaml| | |];
      apply not_eq_sym;
      [ apply (yaml_not_dockerfile g "_original")
      | apply (yaml_not_dockerfile g ("_" +:+ "address" +:+ "_cached"))
      | apply (yaml_not_dockerfile g "") ]. }
  rewrite (build_image_eq g language _ built w3)
    by (cbn [fs world log]; first [rewrite Hlang; exact Hlanguage | exact H3]).
  cbn [fs world log]. fold build.
  eexists. split; [reflexivity|]. cbn [fs world log].
  split; [reflexivity|]. split; [now rewrite <- !app_assoc|].
  rewrite (lookup_insert_ne _ (active_path OSS_FUZZ_DIR g)) by auto.
  rewrite (lookup_insert_ne _ (cached_path OSS_FUZZ_DIR g "address")) by auto.
  rewrite !lookup_insert_eq.
  rewrite (lookup_insert_ne _ (active_path OSS_FUZZ_DIR g)
             (cached_path OSS_FUZZ_DIR g "address")) by auto.
  rewrite lookup_insert_eq.
  repeat split; auto.
  intros path c Hpath.
  assert (Hnew : forall rel, path <> join_prefix (dir_of g) +:+ rel).
  { intros rel ->. rewrite Sfresh in Hpath. discriminate Hpath. }
  rewrite active_path_eq, cached_path_eq, original_path_eq.
  rewrite !lookup_insert_ne by (apply not_eq_sym, Hnew). auto.
Qed.

(** Without a cached image the staged copy goes to [_build_image] as it
    is. *)
Lemma prepare_by_name_plain (project_name hex : string) (st : State World)
    (enable_caching : bool) (w1 : World) :
  let g := rectify_docker_tag isalnum (project_name +:+ "-" +:+ hex) in
  let image := _get_project_cache_image_name project_name "address" in
  path_exists (fs st) (dir_of g) = false ->
  isdir (fs st) (dir_of project_name) = true ->
  (if enable_caching
   then sp_run (manifest_inspect_cmd image) (world st) = (Exited false, w1)
   else w1 = world st) ->
  prepare_project_image_by_name World sp_run OSS_FUZZ_DIR enable_caching
    isalnum yaml_safe_load stderr_is_utf8 project_name hex st
  = build_image g
      (MkState (copy_files (dir_of project_name) (dir_of g) (fs st)) w1
         (log st ++ (if enable_caching then [manifest_inspect_cmd image]
                     else []))).
Proof.
  intros g image Hfresh Hsrc Hcheck.
  unfold prepare_project_image_by_name. cbn zeta. fold g.
  unfold bind at 1.
  rewrite (propagate_create_fresh project_name g st Hfresh Hsrc).
  unfold bind at 1.
  destruct enable_caching; cbn [negb].
  - unfold bind at 1. unfold is_image_cached at 1.
    rewrite (run_eq sp_run _ _ false w1) by exact Hcheck.
    unfold ret. reflexivity.
  - subst w1. unfold ret. now rewrite app_nil_r.
Qed.

(** X21: staging without a cached image.  With caching disabled, or
    with the cache image not found, and a source project for which
    [get_project_language] finds a language string,
    [prepare_project_image_by_name] leaves the staged project a plain copy of the source project, file by
    file, so neither backup nor artifact is made, and builds its image; the
    existence check is the only other command, and it is not run when
    caching is disabled.  The result is that of [_build_image]. *)
Theorem prepare_project_image_by_name_plain (project_name hex language : string)
    (st : State World) (enable_caching built : bool) (w1 w3 : World) :
  let g := rectify_docker_tag isalnum (project_name +:+ "-" +:+ hex) in
  let image := _get_project_cache_image_name project_name "address" in
  let build := build_image_cmd OSS_FUZZ_DIR g language in
  path_exists (fs st) (os_path_join3 OSS_FUZZ_DIR "projects" g) = false ->
  isdir (fs st) (os_path_join3 OSS_FUZZ_DIR "projects" project_name) = true ->
  get_project_language World OSS_FUZZ_DIR yaml_safe_load project_name st
  = (Ok (YamlStr language), st) ->
  (if enable_caching
   then sp_run (manifest_inspect_cmd image) (world st) = (Exited false, w1)
   else w1 = world st) ->
  sp_run build w1 = (Exited built, w3) ->
  exists st',
    prepare_project_image_by_name World sp_run OSS_FUZZ_DIR enable_caching
      isalnum yaml_safe_load stderr_is_utf8 project_name hex st
    = (if built then Ok ("gcr.io/oss-fuzz/" +:+ g)
       else if stderr_is_utf8 build w1 then Ok ""
            else Raise UnicodeDecodeError,
       st')
    /\ world st' = w3
    /\ log st'
       = log st ++ (if enable_caching then [manifest_inspect_cmd image] else [])
                ++ [build]
    /\ (forall rel,
           fs st' !! (join_prefix (os_path_join3 OSS_FUZZ_DIR "projects" g)
                      +:+ rel)
           = fs st !! (join_prefix
                         (os_path_join3 OSS_FUZZ_DIR "projects" project_name)
                       +:+ rel))
    /\ (forall path c, fs st !! path = Some c -> fs st' !! path = Some c).
Proof.
  intros g image build Hfresh Hsrc Hlanguage Hcheck Hbuild.
  rewrite get_project_language_eq in Hlanguage. injection Hlanguage as Hlanguage.
  destruct (staged_files project_name g (fs st) Hfresh)
    as (_ & _ & _ & Syaml & Skeep & _).
  destruct (path_exists_false _ _ Hfresh) as [_ Hdir].
  destruct (copy_files_fresh (dir_of project_name) (dir_of g) (fs st)
              (project_folder_nonempty OSS_FUZZ_DIR g) Hdir) as [Hcopy _].
  rewrite (prepare_by_name_plain project_name hex st enable_caching w1
             Hfresh Hsrc Hcheck).
  fold g image.
  rewrite (build_image_eq g language _ built w3)
    by (cbn [fs world log]; first [rewrite Syaml; exact Hlanguage | exact Hbuild]).
  cbn [fs world log]. fold build.
  eexists. split; [reflexivity|]. cbn [fs world log].
  repeat split; auto. now rewrite <- app_assoc.
Qed.

(** X26: the descriptor is read only after the project has been staged.
    With caching disabled, or with the cache image not found, and a source
    project for which [get_project_language] raises (its descriptor is no
    mapping, or [yaml.safe_load] raises), [prepare_project_image_by_name]
    raises the same: the staged copy is left behind and no build is
    started. *)
Theorem prepare_project_image_by_name_malformed (project_name hex : string)
    (st : State World) (enable_caching : bool) (w1 : World) (e : Exn) :
  let g := rectify_docker_tag isalnum (project_name +:+ "-" +:+ hex) in
  let image := _get_project_cache_image_name project_name "address" in
  path_exists (fs st) (os_path_join3 OSS_FUZZ_DIR "projects" g) = false ->
  isdir (fs st) (os_path_join3 OSS_FUZZ_DIR "projects" project_name) = true ->
  get_project_language World OSS_FUZZ_DIR yaml_safe_load project_name st
  = (Raise e, st) ->
  (if enable_caching
   then sp_run (manifest_inspect_cmd image) (world st) = (Exited false, w1)
   else w1 = world st) ->
  exists st',
    prepare_project_image_by_name World sp_run OSS_FUZZ_DIR enable_caching
      isalnum yaml_safe_load stderr_is_utf8 project_name hex st
    = (Raise e, st')
    /\ world st' = w1
    /\ log st'
       = log st ++ (if enable_caching then [manifest_inspect_cmd image] else [])
    /\ (forall rel,
           fs st' !! (join_prefix (os_path_join3 OSS_FUZZ_DIR "projects" g)
                      +:+ rel)
           = fs st !! (join_prefix
                         (os_path_join3 OSS_FUZZ_DIR "projects" project_name)
                       +:+ rel))
    /\ (forall path c, fs st !! path = Some c -> fs st' !! path = Some c).
Proof.
  intros g image Hfresh Hsrc Hlanguage Hcheck.
  rewrite get_project_language_eq in Hlanguage. injection Hlanguage as Hlanguage.
  destruct (staged_files project_name g (fs st) Hfresh)
    as (_ & _ & _ & Syaml & Skeep & _).
  destruct (path_exists_false _ _ Hfresh) as [_ Hdir].
  destruct (copy_files_fresh (dir_of project_name) (dir_of g) (fs st)
              (project_folder_nonempty OSS_FUZZ_DIR g) Hdir) as [Hcopy _].
  rewrite (prepare_by_name_plain project_name hex st enable_caching w1
             Hfresh Hsrc Hcheck).
  fold g image.
  rewrite (build_image_no_language g _ e)
    by (left; cbn [fs world log]; rewrite Syaml; exact Hlanguage).
  eexists. split; [reflexivity|]. cbn [fs world log]. auto.
Qed.

End StagingFacts.

(* ===================================================================== *)
(** ** More on name sanitization *)
(* ===================================================================== *)

Section RectifyMore.

Variable isalnum : ascii -> bool.

(** X22: the names that sanitization leaves unchanged are exactly those
    made of legal characters (word characters, [.] and [-]) in which no two
    characters from [-_] and no two colons stand next to each other. *)
Theorem rectify_docker_tag_fixed_points (docker_tag : string) :
  rectify_docker_tag isalnum docker_tag = docker_tag
  <-> all_chars (legal_char isalnum) docker_tag = true
      /\ adjacent in_dash_us docker_tag = false
      /\ adjacent is_colon docker_tag = false.
Proof.
  split.
  - intros Hfix. rewrite <- Hfix.
    auto using rectify_legal, rectify_no_dash_pair, rectify_no_colon_pair.
  - intros (Hlegal & Hdash & Hcolon). unfold rectify_docker_tag.
    rewrite (sub_double_colon_id docker_tag Hcolon).
    rewrite (sub_non_word_id isalnum docker_tag Hlegal).
    now apply sub_dash_runs_id.
Qed.

Lemma sub_double_colon_length (s : string) :
  (String.length (sub_double_colon s) <= String.length s)%nat
  /\ (sub_double_colon s = "" -> s = "").
Proof.
  induction s as [|c|c d r [IHr _] [IHdr _]] using string_pair_ind;
    [auto|split; [auto|discriminate]|].
  change (sub_double_colon (String c (String d r)))
    with (if ch_eqb c ":" && ch_eqb d ":"
          then String "-" (sub_double_colon r)
          else String c (sub_double_colon (String d r))).
  destruct (ch_eqb c ":" && ch_eqb d ":"); split; try discriminate.
  - cbn [String.length]. lia.
  - cbn [String.length] in *. lia.
Qed.

Lemma sub_non_word_length (s : string) :
  String.length (sub_non_word isalnum s) = String.length s.
Proof. induction s as [|c r IH]; [reflexivity|]. simpl. now rewrite IH. Qed.

Lemma sub_dash_runs_length (b : bool) (s : string) :
  (String.length (sub_dash_runs b s) <= String.length s)%nat.
Proof.
  revert b. induction s as [|c r IH]; intros b; [destruct b; auto|].
  pose proof (IH true). pose proof (IH false).
  cbn [sub_dash_runs String.length].
  destruct (in_dash_us c); [destruct b|]; cbn [String.length]; try lia.
  destruct r as [|d r']; [cbn; lia|].
  destruct (in_dash_us d); cbn [String.length] in *; lia.
Qed.

Lemma sub_dash_runs_nonempty (c : ascii) (r : string) :
  sub_dash_runs false (String c r) <> "".
Proof.
  cbn [sub_dash_runs].
  destruct (in_dash_us c); [|discriminate].
  destruct r as [|d r']; [discriminate|].
  destruct (in_dash_us d); discriminate.
Qed.

(** X23: sanitization never makes a name longer, and it gives the empty
    name only for the empty name. *)
Theorem rectify_docker_tag_length (docker_tag : string) :
  (String.length (rectify_docker_tag isalnum docker_tag)
   <= String.length docker_tag)%nat
  /\ (rectify_docker_tag isalnum docker_tag = "" <-> docker_tag = "").
Proof.
  unfold rectify_docker_tag.
  destruct (sub_double_colon_length docker_tag) as [Hlen Hempty].
  split.
  - pose proof (sub_dash_runs_length false
                  (sub_non_word isalnum (sub_double_colon docker_tag))) as H1.
    rewrite sub_non_word_length in H1. lia.
  - split; [|now intros ->].
    intros Hout. apply Hempty.
    destruct (sub_double_colon docker_tag) as [|c r]; [reflexivity|].
    exfalso. cbn [sub_non_word] in Hout.
    now apply sub_dash_runs_nonempty in Hout.
Qed.

End RectifyMore.

(* ===================================================================== *)
(** ** Concrete runs of the further properties *)
(* ===================================================================== *)

Lemma output_starts_with_arg_witness :
  split_lines
    (cached_dockerfile_content
       (_get_project_cache_image_name "libxml2" "coverage") "") !! 0%nat
  = Some ("ARG CACHE_IMAGE="
          +:+ _get_project_cache_image_name "libxml2" "coverage").
Proof. apply (output_starts_with_arg "libxml2" "coverage" ""); reflexivity. Defined.

Lemma base_builder_line_rewritten_witness :
  split_lines (cached_dockerfile_content "IMG" FIXTURE_TAGGED) !! 1%nat
  = Some "FROM $CACHE_IMAGE".
Proof.
  apply (base_builder_line_rewritten "IMG" FIXTURE_TAGGED ":v1 AS build");
    reflexivity.
Defined.

Lemma second_rewrite_derives_from_original_witness :
  exists st3,
    bind unit (rewrite_project_to_cached_project unit DIR "libxml2" "libxml2-1f"
                 "address")
      (fun _ =>
         bind unit (prepare_build unit online DIR true "libxml2" "address"
                      "libxml2-1f")
           (fun _ => rewrite_project_to_cached_project unit DIR "libxml2"
                       "libxml2-1f" "coverage"))
      st_staged
    = (Ok tt, st3)
    /\ fs st3 !! cached_path DIR "libxml2-1f" "coverage"
       = Some (cached_dockerfile_content
                 (_get_project_cache_image_name "libxml2" "coverage") FIXTURE).
Proof.
  destruct (second_rewrite_derives_from_original online DIR "libxml2"
              "libxml2-1f" "address" "coverage" FIXTURE st_staged tt)
    as (st3 & Hrun & _ & _ & _ & Hcoverage);
    [discriminate | vm_compute; reflexivity | vm_compute; reflexivity
    | vm_compute; reflexivity | vm_compute; reflexivity | reflexivity |].
  exists st3. split; [exact Hrun | exact Hcoverage].
Defined.

Lemma pulled_image_is_not_built_witness :
  (_prepare_image_cache (list bool) scripted DIR "libxml2"
     (st_scripted [true; false; false; true])).1
  = Ok true.
Proof.
  rewrite (pulled_image_is_not_built scripted DIR "libxml2"
             (st_scripted [true; false; false; true]) false
             [false; false; true] [false; true] [true] []);
    try reflexivity.
  vm_compute. eauto.
Defined.

Lemma container_removal_failure_tolerated_witness :
  (_prepare_image_cache (list bool) scripted DIR "libxml2"
     (st_scripted [false; false; false; true; true; false; true])).1
  = Ok true.
Proof.
  rewrite (container_removal_failure_tolerated scripted DIR "libxml2"
             (st_scripted [false; false; false; true; true; false; true])
             false false
             [false; false; true; true; false; true]
             [false; true; true; false; true] [true; true; false; true]
             [true; false; true] [false; true] [true] []);
    try reflexivity.
  vm_compute. eauto.
Defined.

Lemma create_ossfuzz_project_copies_witness :
  exists st',
    create_ossfuzz_project_by_name unit DIR "zlib" "zlib-1f" st_projects
    = (inr "/oss-fuzz/projects/zlib-1f", st')
    /\ fs st' !! "/oss-fuzz/projects/zlib-1f/build.sh" = Some "make".
Proof.
  destruct (create_ossfuzz_project_copies DIR "zlib" "zlib-1f" st_projects)
    as (st' & Hrun & _ & _ & Hcopy & _);
    [vm_compute; reflexivity | vm_compute; reflexivity |].
  exists st'. split; [exact Hrun|].
  exact (Hcopy "build.sh").
Defined.

Lemma create_ossfuzz_project_once_witness :
  create_ossfuzz_project_by_name unit DIR "libxml2" "zlib-1f"
    (create_ossfuzz_project_by_name unit DIR "zlib" "zlib-1f" st_projects).2
  = (inr "/oss-fuzz/projects/zlib-1f",
     (create_ossfuzz_project_by_name unit DIR "zlib" "zlib-1f" st_projects).2).
Proof.
  apply (create_ossfuzz_project_once DIR "zlib" "libxml2" "zlib-1f"
           "/oss-fuzz/projects/zlib-1f" st_projects).
  vm_compute. reflexivity.
Defined.

Lemma create_ossfuzz_project_failure_witness :
  st_projects = st_projects
  /\ path_exists (fs st_projects) (os_path_join3 DIR "projects" "libxml2-1f")
     = false
  /\ isdir (fs st_projects) (os_path_join3 DIR "projects" "libxml2") = false
  /\ ENOENT "/oss-fuzz/projects/libxml2"
     = (if bool_decide
             (is_Some (fs st_projects !! os_path_join3 DIR "projects" "libxml2"))
        then ENOTDIR (os_path_join3 DIR "projects" "libxml2")
        else ENOENT (os_path_join3 DIR "projects" "libxml2")).
Proof.
  apply (create_ossfuzz_project_failure DIR "libxml2" "libxml2-1f"
           (ENOENT "/oss-fuzz/projects/libxml2") st_projects st_projects).
  vm_compute. reflexivity.
Defined.

Lemma build_image_language_default_witness :
  _build_image unit online DIR yaml_language_c stderr_text "libxml2-1f" st_staged
  = (Ok "gcr.io/oss-fuzz/libxml2-1f",
     MkState (fs st_staged) tt
       (log st_staged ++ [build_image_cmd DIR "libxml2-1f" "C++"])).
Proof.
  apply (build_image_language_default online DIR yaml_language_c stderr_text
           "libxml2-1f" st_staged true tt); [|reflexivity].
  intros text Hfile. vm_compute in Hfile. discriminate Hfile.
Defined.

Lemma prepare_project_image_cached_witness :
  exists st',
    prepare_project_image unit online DIR true ascii_isalnum yaml_language_c
      stderr_text (MkBenchmark "zlib::inflate" "zlib") "1f" st_projects
    = (Ok "gcr.io/oss-fuzz/zlib-inflate-1f", st')
    /\ fs st' !! active_path DIR "zlib-inflate-1f"
       = Some (cached_dockerfile_content
                 (_get_project_cache_image_name "zlib" "address")
                 FIXTURE_BASE_BUILDER).
Proof.
  destruct (prepare_project_image_cached online DIR ascii_isalnum
              yaml_language_c stderr_text (MkBenchmark "zlib::inflate" "zlib")
              "1f" FIXTURE_BASE_BUILDER "c" st_projects true true tt tt tt)
    as (st' & Hrun & _ & _ & _ & _ & Hactive & _);
    try (vm_compute; reflexivity).
  exists st'. split; [exact Hrun | exact Hactive].
Defined.

Lemma prepare_project_image_by_name_plain_witness :
  exists st',
    prepare_project_image_by_name unit offline DIR false ascii_isalnum
      yaml_language_c stderr_text "zlib" "1f" st_projects
    = (Ok "", st')
    /\ log st' = [build_image_cmd DIR "zlib-1f" "c"]
    /\ fs st' !! "/oss-fuzz/projects/zlib-1f/Dockerfile"
       = Some FIXTURE_BASE_BUILDER.
Proof.
  destruct (prepare_project_image_by_name_plain offline DIR ascii_isalnum
              yaml_language_c stderr_text "zlib" "1f" "c" st_projects false
              false tt tt)
    as (st' & Hrun & _ & Hlog & Hcopy & _);
    try (vm_compute; reflexivity).
  exists st'. split; [exact Hrun|]. split; [exact Hlog|].
  exact (Hcopy "Dockerfile").
Defined.


Lemma uncaught_error_aborts_all_witness :
  prepare_cached_images_loop unit no_docker DIR ["zlib"; "libxml2"; "libpng"]
    st_script
  = (Raise (FileNotFoundError "docker"),
     MkState (fs st_script) tt
       (log st_script
        ++ [manifest_inspect_cmd
              (_get_project_cache_image_name "libxml2" "address")])).
Proof.
  apply (uncaught_error_aborts_all no_docker DIR ["zlib"] "libxml2" ["libpng"]
           st_script (FileNotFoundError "docker") tt).
  - constructor; [vm_compute; reflexivity | constructor].
  - vm_compute. eauto.
  - reflexivity.
Defined.

Lemma build_image_malformed_descriptor_witness :
  _build_image unit online DIR yaml_language_c stderr_text "zlib"
    st_empty_descriptor
  = (Raise AttributeError, st_empty_descriptor).
Proof.
  apply (build_image_malformed_descriptor online DIR yaml_language_c
           stderr_text "zlib" "" st_empty_descriptor);
    [vm_compute; reflexivity | exact I].
Defined.

Lemma prepare_project_image_by_name_malformed_witness :
  exists st',
    prepare_project_image_by_name unit offline DIR true ascii_isalnum
      yaml_language_c stderr_text "zlib" "1f" st_empty_descriptor
    = (Raise AttributeError, st')
    /\ log st'
       = [manifest_inspect_cmd (_get_project_cache_image_name "zlib" "address")]
    /\ fs st' !! "/oss-fuzz/projects/zlib-1f/Dockerfile"
       = Some FIXTURE_BASE_BUILDER.
Proof.
  destruct (prepare_project_image_by_name_malformed offline DIR ascii_isalnum
              yaml_language_c stderr_text "zlib" "1f" st_empty_descriptor true
              tt AttributeError)
    as (st' & Hrun & _ & Hlog & Hcopy & _);
    try (vm_compute; reflexivity).
  exists st'. split; [exact Hrun|]. split; [exact Hlog|].
  exact (Hcopy "Dockerfile").
Defined.
